(** * github-habitica: the webhook handler of [src/api/handler.ts]

    A shallow embedding of the Vercel function that mirrors GitHub
    pull-request events into Habitica to-dos, and the properties of its
    signature check, of its Habitica client and of its upsert protocol.

    Conventions of the model.
    - A JavaScript string is a Rocq [string] holding the UTF-8 encoding of
      the JavaScript value, so [Buffer.from(s, 'utf8')] is the list of its
      bytes and [buf.toString('utf8')] is the WHATWG decoder followed by the
      encoder (ill-formed input comes back with U+FFFD in place of each
      maximal ill-formed part).
    - A byte is a [Z] in [0, 256); a 32-bit word is a [Z] reduced modulo
      [2^32].
    - An [async] function is a computation in the monad [M]: it threads the
      observable world (console, outgoing requests, the HTTP response under
      construction) and either returns or throws.
    - [node:crypto] and [fetch] are not part of the repository: the first is
      modelled from FIPS 180-4 and RFC 2104 and checked on published test
      vectors, the second is a function of the calls made so far.
    - A request carries both the bytes of its body ([stream], what [buffer]
      read when the stream came to its end) and the payload the runtime
      parsed out of them ([body]). The stream that breaks off before its end
      is the matter of [verifyRequestSignature_reading].
    - A number is an integer that a double holds; [decimal] is the text
      JavaScript writes for it.
    - The locale of the host is one with the default case mapping, as
      en-US is: [toLocaleLowerCase] then does what [toLowerCase] does. It is
      modelled on ASCII text, which the logins and the repository names of
      GitHub are; the statements about the letters of an alias are made for
      such text. *)

From Stdlib Require Import ZArith List String Ascii Bool Lia.
From Stdlib Require Import DecimalString.
From Stdlib Require DecimalPos DecimalFacts.
Import ListNotations.
Local Open Scope string_scope.
Local Open Scope list_scope.
Local Open Scope Z_scope.

(* ================================================================== *)
(** ** Bytes and strings *)

Module Bytes.

Definition byte_of_ascii (a : ascii) : Z := Z.of_N (N_of_ascii a).
Definition ascii_of_byte (b : Z) : ascii := ascii_of_N (Z.to_N (b mod 256)).

(** [Buffer.from(s, 'utf8')] *)
Definition of_string (s : string) : list Z :=
  map byte_of_ascii (list_ascii_of_string s).

Definition to_string (bs : list Z) : string :=
  string_of_list_ascii (map ascii_of_byte bs).

Definition hex_digit (n : Z) : ascii :=
  if n <? 10 then ascii_of_byte (48 + n) else ascii_of_byte (87 + n).

(** [buf.toString('hex')]: two lowercase digits per byte. *)
Fixpoint hex (bs : list Z) : string :=
  match bs with
  | [] => EmptyString
  | b :: bs' =>
      String (hex_digit (Z.shiftr b 4)) (String (hex_digit (Z.land b 15)) (hex bs'))
  end.

End Bytes.

(* ================================================================== *)
(** ** SHA-256 (FIPS 180-4) and HMAC (RFC 2104), as [node:crypto] computes
    them for [createHmac('sha256', key).update(data).digest('hex')] *)

Module Sha256.

Definition wrap (x : Z) : Z := x mod 4294967296.
Definition add32 (x y : Z) : Z := wrap (x + y).
Definition rotr (n x : Z) : Z :=
  Z.lor (Z.shiftr x n) (wrap (Z.shiftl x (32 - n))).
Definition not32 (x : Z) : Z := 4294967295 - x.

Definition ch (x y z : Z) : Z := Z.lxor (Z.land x y) (Z.land (not32 x) z).
Definition maj (x y z : Z) : Z :=
  Z.lxor (Z.lxor (Z.land x y) (Z.land x z)) (Z.land y z).
Definition bsig0 (x : Z) : Z := Z.lxor (Z.lxor (rotr 2 x) (rotr 13 x)) (rotr 22 x).
Definition bsig1 (x : Z) : Z := Z.lxor (Z.lxor (rotr 6 x) (rotr 11 x)) (rotr 25 x).
Definition ssig0 (x : Z) : Z := Z.lxor (Z.lxor (rotr 7 x) (rotr 18 x)) (Z.shiftr x 3).
Definition ssig1 (x : Z) : Z := Z.lxor (Z.lxor (rotr 17 x) (rotr 19 x)) (Z.shiftr x 10).

(** The first sixty-four primes. *)
Definition primes : list Z :=
  [ 2; 3; 5; 7; 11; 13; 17; 19; 23; 29; 31; 37; 41; 43; 47; 53; 59; 61; 67;
    71; 73; 79; 83; 89; 97; 101; 103; 107; 109; 113; 127; 131; 137; 139; 149;
    151; 157; 163; 167; 173; 179; 181; 191; 193; 197; 199; 211; 223; 227; 229;
    233; 239; 241; 251; 257; 263; 269; 271; 277; 281; 283; 293; 307; 311 ].

(** The greatest [r] in [lo, hi) whose cube is at most [n], by bisection. *)
Fixpoint cube_root (fuel : nat) (n lo hi : Z) : Z :=
  match fuel with
  | O => lo
  | S fuel' =>
      let mid := (lo + hi) / 2 in
      if mid * mid * mid <=? n then cube_root fuel' n mid hi
      else cube_root fuel' n lo mid
  end.

(** The round constants: the first 32 bits of the fractional part of the
    cube root of each prime. *)
Definition K : list Z :=
  Eval vm_compute in
    map (fun p => wrap (cube_root 40 (p * 2 ^ 96) 0 (2 ^ 36))) primes.

(** The initial hash value: the same of the square roots of the first eight
    primes. *)
Definition H0 : list Z :=
  Eval vm_compute in
    map (fun p => wrap (Z.sqrt (p * 2 ^ 64))) (firstn 8 primes).

(** Big-endian bytes of a number, [n] of them. *)
Fixpoint be_bytes (n : nat) (x : Z) : list Z :=
  match n with
  | O => []
  | S n' => (Z.shiftr x (8 * Z.of_nat n')) mod 256 :: be_bytes n' x
  end.

Definition pad (msg : list Z) : list Z :=
  let len := Z.of_nat (List.length msg) in
  let zeros := Z.to_nat ((55 - len) mod 64) in
  msg ++ [128] ++ repeat 0 zeros ++ be_bytes 8 (8 * len).

(** Groups a byte list into big-endian 32-bit words. *)
Fixpoint words (bs : list Z) : list Z :=
  match bs with
  | a :: b :: c :: d :: rest =>
      (((a * 256 + b) * 256 + c) * 256 + d) :: words rest
  | _ => []
  end.

(** The message schedule: [w] holds W_{t-1} ... W_{t-16}, newest first. *)
Fixpoint schedule (n : nat) (w : list Z) : list Z :=
  match n with
  | O => w
  | S n' =>
      let wt := add32 (add32 (ssig1 (nth 1 w 0)) (nth 6 w 0))
                      (add32 (ssig0 (nth 14 w 0)) (nth 15 w 0)) in
      schedule n' (wt :: w)
  end.

Record regs := Regs { ra : Z; rb : Z; rc : Z; rd : Z; re : Z; rf : Z; rg : Z; rh : Z }.

Definition round (s : regs) (kw : Z * Z) : regs :=
  let t1 := add32 (add32 (add32 (add32 (rh s) (bsig1 (re s)))
                                (ch (re s) (rf s) (rg s))) (fst kw)) (snd kw) in
  let t2 := add32 (bsig0 (ra s)) (maj (ra s) (rb s) (rc s)) in
  Regs (add32 t1 t2) (ra s) (rb s) (rc s) (add32 (rd s) t1) (re s) (rf s) (rg s).

Definition regs_of (h : list Z) : regs :=
  Regs (nth 0 h 0) (nth 1 h 0) (nth 2 h 0) (nth 3 h 0)
       (nth 4 h 0) (nth 5 h 0) (nth 6 h 0) (nth 7 h 0).

Definition compress (h : list Z) (block : list Z) : list Z :=
  let w := rev (schedule 48 (rev (words block))) in
  let s0 := regs_of h in
  let s := fold_left round (combine K w) s0 in
  [ add32 (ra s0) (ra s); add32 (rb s0) (rb s); add32 (rc s0) (rc s);
    add32 (rd s0) (rd s); add32 (re s0) (re s); add32 (rf s0) (rf s);
    add32 (rg s0) (rg s); add32 (rh s0) (rh s) ].

(** Runs [compress] over [n] consecutive 64-byte blocks. *)
Fixpoint blocks (n : nat) (h : list Z) (bs : list Z) : list Z :=
  match n with
  | O => h
  | S n' => blocks n' (compress h (firstn 64 bs)) (skipn 64 bs)
  end.

Definition sha256 (msg : list Z) : list Z :=
  let p := pad msg in
  flat_map (be_bytes 4) (blocks (List.length p / 64) H0 p).

Definition xor_pad (c : Z) (key : list Z) : list Z :=
  map (fun b => Z.lxor b c) key.

Definition hmac_key (key : list Z) : list Z :=
  let k := if (64 <? Z.of_nat (List.length key)) then sha256 key else key in
  k ++ repeat 0 (64 - List.length k).

Definition hmac (key msg : list Z) : list Z :=
  let k := hmac_key key in
  sha256 (xor_pad 0x5c k ++ sha256 (xor_pad 0x36 k ++ msg)).

End Sha256.

(** [createHmac('sha256', key).update(data).digest('hex')] on two strings *)
Definition hmac_sha256_hex (key data : string) : string :=
  Bytes.hex (Sha256.hmac (Bytes.of_string key) (Bytes.of_string data)).

(* ================================================================== *)
(** ** UTF-8, as [buf.toString('utf8')] decodes it

    The decoder is the one of the WHATWG Encoding standard, which V8 follows:
    a lead byte opens a sequence, every continuation byte has to fall in the
    window the lead byte allows, and an offending byte closes the sequence
    with U+FFFD and is then looked at again as a possible lead byte. *)

Module Utf8.

Definition replacement : Z := 0xFFFD.

(** What the decoder remembers between two bytes. *)
Inductive dstate : Type :=
| Idle
| Pending (cp : Z) (remaining : nat) (lower upper : Z).

Definition between (lo b hi : Z) : bool := (lo <=? b) && (b <=? hi).

(** A byte met outside any sequence. *)
Definition lead (b : Z) : dstate * list Z :=
  if b <=? 0x7F then (Idle, [b])
  else if between 0xC2 b 0xDF then (Pending (Z.land b 0x1F) 1 0x80 0xBF, [])
  else if between 0xE0 b 0xEF then
    (Pending (Z.land b 0xF) 2
       (if b =? 0xE0 then 0xA0 else 0x80) (if b =? 0xED then 0x9F else 0xBF), [])
  else if between 0xF0 b 0xF4 then
    (Pending (Z.land b 0x7) 3
       (if b =? 0xF0 then 0x90 else 0x80) (if b =? 0xF4 then 0x8F else 0xBF), [])
  else (Idle, [replacement]).

Definition step (st : dstate) (b : Z) : dstate * list Z :=
  match st with
  | Idle => lead b
  | Pending cp n lo hi =>
      if between lo b hi then
        let cp' := Z.lor (Z.shiftl cp 6) (Z.land b 0x3F) in
        match n with
        | S (S n') => (Pending cp' (S n') 0x80 0xBF, [])
        | _ => (Idle, [cp'])
        end
      else
        let (st', out) := lead b in (st', replacement :: out)
  end.

Fixpoint run (st : dstate) (bs : list Z) : list Z :=
  match bs with
  | [] => match st with Idle => [] | Pending _ _ _ _ => [replacement] end
  | b :: bs' => let (st', out) := step st b in out ++ run st' bs'
  end.

(** Bytes to code points. *)
Definition decode (bs : list Z) : list Z := run Idle bs.

(** One code point to bytes. *)
Definition encode1 (c : Z) : list Z :=
  if c <? 0x80 then [c]
  else if c <? 0x800 then
    [Z.lor 0xC0 (Z.shiftr c 6); Z.lor 0x80 (Z.land c 0x3F)]
  else if c <? 0x10000 then
    [Z.lor 0xE0 (Z.shiftr c 12); Z.lor 0x80 (Z.land (Z.shiftr c 6) 0x3F);
     Z.lor 0x80 (Z.land c 0x3F)]
  else
    [Z.lor 0xF0 (Z.shiftr c 18); Z.lor 0x80 (Z.land (Z.shiftr c 12) 0x3F);
     Z.lor 0x80 (Z.land (Z.shiftr c 6) 0x3F); Z.lor 0x80 (Z.land c 0x3F)].

Definition encode (cps : list Z) : list Z := flat_map encode1 cps.

(** A Unicode scalar value: a code point that is not a surrogate. *)
Definition scalar (c : Z) : Prop :=
  0 <= c < 0xD800 \/ 0xE000 <= c < 0x110000.

(** [buf.toString('utf8')], the result again held as UTF-8. *)
Definition toString (raw : string) : string :=
  Bytes.to_string (encode (decode (Bytes.of_string raw))).

(** The byte strings that are the encoding of some text. *)
Definition well_formed (raw : string) : Prop :=
  exists cps, Forall scalar cps /\ Bytes.of_string raw = encode cps.

Definition scalarb (c : Z) : bool :=
  ((0 <=? c) && (c <? 0xD800)) || ((0xE000 <=? c) && (c <? 0x110000)).

Fixpoint same_bytes (a b : list Z) : bool :=
  match a, b with
  | [], [] => true
  | x :: a', y :: b' => (x =? y) && same_bytes a' b'
  | _, _ => false
  end.

(** A test for [well_formed]: decoding gives scalar values only, and
    encoding them gives the bytes back. *)
Definition well_formedb (raw : string) : bool :=
  let cps := decode (Bytes.of_string raw) in
  forallb scalarb cps && same_bytes (Bytes.of_string raw) (encode cps).

End Utf8.

(* ================================================================== *)
(** ** JavaScript values

    The payload is what [JSON.parse] gave: a tree of plain values.  A number
    [JNum n] is a double whose value is the integer [n] (a pull-request
    number is one); objects keep their fields in a list, the first binding
    of a key being the one in force. *)

#[warnings="-register-all"]
Inductive JValue : Type :=
| JUndefined
| JNull
| JBool (b : bool)
| JNum (n : Z)
| JStr (s : string)
| JArr (items : list JValue)
| JObj (fields : list (string * JValue)).

Inductive Exn : Type :=
| Error (message : string)
| TypeError (message : string)
| RangeError (message : string).

Inductive Outcome (A : Type) : Type :=
| Return (a : A)
| Throw (e : Exn).
Arguments Return {A} a.
Arguments Throw {A} e.

Definition and_then {A B} (o : Outcome A) (k : A -> Outcome B) : Outcome B :=
  match o with
  | Return a => k a
  | Throw e => Throw e
  end.

Definition nl : string := String (ascii_of_nat 10) EmptyString.

(** *** Numbers as text

    [Number::toString] for the numbers of the model, the integers a double
    holds. Below 2^53 every integer is a double and its text is its
    decimal digits. From there on the text has the fewest digits that
    still single out the double, followed by zeros up to 21 digits in all
    and by an exponent beyond. *)

(** The decimal digits of an integer *)
Definition digits (n : Z) : string := NilZero.string_of_int (Z.to_int n).

(** The double nearest to a natural number, ties going to the even
    mantissa of 53 bits: the double a numeral of a JSON text is read as *)
Definition to_double (m : Z) : Z :=
  if m <? 9007199254740992 then m
  else
    let shift := Z.log2 m - 52 in
    let q := Z.shiftr m shift in
    let r := m - Z.shiftl q shift in
    let half := Z.shiftl 1 (shift - 1) in
    let q' := if (half <? r) || ((r =? half) && Z.odd q) then q + 1 else q in
    Z.shiftl q' shift.

Definition nb_digits (m : Z) : Z := Z.of_nat (String.length (digits m)).

(** The number [s] of [k] digits and the power [p] of ten for which
    [s * 10^p] is read back as the double [x] and is nearest to it (the
    even [s] of two equally near), if there is one *)
Definition closest (x k : Z) : option (Z * Z) :=
  let p := nb_digits x - k in
  let lo := x / 10 ^ p in
  let ok := fun s => to_double (s * 10 ^ p) =? x in
  let pick :=
    if ok lo then
      if ok (lo + 1) then
        let below := x - lo * 10 ^ p in
        let above := (lo + 1) * 10 ^ p - x in
        if below <? above then Some lo
        else if above <? below then Some (lo + 1)
        else Some (if Z.even lo then lo else lo + 1)
      else Some lo
    else if ok (lo + 1) then Some (lo + 1)
    else None in
  match pick with
  | Some s => Some (if s =? 10 ^ k then (10 ^ (k - 1), p + 1) else (s, p))
  | None => None
  end.

(** The fewest digits that single out the double [x]: never more than 17 *)
Fixpoint shortest (fuel : nat) (x k : Z) : Z * Z :=
  match fuel with
  | O => (x, 0)
  | S fuel' =>
      match closest x k with
      | Some found => found
      | None => shortest fuel' x (k + 1)
      end
  end.

Fixpoint zeros (n : nat) : string :=
  match n with
  | O => EmptyString
  | S n' => String "0"%char (zeros n')
  end.

(** The text of a double from 2^53 on *)
Definition large_number_text (x : Z) : string :=
  let (s, p) := shortest 17 x 1 in
  let n := p + nb_digits s in
  if n <=? 21 then (digits s ++ zeros (Z.to_nat p))%string
  else
    match digits s with
    | EmptyString => EmptyString
    | String d EmptyString => String d ("e+" ++ digits (n - 1))
    | String d more => String d ("." ++ more ++ "e+" ++ digits (n - 1))
    end.

(** The text a template literal puts for a number *)
Definition decimal (n : Z) : string :=
  let x := to_double (Z.abs n) in
  if x <? 9007199254740992 then digits n
  else
    let sign := if n <? 0 then "-" else EmptyString in
    let magnitude :=
      if 2 ^ 1024 <=? x then "Infinity" else large_number_text x in
    (sign ++ magnitude)%string.

Fixpoint lookup (k : string) (fields : list (string * JValue)) : JValue :=
  match fields with
  | [] => JUndefined
  | (k', v) :: rest => if String.eqb k k' then v else lookup k rest
  end.

(** [v.k] for the property names the handler reads, none of which is
    inherited from a prototype: reading through [undefined] or [null]
    throws, an object gives its field or [undefined], and every other value
    gives [undefined]. *)
Definition get_prop (v : JValue) (k : string) : Outcome JValue :=
  match v with
  | JUndefined =>
      Throw (TypeError
        ("Cannot read properties of undefined (reading '" ++ k ++ "')")%string)
  | JNull =>
      Throw (TypeError
        ("Cannot read properties of null (reading '" ++ k ++ "')")%string)
  | JObj fields => Return (lookup k fields)
  | _ => Return JUndefined
  end.

(** The text a template literal puts for [${v}], for the values whose
    conversion does not throw (see [ToString] below). *)
Fixpoint to_str (v : JValue) : string :=
  match v with
  | JUndefined => "undefined"
  | JNull => "null"
  | JBool true => "true"
  | JBool false => "false"
  | JNum n => decimal n
  | JStr s => s
  | JArr items =>
      (fix join (l : list JValue) : string :=
         match l with
         | [] => EmptyString
         | x :: l' =>
             ((match x with
               | JUndefined | JNull => EmptyString
               | _ => to_str x
               end)
              ++ (match l' with
                  | [] => EmptyString
                  | _ :: _ => "," ++ join l'
                  end))%string
         end) items
  | JObj _ => "[object Object]"
  end.

(** The object has an own property of that name. *)
Definition has_own (k : string) (fields : list (string * JValue)) : bool :=
  existsb (fun kv => String.eqb k (fst kv)) fields.

(** The conversion a template literal applies to [${v}]. An object is
    converted by its [toString]: the one it inherits gives
    "[object Object]", but an own property of that name, which in a parsed
    payload is never a function, leaves no way to convert it (its [valueOf]
    gives the object back) and the conversion throws. An array joins the
    conversions of its elements, [null] counting as the empty text. *)
Fixpoint ToString (v : JValue) : Outcome string :=
  match v with
  | JUndefined => Return "undefined"
  | JNull => Return "null"
  | JBool true => Return "true"
  | JBool false => Return "false"
  | JNum n => Return (decimal n)
  | JStr s => Return s
  | JArr items =>
      (fix join (l : list JValue) : Outcome string :=
         match l with
         | [] => Return EmptyString
         | x :: l' =>
             and_then (match x with
                       | JUndefined | JNull => Return EmptyString
                       | _ => ToString x
                       end)
               (fun first =>
                  match l' with
                  | [] => Return first
                  | _ :: _ =>
                      and_then (join l')
                        (fun rest => Return (first ++ "," ++ rest)%string)
                  end)
         end) items
  | JObj fields =>
      if has_own "toString" fields then
        Throw (TypeError "Cannot convert object to primitive value")
      else Return "[object Object]"
  end.

(** [a === b] on two values taken from different places of a payload: two
    objects or two arrays are then never the same object. *)
Definition strict_eq (a b : JValue) : bool :=
  match a, b with
  | JUndefined, JUndefined => true
  | JNull, JNull => true
  | JBool x, JBool y => Bool.eqb x y
  | JNum x, JNum y => x =? y
  | JStr x, JStr y => String.eqb x y
  | _, _ => false
  end.

Definition is_upper (a : ascii) : bool :=
  ((65 <=? N_of_ascii a) && (N_of_ascii a <=? 90))%N.

Definition lower_ascii (a : ascii) : ascii :=
  if is_upper a then ascii_of_N (N_of_ascii a + 32) else a.

(** [s.toLocaleLowerCase()] for ASCII text, in a host locale with the
    default case mapping (any but Turkish, Azeri and Lithuanian): the
    letters A to Z are lowered. GitHub logins and repository names are such
    text. Bytes of other characters are left as they are, which is not what
    the host does for text that has upper-case letters outside ASCII. *)
Fixpoint toLocaleLowerCase (s : string) : string :=
  match s with
  | EmptyString => EmptyString
  | String a s' => String (lower_ascii a) (toLocaleLowerCase s')
  end.

(* ================================================================== *)
(** ** The request, the environment and the world outside *)

(** A header of [IncomingHttpHeaders]: [string | string[] | undefined]. *)
Inductive Header : Type :=
| HAbsent
| HOne (value : string)
| HMany (values : list string).

Definition header_to_str (h : Header) : string :=
  match h with
  | HAbsent => "undefined"
  | HOne s => s
  | HMany l => String.concat "," l
  end.

(** [h === s] for a string [s] *)
Definition header_is (h : Header) (s : string) : bool :=
  match h with
  | HOne v => String.eqb v s
  | _ => false
  end.

Record VercelRequest : Type := {
  method : option string;
  headers : list (string * Header);
  stream : string;      (** the bytes of the body, once [buffer] has read
                            the stream to its end *)
  body : JValue         (** [request.body], the parsed payload *)
}.

Fixpoint header_lookup (k : string) (hs : list (string * Header)) : Header :=
  match hs with
  | [] => HAbsent
  | (k', v) :: rest => if String.eqb k k' then v else header_lookup k rest
  end.

Definition header (request : VercelRequest) (k : string) : Header :=
  header_lookup k (headers request).

(** [process.env] *)
Record Env : Type := {
  HABITICA_USER_ID : option string;
  HABITICA_API_TOKEN : option string;
  GITHUB_WEBHOOK_SECRET : option string
}.

(** A value of [process.env] that passes [if (x)]: set and not empty. *)
Definition truthy (x : option string) : option string :=
  match x with
  | Some EmptyString => None
  | other => other
  end.

Inductive HabiticaTaskPriority : Type := Trivial | Easy | Medium | Hard.

(** The numbers of the enum, as (numerator, denominator). *)
Definition priority_value (p : HabiticaTaskPriority) : Z * Z :=
  match p with
  | Trivial => (1, 10)
  | Easy => (1, 1)
  | Medium => (3, 2)
  | Hard => (2, 1)
  end.

Inductive TaskType : Type := todo | daily | habit | reward.
Inductive Direction : Type := up | down.

Definition direction_str (d : Direction) : string :=
  match d with up => "up" | down => "down" end.

(** The object [createTask] hands to [JSON.stringify]. *)
Record TaskPayload : Type := {
  p_alias : string;
  p_type : TaskType;
  p_text : string;
  p_notes : option string;
  p_priority : HabiticaTaskPriority
}.

(** One call of [fetch]. *)
Record FetchCall : Type := {
  f_url : string;
  f_method : string;
  f_headers : list (string * string);
  f_body : option TaskPayload
}.

(** What [fetch] resolves to; [r_text = None] when reading the body fails. *)
Record Response : Type := {
  r_status : Z;
  r_url : string;
  r_text : option string
}.

Inductive FetchOutcome : Type :=
| NetworkError
| Responded (res : Response).

(** The remote service: its answer to a call, given the calls made so far. *)
Definition Remote : Type := list FetchCall -> FetchCall -> FetchOutcome.

Inductive Event : Type :=
| ConsoleLog (line : string)
| ConsoleError (line : string)
| Fetch (call : FetchCall).

Record World : Type := {
  env : Env;
  remote : Remote;
  trace : list Event;          (** oldest first *)
  statusCode : Z;              (** [response.statusCode] *)
  sent : option string         (** the body, once [send] was called *)
}.

Definition fetch_calls (t : list Event) : list FetchCall :=
  flat_map (fun e => match e with Fetch c => [c] | _ => [] end) t.

Definition emit (e : Event) (w : World) : World :=
  {| env := env w; remote := remote w; trace := trace w ++ [e];
     statusCode := statusCode w; sent := sent w |}.

Definition set_status (code : Z) (w : World) : World :=
  {| env := env w; remote := remote w; trace := trace w;
     statusCode := code; sent := sent w |}.

Definition set_sent (b : string) (w : World) : World :=
  {| env := env w; remote := remote w; trace := trace w;
     statusCode := statusCode w; sent := Some b |}.

(* ================================================================== *)
(** ** Asynchronous code: state and exceptions *)

Definition M (A : Type) : Type := World -> Outcome A * World.

Definition ret {A} (a : A) : M A := fun w => (Return a, w).
Definition throw {A} (e : Exn) : M A := fun w => (Throw e, w).
Definition bind {A B} (m : M A) (k : A -> M B) : M B :=
  fun w =>
    match m w with
    | (Return a, w') => k a w'
    | (Throw e, w') => (Throw e, w')
    end.
Definition lift {A} (o : Outcome A) : M A := fun w => (o, w).

Declare Scope js_scope.
Delimit Scope js_scope with js.
Notation "x <- m ;; k" := (bind m (fun x => k))
  (at level 61, m at next level, right associativity) : js_scope.
Notation "m ;; k" := (bind m (fun _ => k))
  (at level 61, right associativity) : js_scope.
Local Open Scope js_scope.

Definition console_log (line : string) : M unit :=
  fun w => (Return tt, emit (ConsoleLog line) w).
Definition console_error (line : string) : M unit :=
  fun w => (Return tt, emit (ConsoleError line) w).
Definition getenv (var : Env -> option string) : M (option string) :=
  fun w => (Return (var (env w)), w).

Definition fetch (c : FetchCall) : M Response :=
  fun w =>
    match remote w (fetch_calls (trace w)) c with
    | NetworkError => (Throw (TypeError "fetch failed"), emit (Fetch c) w)
    | Responded res => (Return res, emit (Fetch c) w)
    end.

(** [await res.text()] *)
Definition text (res : Response) : M string :=
  match r_text res with
  | Some t => ret t
  | None => throw (TypeError "terminated")
  end.

(** [response.status(code)] and [response.send(body)] *)
Definition status (code : Z) : M unit := fun w => (Return tt, set_status code w).
Definition send (b : string) : M unit := fun w => (Return tt, set_sent b w).

(* ================================================================== *)
(** ** [class HabiticaAPI] *)

Module HabiticaAPI.

Definition baseUrl : string := "https://habitica.com/api/v3/".
Definition client : string := "test-github-to-habitica".

Definition call (method : string) (path : string)
    (payload : option TaskPayload) (headers : list (string * string))
    : M Response :=
  userId <- getenv HABITICA_USER_ID ;;
  apiToken <- getenv HABITICA_API_TOKEN ;;
  match truthy userId, truthy apiToken with
  | Some userId, Some apiToken =>
      res <- fetch {|
        f_url := (baseUrl ++ path)%string;
        f_method := method;
        f_headers :=
          headers
          ++ [ ("x-api-user", userId);
               ("x-api-key", apiToken);
               ("x-client", (userId ++ "-" ++ client)%string) ]
          ++ match payload with
             | Some _ => [("content-type", "application/json")]
             | None => []
             end;
        f_body := payload |} ;;
      body <- text res ;;
      console_log (nl ++ decimal (r_status res) ++ " " ++ method ++ " "
                   ++ baseUrl ++ path ++ nl ++ body ++ nl ++ "        ")%string ;;
      ret res
  | _, _ => throw (Error "Missing Habitica credentials")
  end.

Definition createTask (alias : string) (type : option TaskType)
    (text : string) (notes : option string)
    (priority : option HabiticaTaskPriority) : M Response :=
  call "POST" "tasks/user"
    (Some {| p_alias := alias;
             p_type := match type with Some t => t | None => todo end;
             p_text := text;
             p_notes := notes;
             p_priority := match priority with Some p => p | None => Easy end |})
    [].

Definition scoreTask (taskId : string) (direction : Direction) : M Response :=
  call "POST" ("tasks/" ++ taskId ++ "/score/" ++ direction_str direction)%string
    None [].

Definition hasTask (alias : string) : M bool :=
  response <- call "GET" ("tasks/" ++ alias)%string None [] ;;
  if r_status response =? 404 then ret false
  else if r_status response =? 200 then ret true
  else throw (Error ("Unexpected response from: " ++ r_url response)%string).

End HabiticaAPI.

(* ================================================================== *)
(** ** [class Habitica] *)

Module Habitica.

(** Resolves to the response of the create call, or to [undefined]. *)
Definition addTodo (alias text : string) (notes : option string)
    (priority : option HabiticaTaskPriority) : M (option Response) :=
  taskExists <- HabiticaAPI.hasTask alias ;;
  if taskExists : bool then
    console_log ("Task already exists: " ++ alias)%string ;;
    ret None
  else
    console_log ("Creating task: " ++ alias)%string ;;
    res <- HabiticaAPI.createTask alias (Some todo) text notes priority ;;
    ret (Some res).

Definition completeTodo (alias : string) : M (option Response) :=
  taskExists <- HabiticaAPI.hasTask alias ;;
  if negb taskExists then
    console_log ("Task does not exist: " ++ alias)%string ;;
    ret None
  else
    console_log ("Completing task: " ++ alias)%string ;;
    res <- HabiticaAPI.scoreTask alias up ;;
    ret (Some res).

End Habitica.

(* ================================================================== *)
(** ** The signature check *)

(** [crypto.timingSafeEqual]: every pair of bytes is looked at, whatever the
    earlier ones were; buffers of different lengths are refused. *)
Definition timingSafeEqual (a b : list Z) : Outcome bool :=
  if Nat.eqb (List.length a) (List.length b) then
    Return (fold_left (fun acc xy => Z.lor acc (Z.lxor (fst xy) (snd xy)))
                      (combine a b) 0 =? 0)
  else Throw (RangeError "Input buffers must have the same byte length").

(** The string the signature header is compared with. *)
Definition expected_signature (secret rawBody : string) : string :=
  ("sha256=" ++ hmac_sha256_hex secret rawBody)%string.

(** The text the digest is taken over, [(await buffer(request)).toString
    ('utf8')] for a POST whose stream was read to its end and the empty
    text for any other request. *)
Definition rawBody_of (request : VercelRequest) : string :=
  match method request with
  | Some m => if String.eqb m "POST" then Utf8.toString (stream request)
              else EmptyString
  | None => EmptyString
  end.

(** The check on a request whose body was read to its end. What it does
    when the stream breaks off is in [verifyRequestSignature_reading]
    below. *)
Definition verifyRequestSignature (request : VercelRequest) : M unit :=
  secret <- getenv GITHUB_WEBHOOK_SECRET ;;
  match truthy secret with
  | None => throw (Error "Missing GITHUB_WEBHOOK_SECRET")
  | Some secret =>
      let sig :=
        Bytes.of_string (header_to_str (header request "x-hub-signature-256")) in
      let rawBody := rawBody_of request in
      let digest := Bytes.of_string (expected_signature secret rawBody) in
      if negb (Nat.eqb (List.length sig) (List.length digest)) then
        throw (Error "Invalid webhook signature")
      else
        equal <- lift (timingSafeEqual sig digest) ;;
        if negb equal then throw (Error "Invalid webhook signature")
        else ret tt
  end.

(* ================================================================== *)
(** ** The event mapper *)

Definition prop (v : JValue) (k : string) : M JValue := lift (get_prop v k).

(** [${v}] in a template literal *)
Definition template (v : JValue) : M string := lift (ToString v).

(** [`github__${owner}-${repo}-${number}`.toLocaleLowerCase()], once the
    three values are text *)
Definition alias_of_text (owner repo number : string) : string :=
  toLocaleLowerCase ("github__" ++ owner ++ "-" ++ repo ++ "-" ++ number).

(** The alias of three values whose conversion does not throw. *)
Definition taskAlias (owner repo number : JValue) : string :=
  alias_of_text (to_str owner) (to_str repo) (to_str number).

Definition updateHabiticaTodoFromGitHub (request : VercelRequest) : M unit :=
  let payload := body request in
  if negb (header_is (header request "x-github-event") "pull_request") then
    console_error "Not a pull request event"
  else
    pull_request <- prop payload "pull_request" ;;
    user <- prop pull_request "user" ;;
    author <- prop user "login" ;;
    repository <- prop payload "repository" ;;
    owner <- prop repository "owner" ;;
    owner_login <- prop owner "login" ;;
    let taskPriority := if strict_eq author owner_login then Medium else Easy in
    repository <- prop payload "repository" ;;
    owner <- prop repository "owner" ;;
    owner_login <- prop owner "login" ;;
    owner_text <- template owner_login ;;
    repository <- prop payload "repository" ;;
    name <- prop repository "name" ;;
    name_text <- template name ;;
    number <- prop payload "number" ;;
    number_text <- template number ;;
    let alias := alias_of_text owner_text name_text number_text in
    repository <- prop payload "repository" ;;
    full_name <- prop repository "full_name" ;;
    full_name_text <- template full_name ;;
    number <- prop payload "number" ;;
    number_text <- template number ;;
    let taskText := (full_name_text ++ "#" ++ number_text)%string in
    pull_request <- prop payload "pull_request" ;;
    title <- prop pull_request "title" ;;
    title_text <- template title ;;
    pull_request <- prop payload "pull_request" ;;
    html_url <- prop pull_request "html_url" ;;
    html_url_text <- template html_url ;;
    let taskNote := (title_text ++ nl ++ html_url_text)%string in
    action <- prop payload "action" ;;
    if strict_eq action (JStr "opened") then
      console_log ("pull request.opened: " ++ alias)%string ;;
      Habitica.addTodo alias taskText (Some taskNote) (Some taskPriority) ;;
      ret tt
    else
      action <- prop payload "action" ;;
      if strict_eq action (JStr "closed") then
        console_log ("pull request.closed: " ++ alias)%string ;;
        Habitica.completeTodo alias ;;
        ret tt
      else ret tt.

(* ================================================================== *)
(** ** The entry point *)

Definition handler (request : VercelRequest) : M unit :=
  fun w =>
    match verifyRequestSignature request w with
    | (Throw _, w') => (status 403 ;; send EmptyString) w'
    | (Return _, w') =>
        (updateHabiticaTodoFromGitHub request ;;
         status 200 ;;
         send EmptyString) w'
    end.

(* ================================================================== *)
(** ** Vocabulary of the statements *)

(** The headers every call to Habitica carries. *)
Definition api_headers (userId apiToken : string) (json : bool)
    : list (string * string) :=
  [ ("x-api-user", userId);
    ("x-api-key", apiToken);
    ("x-client", (userId ++ "-test-github-to-habitica")%string) ]
  ++ (if json then [("content-type", "application/json")] else []).

(** [GET {base}/tasks/{alias}] *)
Definition lookup_call (userId apiToken alias : string) : FetchCall :=
  {| f_url := ("https://habitica.com/api/v3/tasks/" ++ alias)%string;
     f_method := "GET";
     f_headers := api_headers userId apiToken false;
     f_body := None |}.

(** [POST {base}/tasks/user] *)
Definition create_call (userId apiToken : string) (p : TaskPayload) : FetchCall :=
  {| f_url := "https://habitica.com/api/v3/tasks/user";
     f_method := "POST";
     f_headers := api_headers userId apiToken true;
     f_body := Some p |}.

(** [POST {base}/tasks/{alias}/score/{direction}] *)
Definition score_call (userId apiToken alias : string) (d : Direction) : FetchCall :=
  {| f_url := ("https://habitica.com/api/v3/tasks/" ++ alias ++ "/score/"
               ++ direction_str d)%string;
     f_method := "POST";
     f_headers := api_headers userId apiToken false;
     f_body := None |}.

Definition is_create (c : FetchCall) : bool :=
  String.eqb (f_method c) "POST"
  && String.eqb (f_url c) "https://habitica.com/api/v3/tasks/user".

Definition is_create_of (alias : string) (c : FetchCall) : bool :=
  is_create c
  && match f_body c with
     | Some p => String.eqb (p_alias p) alias
     | None => false
     end.

(** A task of that alias was created by one of the calls. *)
Definition created (alias : string) (history : list FetchCall) : bool :=
  existsb (is_create_of alias) history.

(** The calls a computation added to the world. *)
Definition calls_of (w : World) : list FetchCall := fetch_calls (trace w).

(** A tracker whose existence check reflects the creations made through
    this client (section 6 of the specification: 200 when the task exists,
    404 when it does not), and which answers every call. *)
Definition reflects_creations (R : Remote) : Prop :=
  forall history c,
    exists res,
      R history c = Responded res
      /\ r_text res <> None
      /\ forall alias,
           f_method c = "GET" ->
           f_url c = ("https://habitica.com/api/v3/tasks/" ++ alias)%string ->
           r_status res = if created alias history then 200 else 404.

Fixpoint strip_prefix (p s : string) : option string :=
  match p, s with
  | EmptyString, _ => Some s
  | String a p', String b s' =>
      if Ascii.eqb a b then strip_prefix p' s' else None
  | String _ _, EmptyString => None
  end.

(** A tracker that starts empty and remembers what was created. *)
Definition ledger : Remote :=
  fun history c =>
    let answer (code : Z) :=
      Responded {| r_status := code; r_url := f_url c; r_text := Some "{}" |} in
    if String.eqb (f_method c) "GET" then
      match strip_prefix "https://habitica.com/api/v3/tasks/" (f_url c) with
      | Some alias => answer (if created alias history then 200 else 404)
      | None => answer 404
      end
    else if is_create c then answer 201
    else answer 200.

(** The fields of a pull-request payload, in the order the mapper reads
    them. [read_payload] gives them when lines 201 to 211 of the mapper run
    to their end: every property could be read and every value put into a
    template literal could be converted. *)
Record PullRequestPayload : Type := {
  pr_author : JValue;
  pr_owner : JValue;
  pr_name : JValue;
  pr_number : JValue;
  pr_full_name : JValue;
  pr_title : JValue;
  pr_html_url : JValue;
  pr_action : JValue
}.

Definition read_payload (payload : JValue) : Outcome PullRequestPayload :=
  and_then (get_prop payload "pull_request") (fun pull_request =>
  and_then (get_prop pull_request "user") (fun user =>
  and_then (get_prop user "login") (fun author =>
  and_then (get_prop payload "repository") (fun repository =>
  and_then (get_prop repository "owner") (fun owner =>
  and_then (get_prop owner "login") (fun owner_login =>
  and_then (ToString owner_login) (fun _ =>
  and_then (get_prop repository "name") (fun name =>
  and_then (ToString name) (fun _ =>
  and_then (get_prop payload "number") (fun number =>
  and_then (ToString number) (fun _ =>
  and_then (get_prop repository "full_name") (fun full_name =>
  and_then (ToString full_name) (fun _ =>
  and_then (get_prop pull_request "title") (fun title =>
  and_then (ToString title) (fun _ =>
  and_then (get_prop pull_request "html_url") (fun html_url =>
  and_then (ToString html_url) (fun _ =>
  and_then (get_prop payload "action") (fun action =>
  Return {| pr_author := author; pr_owner := owner_login; pr_name := name;
            pr_number := number; pr_full_name := full_name;
            pr_title := title; pr_html_url := html_url;
            pr_action := action |})))))))))))))))))).

Definition pr_alias (f : PullRequestPayload) : string :=
  taskAlias (pr_owner f) (pr_name f) (pr_number f).

Definition pr_priority (f : PullRequestPayload) : HabiticaTaskPriority :=
  if strict_eq (pr_author f) (pr_owner f) then Medium else Easy.

(** The task an "opened" event asks for. *)
Definition pr_task (f : PullRequestPayload) : TaskPayload :=
  {| p_alias := pr_alias f;
     p_type := todo;
     p_text := (to_str (pr_full_name f) ++ "#" ++ to_str (pr_number f))%string;
     p_notes := Some (to_str (pr_title f) ++ nl ++ to_str (pr_html_url f))%string;
     p_priority := pr_priority f |}.

(** The statements about the alias name letters by their character codes:
    the capital letters A to Z have the codes 65 to 90, and the small letter
    of a capital is 32 further on. *)
Definition code (a : ascii) : Z := Z.of_nat (nat_of_ascii a).

Definition capital (a : ascii) : bool := (65 <=? code a) && (code a <=? 90).

(** Two characters, then two strings, that differ at most in the case of
    their letters. *)
Definition same_letter (a b : ascii) : Prop :=
  a = b \/ (capital a = true /\ code b = code a + 32)
        \/ (capital b = true /\ code a = code b + 32).

Inductive same_modulo_case : string -> string -> Prop :=
| smc_empty : same_modulo_case EmptyString EmptyString
| smc_char a b s t :
    same_letter a b -> same_modulo_case s t ->
    same_modulo_case (String a s) (String b t).

(** A text without capital letters. *)
Fixpoint no_capital (s : string) : bool :=
  match s with
  | EmptyString => true
  | String a s' => negb (capital a) && no_capital s'
  end.

(** A text of ASCII characters only, as the logins and the repository names
    of GitHub are. *)
Fixpoint ascii_text (s : string) : bool :=
  match s with
  | EmptyString => true
  | String a s' => (code a <? 128) && ascii_text s'
  end.

(** The number a text of decimal digits writes, read from its first digit
    on; [None] for a text with another character. *)
Fixpoint digits_value (acc : Z) (s : string) : option Z :=
  match s with
  | EmptyString => Some acc
  | String a s' =>
      if (48 <=? code a) && (code a <=? 57)
      then digits_value (10 * acc + (code a - 48)) s'
      else None
  end.

(** [d] writes the natural number [n] the way JavaScript does: in decimal
    digits, at least one, the first of which is 0 for 0 only. *)
Definition numeral_of (n : Z) (d : string) : Prop :=
  digits_value 0 d = Some n
  /\ d <> EmptyString
  /\ forall rest, d = String "0"%char rest -> rest = EmptyString.

(** The natural numbers a double holds exactly, which a template literal
    writes in full. *)
Definition safe_natural (n : Z) : Prop := 0 <= n <= 9007199254740991.

(** What the caller of the webhook sees. *)
Definition http_response (w : World) : option (Z * string) :=
  match sent w with
  | Some b => Some (statusCode w, b)
  | None => None
  end.

(** [w'] is [w] after more console lines and calls: environment, remote
    service and HTTP response are the same. *)
Definition grows (w w' : World) : Prop :=
  env w' = env w /\ remote w' = remote w
  /\ statusCode w' = statusCode w /\ sent w' = sent w
  /\ exists t, trace w' = trace w ++ t.

(** A computation that only writes console lines and makes calls. *)
Definition quiet {A} (m : M A) : Prop := forall w, grows w (snd (m w)).

(** The line [call] writes once the answer has been read. *)
Definition call_line (method url : string) (res : Response) (body : string)
    : string :=
  (nl ++ decimal (r_status res) ++ " " ++ method ++ " " ++ url ++ nl
   ++ body ++ nl ++ "        ")%string.

(** The world after a lookup that was answered and read. *)
Definition looked_up (u t alias : string) (res : Response) (b : string)
    (w : World) : World :=
  emit (ConsoleLog (call_line "GET"
          ("https://habitica.com/api/v3/tasks/" ++ alias) res b))
       (emit (Fetch (lookup_call u t alias)) w).

(** The same request with another parsed payload. *)
Definition with_body (request : VercelRequest) (payload : JValue) : VercelRequest :=
  {| method := method request; headers := headers request;
     stream := stream request; body := payload |}.

(** The payload has a field [k] that is an object. *)
Definition has_object (payload : JValue) (k : string) : bool :=
  match get_prop payload k with
  | Return (JObj _) => true
  | _ => false
  end.

(* ================================================================== *)
(** ** Sample deliveries *)

Module Sample.

Definition quote : string := String (ascii_of_nat 34) EmptyString.

(** The JSON text of a payload whose strings need no escaping. *)
Fixpoint json_text (v : JValue) : string :=
  match v with
  | JUndefined | JNull => "null"
  | JBool true => "true"
  | JBool false => "false"
  | JNum n => decimal n
  | JStr s => (quote ++ s ++ quote)%string
  | JArr items =>
      ("["
       ++ (fix go (l : list JValue) : string :=
             match l with
             | [] => EmptyString
             | x :: l' =>
                 (json_text x
                  ++ match l' with [] => EmptyString | _ :: _ => "," ++ go l' end)
             end%string) items
       ++ "]")%string
  | JObj fields =>
      ("{"
       ++ (fix go (l : list (string * JValue)) : string :=
             match l with
             | [] => EmptyString
             | (k, x) :: l' =>
                 (quote ++ k ++ quote ++ ":" ++ json_text x
                  ++ match l' with [] => EmptyString | _ :: _ => "," ++ go l' end)
             end%string) fields
       ++ "}")%string
  end.

Definition secret : string := "It's a Secret to Everybody".

Definition configured : Env :=
  {| HABITICA_USER_ID := Some "8a2f6c1e";
     HABITICA_API_TOKEN := Some "t0ken";
     GITHUB_WEBHOOK_SECRET := Some secret |}.

(** The webhook secret is set, the Habitica credentials are not. *)
Definition no_credentials : Env :=
  {| HABITICA_USER_ID := None;
     HABITICA_API_TOKEN := None;
     GITHUB_WEBHOOK_SECRET := Some secret |}.

(** A world in which nothing happened yet. *)
Definition fresh (e : Env) (R : Remote) : World :=
  {| env := e; remote := R; trace := []; statusCode := 200; sent := None |}.

(** A tracker that is down: every call is answered 500. *)
Definition broken : Remote :=
  fun _ c =>
    Responded {| r_status := 500; r_url := f_url c;
                 r_text := Some "Internal Server Error" |}.

(** A tracker that knows every task. *)
Definition knows_all : Remote :=
  fun _ c =>
    Responded {| r_status := 200; r_url := f_url c; r_text := Some "{}" |}.

(** Pull request 42 of Acme/Widgets. *)
Definition pull_request_event (action author : string) : JValue :=
  JObj [ ("action", JStr action);
         ("number", JNum 42);
         ("pull_request",
          JObj [ ("html_url", JStr "https://github.com/Acme/Widgets/pull/42");
                 ("title", JStr "Add sprockets");
                 ("user", JObj [ ("login", JStr author) ]) ]);
         ("repository",
          JObj [ ("name", JStr "Widgets");
                 ("full_name", JStr "Acme/Widgets");
                 ("owner", JObj [ ("login", JStr "Acme") ]) ]) ].

(** A pull-request event without the two objects the mapper reads. *)
Definition bare_event (action : string) : JValue :=
  JObj [ ("action", JStr action); ("number", JNum 42) ].

(** A delivery as GitHub signs it. *)
Definition delivery (event : string) (payload : JValue) : VercelRequest :=
  {| method := Some "POST";
     headers :=
       [ ("x-github-event", HOne event);
         ("x-hub-signature-256",
          HOne (expected_signature secret (json_text payload))) ];
     stream := json_text payload;
     body := payload |}.

(** The same without the signature header. *)
Definition unsigned (event : string) (payload : JValue) : VercelRequest :=
  {| method := Some "POST";
     headers := [ ("x-github-event", HOne event) ];
     stream := json_text payload;
     body := payload |}.

(** A request whose body is the one byte [b], signed for the text the
    handler reads out of the byte 0xFF. *)
Definition one_byte (b : Z) : VercelRequest :=
  {| method := Some "POST";
     headers :=
       [ ("x-github-event", HOne "ping");
         ("x-hub-signature-256",
          HOne (expected_signature secret
                  (Utf8.toString (Bytes.to_string [0xFF])))) ];
     stream := Bytes.to_string [b];
     body := JUndefined |}.

(** A request that is not a POST, signed over the bytes of its body. *)
Definition not_a_post : VercelRequest :=
  {| method := Some "PUT";
     headers :=
       [ ("x-github-event", HOne "ping");
         ("x-hub-signature-256",
          HOne (expected_signature secret "Hello, World!")) ];
     stream := "Hello, World!";
     body := JUndefined |}.

(** The deliveries and worlds the examples below run. *)
Definition opened : VercelRequest :=
  delivery "pull_request" (pull_request_event "opened" "Acme").
Definition closed : VercelRequest :=
  delivery "pull_request" (pull_request_event "closed" "Acme").
Definition comment : VercelRequest := delivery "issue_comment" JUndefined.
Definition labeled_bare : VercelRequest :=
  delivery "pull_request" (bare_event "labeled").
Definition opened_unsigned : VercelRequest :=
  unsigned "pull_request" (pull_request_event "opened" "Acme").

Definition world : World := fresh configured ledger.
Definition world_without_credentials : World := fresh no_credentials ledger.
Definition world_with_broken_tracker : World := fresh configured broken.
Definition world_with_task : World := fresh configured knows_all.

End Sample.

(* ================================================================== *)
(** ** Reading the body: [buffer] *)

(** What the request stream yields: text or bytes. *)
Inductive Chunk : Type :=
| TextChunk (s : string)
| BufferChunk (bytes : string).

(** [typeof chunk === 'string' ? Buffer.from(chunk) : chunk]; the bytes of a
    text are the string that holds it. *)
Definition chunk_bytes (chunk : Chunk) : string :=
  match chunk with
  | TextChunk s => s
  | BufferChunk bytes => bytes
  end.

(** [Buffer.concat(chunks)] *)
Fixpoint Buffer_concat (chunks : list string) : string :=
  match chunks with
  | [] => EmptyString
  | c :: rest => (c ++ Buffer_concat rest)%string
  end.

(** [buffer(readable)]: every chunk is pushed, then all are joined. *)
Definition buffer (readable : list Chunk) : string :=
  Buffer_concat
    (fold_left (fun chunks chunk => chunks ++ [chunk_bytes chunk]) readable []).

(** A request whose body arrives as [readable]. *)
Definition received (m : option string) (hs : list (string * Header))
    (readable : list Chunk) (payload : JValue) : VercelRequest :=
  {| method := m; headers := hs; stream := buffer readable; body := payload |}.

(** The request stream as [for await] reads it: the chunks it yields and,
    when it breaks off before its end, the error it raises after them. *)
Record Readable : Type := {
  yielded : list Chunk;
  failure : option Exn
}.

(** [await buffer(readable)] on such a stream: the loop passes on what the
    stream raises, and joins the chunks when it raises nothing. *)
Definition buffer_async (readable : Readable) : M string :=
  match failure readable with
  | Some e => throw e
  | None => ret (buffer (yielded readable))
  end.

(** [verifyRequestSignature] with the reading of the body in it, for a
    request given by its method, its headers and its stream: the secret is
    checked first, the body is read for a POST only, and the comparison
    comes last. On a stream that is read to its end this is
    [verifyRequestSignature] on the request [received] from it. *)
Definition verifyRequestSignature_reading (m : option string)
    (hs : list (string * Header)) (readable : Readable) : M unit :=
  secret <- getenv GITHUB_WEBHOOK_SECRET ;;
  match truthy secret with
  | None => throw (Error "Missing GITHUB_WEBHOOK_SECRET")
  | Some secret =>
      let sig :=
        Bytes.of_string (header_to_str (header_lookup "x-hub-signature-256" hs)) in
      rawBody <- match m with
                 | Some m' =>
                     if String.eqb m' "POST" then
                       raw <- buffer_async readable ;;
                       ret (Utf8.toString raw)
                     else ret EmptyString
                 | None => ret EmptyString
                 end ;;
      let digest := Bytes.of_string (expected_signature secret rawBody) in
      if negb (Nat.eqb (List.length sig) (List.length digest)) then
        throw (Error "Invalid webhook signature")
      else
        equal <- lift (timingSafeEqual sig digest) ;;
        if negb equal then throw (Error "Invalid webhook signature")
        else ret tt
  end.

(** The world as the next invocation of the function finds it: what was
    written and called stays, the response is a new one. *)
Definition next_invocation (w : World) : World :=
  {| env := env w; remote := remote w; trace := trace w;
     statusCode := 200; sent := None |}.

(* ================================================================== *)
(** ** More vocabulary *)

(** [undefined] and [null], through which no property can be read. *)
Definition nullish (v : JValue) : bool :=
  match v with
  | JUndefined | JNull => true
  | _ => false
  end.

(** A value that is not an object: [undefined], [null], a boolean, a number
    or a string. Two values of a payload are [===] when they are the same
    such value. *)
Definition primitive (v : JValue) : bool :=
  match v with
  | JArr _ | JObj _ => false
  | _ => true
  end.

(** [payload.a.b] exists and a property can be read from it. *)
Definition reads_through (payload : JValue) (a b : string) : bool :=
  match get_prop payload a with
  | Return x =>
      match get_prop x b with
      | Return y => negb (nullish y)
      | Throw _ => false
      end
  | Throw _ => false
  end.

(** The payload has a [pull_request.user] and a [repository.owner]. *)
Definition readable_payload (payload : JValue) : bool :=
  reads_through payload "pull_request" "user"
  && reads_through payload "repository" "owner".

(** A value a template literal can put into text: it is not an object with
    an own [toString], nor an array that holds such an object at any depth. *)
Fixpoint plain (v : JValue) : bool :=
  match v with
  | JArr items => forallb plain items
  | JObj fields => negb (has_own "toString" fields)
  | _ => true
  end.

(** [payload.a.b...] for the path [a; b; ...] *)
Definition dig (payload : JValue) (path : list string) : Outcome JValue :=
  fold_left (fun o k => and_then o (fun v => get_prop v k)) path (Return payload).

(** The value at the path can be read and put into text. *)
Definition converts (payload : JValue) (path : list string) : bool :=
  match dig payload path with
  | Return v => plain v
  | Throw _ => false
  end.

(** The six values the mapper puts into the alias, the text and the note of
    the task can be put into text. (The login of the author is compared
    only.) *)
Definition renderable (payload : JValue) : bool :=
  converts payload ["repository"; "owner"; "login"]
  && converts payload ["repository"; "name"]
  && converts payload ["number"]
  && converts payload ["repository"; "full_name"]
  && converts payload ["pull_request"; "title"]
  && converts payload ["pull_request"; "html_url"].

(** The operation threw for want of credentials and did nothing else. *)
Definition refused {A} (m : M A) (w : World) : Prop :=
  m w = (Throw (Error "Missing Habitica credentials"), w).

(** The three calls of the client, with the task a payload asks for. *)
Definition lookup_of (u t : string) (f : PullRequestPayload) : FetchCall :=
  lookup_call u t (pr_alias f).
Definition create_of (u t : string) (f : PullRequestPayload) : FetchCall :=
  create_call u t (pr_task f).
Definition score_of (u t : string) (f : PullRequestPayload) : FetchCall :=
  score_call u t (pr_alias f) up.

Module Cases.

(** A pull-request event the mapper has nothing to do for. *)
Definition labeled : VercelRequest :=
  Sample.delivery "pull_request" (Sample.pull_request_event "labeled" "Acme").

(** A GET request with a body, signed over the empty text. *)
Definition probe : VercelRequest :=
  {| method := Some "GET";
     headers :=
       [ ("x-github-event", HOne "ping");
         ("x-hub-signature-256",
          HOne (expected_signature Sample.secret EmptyString)) ];
     stream := "anything at all";
     body := JUndefined |}.

(** The secret is set to the empty text. *)
Definition empty_secret : Env :=
  {| HABITICA_USER_ID := Some "8a2f6c1e";
     HABITICA_API_TOKEN := Some "t0ken";
     GITHUB_WEBHOOK_SECRET := Some EmptyString |}.

(** The user id is set, the token is empty. *)
Definition empty_token : Env :=
  {| HABITICA_USER_ID := Some "8a2f6c1e";
     HABITICA_API_TOKEN := Some EmptyString;
     GITHUB_WEBHOOK_SECRET := Some Sample.secret |}.

(** A tracker that finds no task and refuses to create one. *)
Definition refusing : Remote :=
  fun _ c =>
    Responded {| r_status := if String.eqb (f_method c) "GET" then 404 else 500;
                 r_url := f_url c;
                 r_text := Some "Internal Server Error" |}.

(** A tracker that cannot be reached. *)
Definition unreachable : Remote := fun _ _ => NetworkError.

(** A signature header that is too short. *)
Definition short_signature : VercelRequest :=
  {| method := Some "POST";
     headers :=
       [ ("x-github-event", HOne "pull_request");
         ("x-hub-signature-256", HOne "sha256=1964e5737fc32774") ];
     stream := "{}";
     body := JObj [] |}.

(** A world in which the task of pull request 42 was created earlier. *)
Definition world_after_create : World :=
  {| env := Sample.configured;
     remote := ledger;
     trace :=
       [ Fetch (create_call "8a2f6c1e" "t0ken"
                  {| p_alias := "github__acme-widgets-42";
                     p_type := todo;
                     p_text := "Acme/Widgets#42";
                     p_notes := None;
                     p_priority := Medium |}) ];
     statusCode := 200;
     sent := None |}.

(** A pull-request event whose repository name is an object with a field
    named [toString]. *)
Definition unprintable : VercelRequest :=
  Sample.delivery "pull_request"
    (JObj [ ("action", JStr "labeled");
            ("number", JNum 42);
            ("pull_request", JObj [ ("user", JObj []) ]);
            ("repository",
             JObj [ ("name", JObj [ ("toString", JNum 1) ]);
                    ("owner", JObj []) ]) ]).

(** A pull-request event that has a user and an owner and nothing else. *)
Definition nameless : VercelRequest :=
  Sample.delivery "pull_request"
    (JObj [ ("pull_request", JObj [ ("user", JObj []) ]);
            ("repository", JObj [ ("owner", JObj []) ]) ]).

(** Pull request 42 of Acme/Widgets, opened by someone else. *)
Definition opened_by_guest : VercelRequest :=
  Sample.delivery "pull_request" (Sample.pull_request_event "opened" "octocat").

(** A stream that breaks off after its first chunk. *)
Definition broken_stream : Readable :=
  {| yielded := [ TextChunk "{" ]; failure := Some (Error "aborted") |}.

(** The two-byte text of the letter e with an acute accent, cut in two. *)
Definition split_letter : list Chunk :=
  [ BufferChunk (Bytes.to_string [0xC3]); BufferChunk (Bytes.to_string [0xA9]) ].

End Cases.

(* ================================================================== *)
(** ** The hash and the decoder on known inputs *)

Example sha256_abc :
  Bytes.hex (Sha256.sha256 (Bytes.of_string "abc"))
  = "ba7816bf8f01cfea414140de5dae2223b00361a396177a9cb410ff61f20015ad".
Proof. vm_compute. reflexivity. Qed.

Example sha256_empty :
  Bytes.hex (Sha256.sha256 [])
  = "e3b0c44298fc1c149afbf4c8996fb92427ae41e4649b934ca495991b7852b855".
Proof. vm_compute. reflexivity. Qed.

Example sha256_two_blocks :
  Bytes.hex (Sha256.sha256 (Bytes.of_string
    "abcdbcdecdefdefgefghfghighijhijkijkljklmklmnlmnomnopnopq"))
  = "248d6a61d20638b8e5c026930c3e6039a33ce45964ff2167f6ecedd419db06c1".
Proof. vm_compute. reflexivity. Qed.

(** RFC 4231, test case 2. *)
Example hmac_rfc4231_2 :
  hmac_sha256_hex "Jefe" "what do ya want for nothing?"
  = "5bdcc146bf60754e6a042426089575c75a003f089d2739839dec58b964ec3843".
Proof. vm_compute. reflexivity. Qed.

(** The example of GitHub's "Validating webhook deliveries" page. *)
Example hmac_github_docs :
  hmac_sha256_hex "It's a Secret to Everybody" "Hello, World!"
  = "757107ea0eb2509fc211221cce984b8a37570b6d7586c22c46f4379c8b043e17".
Proof. vm_compute. reflexivity. Qed.

Example utf8_decode_euro :
  Utf8.decode [0xE2; 0x82; 0xAC; 0x41] = [0x20AC; 0x41].
Proof. reflexivity. Qed.

Example utf8_decode_truncated :
  Utf8.decode [0xE2; 0x82; 0x41; 0xF0; 0x9F] = [0xFFFD; 0x41; 0xFFFD].
Proof. reflexivity. Qed.

Example utf8_decode_surrogate :
  Utf8.decode [0xED; 0xA0; 0x80] = [0xFFFD; 0xFFFD; 0xFFFD].
Proof. reflexivity. Qed.

Example utf8_encode_emoji :
  Utf8.encode [0x1F600] = [0xF0; 0x9F; 0x98; 0x80].
Proof. reflexivity. Qed.

Example decimal_samples :
  decimal 0 = "0" /\ decimal 42 = "42" /\ decimal (-5) = "-5"
  /\ decimal 9007199254740991 = "9007199254740991".
Proof. repeat split; reflexivity. Qed.

(** Doubles from 2^53 on, as Node writes them: 2^53 + 1 is not a double,
    2^64 is written with the fewest digits and zeros, 10^21 and 2^70 with an
    exponent, and 10^23 is the text of the double nearest to it. *)
Example decimal_large_samples :
  decimal 9007199254740993 = "9007199254740992"
  /\ decimal 18446744073709551616 = "18446744073709552000"
  /\ decimal 123456789012345680000 = "123456789012345680000"
  /\ decimal 1000000000000000000000 = "1e+21"
  /\ decimal (-1000000000000000000000) = "-1e+21"
  /\ decimal 1180591620717411303424 = "1.1805916207174113e+21"
  /\ decimal 99999999999999991611392 = "1e+23"
  /\ decimal (2 ^ 1024) = "Infinity".
Proof. repeat split; vm_compute; reflexivity. Qed.

Example utf8_toString_invalid :
  Bytes.of_string (Utf8.toString (Bytes.to_string [0xFF])) = [0xEF; 0xBF; 0xBD].
Proof. reflexivity. Qed.

(* ================================================================== *)
(** ** UTF-8: decoding what was encoded *)

Module Utf8Facts.
Import Utf8.

Ltac dlia := Z.to_euclidean_division_equations; lia.

Lemma land_shiftl_low (a b n : Z) :
  0 <= n -> 0 <= b < 2 ^ n -> Z.land (Z.shiftl a n) b = 0.
Proof.
  intros Hn Hb. apply Z.bits_inj'; intros m Hm.
  rewrite Z.land_spec, Z.bits_0.
  destruct (Z.lt_ge_cases m n) as [Hlt | Hge].
  - rewrite Z.shiftl_spec_low by lia. reflexivity.
  - assert (Hbm : Z.testbit b m = false).
    { destruct (Z.eq_dec b 0) as [-> | Hnz]; [ apply Z.bits_0 | ].
      apply Z.bits_above_log2; [ lia | ].
      apply Z.log2_lt_pow2; [ lia | ].
      apply Z.lt_le_trans with (2 ^ n); [ lia | ].
      apply Z.pow_le_mono_r; lia. }
    rewrite Hbm. apply andb_false_r.
Qed.

Lemma lor_shiftl_add (a b n : Z) :
  0 <= n -> 0 <= b < 2 ^ n -> Z.lor (Z.shiftl a n) b = a * 2 ^ n + b.
Proof.
  intros Hn Hb.
  rewrite <- Z.lxor_lor by (apply land_shiftl_low; assumption).
  rewrite <- Z.add_nocarry_lxor by (apply land_shiftl_low; assumption).
  rewrite Z.shiftl_mul_pow2 by assumption. reflexivity.
Qed.

Lemma lor_C0 x : 0 <= x < 64 -> Z.lor 0xC0 x = 0xC0 + x.
Proof.
  intros; change (Z.lor 0xC0 x) with (Z.lor (Z.shiftl 3 6) x).
  rewrite lor_shiftl_add; change (2 ^ 6) with 64; lia.
Qed.
Lemma lor_80 x : 0 <= x < 64 -> Z.lor 0x80 x = 0x80 + x.
Proof.
  intros; change (Z.lor 0x80 x) with (Z.lor (Z.shiftl 2 6) x).
  rewrite lor_shiftl_add; change (2 ^ 6) with 64; lia.
Qed.
Lemma lor_E0 x : 0 <= x < 16 -> Z.lor 0xE0 x = 0xE0 + x.
Proof.
  intros; change (Z.lor 0xE0 x) with (Z.lor (Z.shiftl 14 4) x).
  rewrite lor_shiftl_add; change (2 ^ 4) with 16; lia.
Qed.
Lemma lor_F0 x : 0 <= x < 8 -> Z.lor 0xF0 x = 0xF0 + x.
Proof.
  intros; change (Z.lor 0xF0 x) with (Z.lor (Z.shiftl 30 3) x).
  rewrite lor_shiftl_add; change (2 ^ 3) with 8; lia.
Qed.
Lemma land_3F b : Z.land b 0x3F = b mod 64.
Proof. change 0x3F with (Z.ones 6); apply Z.land_ones; lia. Qed.
Lemma land_1F b : Z.land b 0x1F = b mod 32.
Proof. change 0x1F with (Z.ones 5); apply Z.land_ones; lia. Qed.
Lemma land_0F b : Z.land b 0xF = b mod 16.
Proof. change 0xF with (Z.ones 4); apply Z.land_ones; lia. Qed.
Lemma land_07 b : Z.land b 0x7 = b mod 8.
Proof. change 0x7 with (Z.ones 3); apply Z.land_ones; lia. Qed.
Lemma shiftr_6 c : Z.shiftr c 6 = c / 64.
Proof. apply Z.shiftr_div_pow2; lia. Qed.
Lemma shiftr_12 c : Z.shiftr c 12 = c / 4096.
Proof. apply Z.shiftr_div_pow2; lia. Qed.
Lemma shiftr_18 c : Z.shiftr c 18 = c / 262144.
Proof. apply Z.shiftr_div_pow2; lia. Qed.
Lemma continue cp b : 0 <= b -> Z.lor (Z.shiftl cp 6) (Z.land b 0x3F) = cp * 64 + b mod 64.
Proof.
  intros; rewrite land_3F, lor_shiftl_add; change (2 ^ 6) with 64; dlia.
Qed.

Lemma encode1_2 c : 0x80 <= c < 0x800 ->
  encode1 c = [0xC0 + c / 64; 0x80 + c mod 64].
Proof.
  intros H. unfold encode1.
  destruct (Z.ltb_spec c 0x80); [ lia | ].
  destruct (Z.ltb_spec c 0x800); [ | lia ].
  rewrite shiftr_6, land_3F, lor_C0, lor_80 by dlia. reflexivity.
Qed.

Lemma encode1_3 c : 0x800 <= c < 0x10000 ->
  encode1 c = [0xE0 + c / 4096; 0x80 + (c / 64) mod 64; 0x80 + c mod 64].
Proof.
  intros H. unfold encode1.
  destruct (Z.ltb_spec c 0x80); [ lia | ].
  destruct (Z.ltb_spec c 0x800); [ lia | ].
  destruct (Z.ltb_spec c 0x10000); [ | lia ].
  rewrite shiftr_6, shiftr_12, !land_3F, lor_E0, !lor_80 by dlia. reflexivity.
Qed.

Lemma encode1_4 c : 0x10000 <= c < 0x110000 ->
  encode1 c = [0xF0 + c / 262144; 0x80 + (c / 4096) mod 64;
               0x80 + (c / 64) mod 64; 0x80 + c mod 64].
Proof.
  intros H. unfold encode1.
  destruct (Z.ltb_spec c 0x80); [ lia | ].
  destruct (Z.ltb_spec c 0x800); [ lia | ].
  destruct (Z.ltb_spec c 0x10000); [ lia | ].
  rewrite shiftr_6, shiftr_12, shiftr_18, !land_3F, lor_F0, !lor_80 by dlia.
  reflexivity.
Qed.

Lemma lead_mask_2 a : 0xC0 <= a <= 0xDF -> Z.land a 0x1F = a - 0xC0.
Proof. intros; rewrite land_1F; dlia. Qed.
Lemma lead_mask_3 a : 0xE0 <= a <= 0xEF -> Z.land a 0xF = a - 0xE0.
Proof. intros; rewrite land_0F; dlia. Qed.
Lemma lead_mask_4 a : 0xF0 <= a <= 0xF7 -> Z.land a 0x7 = a - 0xF0.
Proof. intros; rewrite land_07; dlia. Qed.
Lemma continue_in cp b :
  0x80 <= b <= 0xBF ->
  Z.lor (Z.shiftl cp 6) (Z.land b 0x3F) = cp * 64 + (b - 0x80).
Proof. intros; rewrite continue by lia; dlia. Qed.

Ltac branch :=
  match goal with
  | |- context [Z.eqb ?a ?b] => destruct (Z.eqb_spec a b); try lia
  | |- context [Z.leb ?a ?b] => destruct (Z.leb_spec a b); try lia
  end.

Ltac decode_step :=
  cbn [app run]; unfold step, lead, between; cbn [andb];
  rewrite ?lead_mask_2, ?lead_mask_3, ?lead_mask_4, ?continue_in by lia.

Ltac decode_steps := decode_step; repeat (branch; decode_step).

Lemma run_1 a rest : 0 <= a <= 0x7F -> run Idle (a :: rest) = a :: run Idle rest.
Proof. intros; decode_steps; reflexivity. Qed.

Lemma run_2 a b rest :
  0xC2 <= a <= 0xDF -> 0x80 <= b <= 0xBF ->
  run Idle (a :: b :: rest) = (a - 0xC0) * 64 + (b - 0x80) :: run Idle rest.
Proof. intros; decode_steps; reflexivity. Qed.

Lemma run_3 a b c rest :
  0xE0 <= a <= 0xEF -> 0x80 <= b <= 0xBF -> 0x80 <= c <= 0xBF ->
  (a = 0xE0 -> 0xA0 <= b) -> (a = 0xED -> b <= 0x9F) ->
  run Idle (a :: b :: c :: rest)
  = ((a - 0xE0) * 64 + (b - 0x80)) * 64 + (c - 0x80) :: run Idle rest.
Proof. intros; decode_steps; reflexivity. Qed.

Lemma run_4 a b c d rest :
  0xF0 <= a <= 0xF4 -> 0x80 <= b <= 0xBF -> 0x80 <= c <= 0xBF ->
  0x80 <= d <= 0xBF ->
  (a = 0xF0 -> 0x90 <= b) -> (a = 0xF4 -> b <= 0x8F) ->
  run Idle (a :: b :: c :: d :: rest)
  = (((a - 0xF0) * 64 + (b - 0x80)) * 64 + (c - 0x80)) * 64 + (d - 0x80)
    :: run Idle rest.
Proof. intros; decode_steps; reflexivity. Qed.

Lemma run_encode1 c rest :
  scalar c -> run Idle (encode1 c ++ rest) = c :: run Idle rest.
Proof.
  intros Hc.
  assert (0 <= c < 0x80 \/ 0x80 <= c < 0x800 \/
          0x800 <= c < 0x10000 \/ 0x10000 <= c < 0x110000)
    as [H | [H | [H | H]]] by (unfold scalar in Hc; lia).
  - unfold encode1. destruct (Z.ltb_spec c 0x80); [ | lia ].
    apply run_1; lia.
  - rewrite encode1_2 by assumption. cbn [app].
    rewrite run_2 by dlia. f_equal. dlia.
  - rewrite encode1_3 by assumption. cbn [app]. unfold scalar in Hc.
    rewrite run_3 by dlia. f_equal. dlia.
  - rewrite encode1_4 by assumption. cbn [app].
    rewrite run_4 by dlia. f_equal. dlia.
Qed.

Theorem decode_encode cps : Forall scalar cps -> decode (encode cps) = cps.
Proof.
  unfold decode. induction 1 as [ | c cps Hc _ IH ]; [ reflexivity | ].
  cbn [encode flat_map]. rewrite run_encode1 by assumption.
  f_equal. exact IH.
Qed.

End Utf8Facts.

(* ================================================================== *)
(** ** Bytes and strings: the two views agree *)

Module BytesFacts.
Import Bytes.

Lemma byte_of_ascii_range a : 0 <= byte_of_ascii a < 256.
Proof.
  unfold byte_of_ascii. pose proof (N_ascii_bounded a). lia.
Qed.

Lemma ascii_of_byte_of_ascii a : ascii_of_byte (byte_of_ascii a) = a.
Proof.
  unfold ascii_of_byte. pose proof (byte_of_ascii_range a) as H.
  rewrite Z.mod_small by exact H.
  unfold byte_of_ascii. rewrite N2Z.id. apply ascii_N_embedding.
Qed.

Lemma to_string_of_string s : to_string (of_string s) = s.
Proof.
  unfold to_string, of_string. rewrite map_map.
  rewrite (map_ext _ (fun a => a)) by (intro a; apply ascii_of_byte_of_ascii).
  rewrite map_id. apply string_of_list_ascii_of_string.
Qed.

Lemma of_string_inj s t : of_string s = of_string t -> s = t.
Proof.
  intros H. rewrite <- (to_string_of_string s), <- (to_string_of_string t).
  now rewrite H.
Qed.

End BytesFacts.

Lemma toString_well_formed raw :
  Utf8.well_formed raw -> Utf8.toString raw = raw.
Proof.
  intros (cps & Hcps & E). unfold Utf8.toString.
  rewrite E, Utf8Facts.decode_encode by exact Hcps.
  rewrite <- E. apply BytesFacts.to_string_of_string.
Qed.

(* ================================================================== *)
(** ** The comparison of the two digests *)

Lemma xor_fold_zero (l : list (Z * Z)) (acc : Z) :
  fold_left (fun acc xy => Z.lor acc (Z.lxor (fst xy) (snd xy))) l acc = 0
  <-> acc = 0 /\ Forall (fun xy => fst xy = snd xy) l.
Proof.
  revert acc. induction l as [ | [x y] l IH ]; intros acc; cbn [fold_left fst snd].
  - split; [ intros ->; auto | tauto ].
  - rewrite IH, Z.lor_eq_0_iff. split.
    + intros [[-> Hxy] Hl]. apply Z.lxor_eq in Hxy. auto.
    + intros [-> Hl]. inversion Hl as [ | ? ? Hxy Hl' ]; subst.
      cbn [fst snd] in Hxy. subst y. rewrite Z.lxor_nilpotent. auto.
Qed.

Lemma combine_all_equal (a b : list Z) :
  List.length a = List.length b ->
  Forall (fun xy => fst xy = snd xy) (combine a b) -> a = b.
Proof.
  revert b. induction a as [ | x a IH ]; intros [ | y b ] Hlen Hall;
    try discriminate; [ reflexivity | ].
  cbn in Hall. inversion Hall as [ | ? ? Hxy Hall' ]; subst.
  cbn in Hxy. subst y. f_equal. apply IH; [ now injection Hlen | exact Hall' ].
Qed.

Lemma combine_same (a : list Z) :
  Forall (fun xy => fst xy = snd xy) (combine a a).
Proof. induction a; cbn; constructor; auto. Qed.

Lemma timingSafeEqual_spec (a b : list Z) :
  List.length a = List.length b ->
  exists r, timingSafeEqual a b = Return r /\ (r = true <-> a = b).
Proof.
  intros Hlen. unfold timingSafeEqual.
  rewrite (proj2 (Nat.eqb_eq _ _) Hlen). eexists; split; [ reflexivity | ].
  rewrite Z.eqb_eq, xor_fold_zero. split.
  - intros [_ H]. now apply combine_all_equal.
  - intros ->. split; [ reflexivity | apply combine_same ].
Qed.

(** [verifyRequestSignature] never touches the world. *)
Lemma verify_world request w : snd (verifyRequestSignature request w) = w.
Proof.
  unfold verifyRequestSignature, bind, getenv, throw, ret, lift.
  destruct (truthy _); cbn; [ | reflexivity ].
  destruct (negb _); cbn; [ reflexivity | ].
  destruct (timingSafeEqual _ _) as [ [ | ] | ]; reflexivity.
Qed.

(** It either returns or throws one of its two errors. *)
Lemma verify_outcome request w :
  fst (verifyRequestSignature request w)
  = match truthy (GITHUB_WEBHOOK_SECRET (env w)) with
    | None => Throw (Error "Missing GITHUB_WEBHOOK_SECRET")
    | Some secret =>
        if String.eqb (header_to_str (header request "x-hub-signature-256"))
                      (expected_signature secret (rawBody_of request))
        then Return tt
        else Throw (Error "Invalid webhook signature")
    end.
Proof.
  unfold verifyRequestSignature, bind, getenv, throw, ret, lift.
  destruct (truthy _) as [ secret | ]; [ | reflexivity ].
  set (sig := header_to_str _). set (dig := expected_signature _ _).
  destruct (Nat.eqb_spec (List.length (Bytes.of_string sig))
                         (List.length (Bytes.of_string dig))) as [ Hlen | Hlen ];
    cbn [negb fst].
  - destruct (timingSafeEqual_spec _ _ Hlen) as (r & -> & Hr).
    destruct (String.eqb_spec sig dig) as [ E | NE ].
    + destruct r; [ reflexivity | ].
      assert (false = true) by (apply Hr; now rewrite E). discriminate.
    + destruct r; [ | reflexivity ].
      exfalso. apply NE, BytesFacts.of_string_inj, Hr. reflexivity.
  - destruct (String.eqb_spec sig dig) as [ E | NE ]; [ | reflexivity ].
    exfalso. apply Hlen. now rewrite E.
Qed.

(* ================================================================== *)
(** ** What a computation leaves alone *)

Lemma grows_refl w : grows w w.
Proof.
  repeat split; exists []; now rewrite app_nil_r.
Qed.

Lemma grows_trans w1 w2 w3 : grows w1 w2 -> grows w2 w3 -> grows w1 w3.
Proof.
  intros (E1 & R1 & S1 & B1 & t1 & T1) (E2 & R2 & S2 & B2 & t2 & T2).
  repeat split; try congruence.
  exists (t1 ++ t2). now rewrite T2, T1, app_assoc.
Qed.

Lemma grows_emit e w : grows w (emit e w).
Proof. repeat split; now exists [e]. Qed.

Lemma quiet_ret {A} (a : A) : quiet (ret a).
Proof. intros w; apply grows_refl. Qed.

Lemma quiet_throw {A} e : quiet (@throw A e).
Proof. intros w; apply grows_refl. Qed.

Lemma quiet_lift {A} (o : Outcome A) : quiet (lift o).
Proof. intros w; apply grows_refl. Qed.

Lemma quiet_bind {A B} (m : M A) (k : A -> M B) :
  quiet m -> (forall a, quiet (k a)) -> quiet (bind m k).
Proof.
  intros Hm Hk w. unfold bind. specialize (Hm w).
  destruct (m w) as [[a | e] w1]; cbn [snd] in *; [ | exact Hm ].
  eapply grows_trans; [ exact Hm | apply Hk ].
Qed.

Lemma quiet_console_log l : quiet (console_log l).
Proof. intros w; apply grows_emit. Qed.

Lemma quiet_console_error l : quiet (console_error l).
Proof. intros w; apply grows_emit. Qed.

Lemma quiet_getenv v : quiet (getenv v).
Proof. intros w; apply grows_refl. Qed.

Lemma quiet_fetch c : quiet (fetch c).
Proof.
  intros w. unfold fetch. destruct (remote w _ c); apply grows_emit.
Qed.

Lemma quiet_text res : quiet (text res).
Proof. unfold text. destruct (r_text res); [ apply quiet_ret | apply quiet_throw ]. Qed.

Create HintDb quiet.
#[local] Hint Resolve quiet_ret quiet_throw quiet_lift quiet_console_log
  quiet_console_error quiet_getenv quiet_fetch quiet_text : quiet.

Ltac quiet_tac :=
  repeat first
    [ progress auto with quiet
    | apply quiet_bind; [ | intro ]
    | match goal with
      | |- quiet (match ?x with _ => _ end) => destruct x
      | |- quiet (if ?x then _ else _) => destruct x
      end ].

Lemma quiet_call m path payload hs : quiet (HabiticaAPI.call m path payload hs).
Proof. unfold HabiticaAPI.call. quiet_tac. Qed.

#[local] Hint Resolve quiet_call : quiet.

Lemma quiet_hasTask alias : quiet (HabiticaAPI.hasTask alias).
Proof. unfold HabiticaAPI.hasTask. quiet_tac. Qed.

Lemma quiet_createTask alias ty tx notes prio :
  quiet (HabiticaAPI.createTask alias ty tx notes prio).
Proof. unfold HabiticaAPI.createTask. quiet_tac. Qed.

Lemma quiet_scoreTask alias d : quiet (HabiticaAPI.scoreTask alias d).
Proof. unfold HabiticaAPI.scoreTask. quiet_tac. Qed.

#[local] Hint Resolve quiet_hasTask quiet_createTask quiet_scoreTask : quiet.

Lemma quiet_addTodo alias tx notes prio :
  quiet (Habitica.addTodo alias tx notes prio).
Proof. unfold Habitica.addTodo. quiet_tac. Qed.

Lemma quiet_completeTodo alias : quiet (Habitica.completeTodo alias).
Proof. unfold Habitica.completeTodo. quiet_tac. Qed.

#[local] Hint Resolve quiet_addTodo quiet_completeTodo : quiet.

Lemma quiet_mapper request : quiet (updateHabiticaTodoFromGitHub request).
Proof. unfold updateHabiticaTodoFromGitHub, prop, template. quiet_tac. Qed.

(* ================================================================== *)
(** ** The shape of each function's run *)

Lemma calls_of_emit_fetch c w : calls_of (emit (Fetch c) w) = calls_of w ++ [c].
Proof.
  unfold calls_of, fetch_calls, emit; cbn [trace].
  rewrite flat_map_app. reflexivity.
Qed.

Lemma calls_of_emit_log l w : calls_of (emit (ConsoleLog l) w) = calls_of w.
Proof.
  unfold calls_of, fetch_calls, emit; cbn [trace].
  rewrite flat_map_app. cbn. apply app_nil_r.
Qed.

Lemma calls_of_emit_error l w : calls_of (emit (ConsoleError l) w) = calls_of w.
Proof.
  unfold calls_of, fetch_calls, emit; cbn [trace].
  rewrite flat_map_app. cbn. apply app_nil_r.
Qed.

Lemma verify_returns request w :
  fst (verifyRequestSignature request w) = Return tt ->
  verifyRequestSignature request w = (Return tt, w).
Proof.
  intros H. rewrite (surjective_pairing (verifyRequestSignature request w)).
  now rewrite H, verify_world.
Qed.

Lemma handler_verified request w :
  fst (verifyRequestSignature request w) = Return tt ->
  handler request w
  = (updateHabiticaTodoFromGitHub request ;; status 200 ;; send EmptyString) w.
Proof.
  intros H. unfold handler. now rewrite (verify_returns _ _ H).
Qed.

Lemma handler_rejected request w e :
  fst (verifyRequestSignature request w) = Throw e ->
  handler request w = (Return tt, set_sent EmptyString (set_status 403 w)).
Proof.
  intros H. unfold handler.
  rewrite (surjective_pairing (verifyRequestSignature request w)).
  rewrite H, verify_world. reflexivity.
Qed.

Lemma append_assoc (a b c : string) :
  ((a ++ b) ++ c)%string = (a ++ (b ++ c))%string.
Proof. induction a as [ | x a IH ]; cbn; [ reflexivity | now rewrite IH ]. Qed.

Lemma call_run m path payload w u t :
  truthy (HABITICA_USER_ID (env w)) = Some u ->
  truthy (HABITICA_API_TOKEN (env w)) = Some t ->
  let c := {| f_url := (HabiticaAPI.baseUrl ++ path)%string;
              f_method := m;
              f_headers := api_headers u t
                             (match payload with Some _ => true | None => false end);
              f_body := payload |} in
  HabiticaAPI.call m path payload [] w
  = match remote w (calls_of w) c with
    | NetworkError => (Throw (TypeError "fetch failed"), emit (Fetch c) w)
    | Responded res =>
        match r_text res with
        | None => (Throw (TypeError "terminated"), emit (Fetch c) w)
        | Some b =>
            (Return res,
             emit (ConsoleLog (call_line m (HabiticaAPI.baseUrl ++ path) res b))
                  (emit (Fetch c) w))
        end
    end.
Proof.
  intros Hu Ht c.
  unfold HabiticaAPI.call, bind, getenv, fetch, text, console_log, ret, throw.
  rewrite Hu, Ht.
  assert (Hc : {| f_url := (HabiticaAPI.baseUrl ++ path)%string;
                  f_method := m;
                  f_headers :=
                    [] ++ [ ("x-api-user", u); ("x-api-key", t);
                            ("x-client", (u ++ "-" ++ HabiticaAPI.client)%string) ]
                    ++ match payload with
                       | Some _ => [("content-type", "application/json")]
                       | None => []
                       end;
                  f_body := payload |} = c).
  { unfold c, api_headers. destruct payload; reflexivity. }
  rewrite Hc. fold (calls_of w).
  destruct (remote w (calls_of w) c) as [ | res ]; [ reflexivity | ].
  destruct (r_text res) as [ b | ]; [ | reflexivity ].
  unfold call_line. rewrite <- !append_assoc. reflexivity.
Qed.

Lemma append_empty_r (s : string) : (s ++ EmptyString)%string = s.
Proof. induction s as [ | a s IH ]; cbn; [ reflexivity | now rewrite IH ]. Qed.

(** Induction on a value, with the property at hand for the elements of an
    array. *)
Lemma JValue_elements_ind (P : JValue -> Prop) :
  P JUndefined -> P JNull -> (forall b, P (JBool b)) -> (forall n, P (JNum n)) ->
  (forall s, P (JStr s)) ->
  (forall items, Forall P items -> P (JArr items)) ->
  (forall fields, P (JObj fields)) ->
  forall v, P v.
Proof.
  intros Hu Hn Hb Hz Hs Ha Ho. fix IH 1.
  intros [ | | b | n | s | items | fields ];
    [ exact Hu | exact Hn | apply Hb | apply Hz | apply Hs | | apply Ho ].
  apply Ha. induction items as [ | x items IHitems ]; constructor.
  - apply IH.
  - exact IHitems.
Qed.

(** The conversion gives the text [to_str] gives for a plain value and
    throws for any other. *)
Lemma ToString_plain v :
  ToString v
  = if plain v then Return (to_str v)
    else Throw (TypeError "Cannot convert object to primitive value").
Proof.
  induction v as [ | | [ | ] | n | t | items Hitems | fields ]
    using JValue_elements_ind;
    cbn [ToString to_str plain]; try reflexivity.
  - match goal with
    | |- ?J items = if _ then Return (?T items) else _ =>
        set (join := J); set (text := T)
    end.
    assert (Hjoin : forall x l,
      join (x :: l)
      = and_then (match x with
                  | JUndefined | JNull => Return EmptyString
                  | _ => ToString x
                  end)
          (fun first =>
             match l with
             | [] => Return first
             | _ :: _ =>
                 and_then (join l)
                   (fun rest => Return (first ++ "," ++ rest)%string)
             end)) by reflexivity.
    assert (Htext : forall x l,
      text (x :: l)
      = ((match x with
          | JUndefined | JNull => EmptyString
          | _ => to_str x
          end)
         ++ (match l with
             | [] => EmptyString
             | _ :: _ => "," ++ text l
             end))%string) by reflexivity.
    assert (Hjoin0 : join [] = Return EmptyString) by reflexivity.
    assert (Htext0 : text [] = EmptyString) by reflexivity.
    clearbody join text.
    induction Hitems as [ | x items Hx _ IHitems ].
    + rewrite Hjoin0, Htext0. reflexivity.
    + rewrite Hjoin, Htext. cbn [forallb].
      assert (Ex : match x with
                   | JUndefined | JNull => Return EmptyString
                   | _ => ToString x
                   end
                   = if plain x
                     then Return (match x with
                                  | JUndefined | JNull => EmptyString
                                  | _ => to_str x
                                  end)
                     else Throw (TypeError
                                   "Cannot convert object to primitive value"))
        by (destruct x; try reflexivity; exact Hx).
      rewrite Ex. destruct (plain x); cbn [and_then andb]; [ | reflexivity ].
      destruct items as [ | y items' ].
      * cbn [forallb]. now rewrite append_empty_r.
      * rewrite IHitems.
        destruct (forallb plain (y :: items')); reflexivity.
  - destruct (has_own "toString" fields); reflexivity.
Qed.

(** A conversion that does not throw gives the text [to_str] gives. *)
Lemma ToString_to_str v s : ToString v = Return s -> to_str v = s.
Proof.
  rewrite ToString_plain. destruct (plain v); [ | discriminate ].
  now intros H; injection H as <-.
Qed.

Lemma mapper_reads request w :
  header_is (header request "x-github-event") "pull_request" = true ->
  updateHabiticaTodoFromGitHub request w
  = match read_payload (body request) with
    | Throw e => (Throw e, w)
    | Return f =>
        if strict_eq (pr_action f) (JStr "opened") then
          (console_log ("pull request.opened: " ++ pr_alias f)%string ;;
           Habitica.addTodo (pr_alias f) (p_text (pr_task f))
             (p_notes (pr_task f)) (Some (pr_priority f)) ;;
           ret tt) w
        else if strict_eq (pr_action f) (JStr "closed") then
          (console_log ("pull request.closed: " ++ pr_alias f)%string ;;
           Habitica.completeTodo (pr_alias f) ;;
           ret tt) w
        else (Return tt, w)
    end.
Proof.
  intros H. unfold updateHabiticaTodoFromGitHub. rewrite H. cbn [negb].
  unfold read_payload, prop, template, lift, and_then, bind.
  repeat match goal with
         | |- context [get_prop ?v ?k] =>
             destruct (get_prop v k); cbv beta iota; [ | reflexivity ]
         | |- context [ToString ?v] =>
             let H := fresh "Htext" in
             destruct (ToString v) eqn:H; cbv beta iota; [ | reflexivity ];
             apply ToString_to_str in H
         end.
  unfold pr_alias, pr_task, pr_priority, taskAlias.
  cbn [pr_action pr_author pr_owner pr_name pr_number pr_full_name pr_title
       pr_html_url p_text p_notes].
  repeat match goal with H : to_str _ = _ |- _ => rewrite H; clear H end.
  destruct (strict_eq _ (JStr "opened")); [ reflexivity | ].
  destruct (strict_eq _ (JStr "closed")); reflexivity.
Qed.

Lemma call_calls m path payload w u t :
  truthy (HABITICA_USER_ID (env w)) = Some u ->
  truthy (HABITICA_API_TOKEN (env w)) = Some t ->
  calls_of (snd (HabiticaAPI.call m path payload [] w))
  = calls_of w
    ++ [ {| f_url := (HabiticaAPI.baseUrl ++ path)%string;
            f_method := m;
            f_headers := api_headers u t
                           (match payload with Some _ => true | None => false end);
            f_body := payload |} ].
Proof.
  intros Hu Ht. rewrite (call_run _ _ _ _ _ _ Hu Ht). cbv zeta.
  destruct (remote w _ _) as [ | res ]; cbn [snd].
  - apply calls_of_emit_fetch.
  - destruct (r_text res); cbn [snd];
      rewrite ?calls_of_emit_log; apply calls_of_emit_fetch.
Qed.

Lemma hasTask_run alias w u t res b :
  truthy (HABITICA_USER_ID (env w)) = Some u ->
  truthy (HABITICA_API_TOKEN (env w)) = Some t ->
  remote w (calls_of w) (lookup_call u t alias) = Responded res ->
  r_text res = Some b ->
  HabiticaAPI.hasTask alias w
  = (if r_status res =? 404 then Return false
     else if r_status res =? 200 then Return true
     else Throw (Error ("Unexpected response from: " ++ r_url res)%string),
     looked_up u t alias res b w).
Proof.
  intros Hu Ht Hres Hb. unfold HabiticaAPI.hasTask, bind.
  rewrite (call_run _ _ _ _ _ _ Hu Ht). cbv zeta.
  change {| f_url := (HabiticaAPI.baseUrl ++ ("tasks/" ++ alias))%string;
            f_method := "GET";
            f_headers := api_headers u t false;
            f_body := None |} with (lookup_call u t alias).
  rewrite Hres, Hb.
  change (HabiticaAPI.baseUrl ++ ("tasks/" ++ alias))%string
    with ("https://habitica.com/api/v3/tasks/" ++ alias)%string.
  fold (looked_up u t alias res b w).
  destruct (r_status res =? 404); [ reflexivity | ].
  destruct (r_status res =? 200); reflexivity.
Qed.

Lemma looked_up_calls u t alias res b w :
  calls_of (looked_up u t alias res b w) = calls_of w ++ [lookup_call u t alias].
Proof.
  unfold looked_up. now rewrite calls_of_emit_log, calls_of_emit_fetch.
Qed.

Lemma addTodo_exists alias tx notes prio w u t res b :
  truthy (HABITICA_USER_ID (env w)) = Some u ->
  truthy (HABITICA_API_TOKEN (env w)) = Some t ->
  remote w (calls_of w) (lookup_call u t alias) = Responded res ->
  r_text res = Some b ->
  r_status res = 200 ->
  Habitica.addTodo alias tx notes prio w
  = (Return None,
     emit (ConsoleLog ("Task already exists: " ++ alias)%string)
          (looked_up u t alias res b w)).
Proof.
  intros Hu Ht Hres Hb Hs. unfold Habitica.addTodo, bind at 1.
  rewrite (hasTask_run _ _ _ _ _ _ Hu Ht Hres Hb), Hs. reflexivity.
Qed.

Lemma addTodo_absent_calls alias tx notes prio w u t res b :
  truthy (HABITICA_USER_ID (env w)) = Some u ->
  truthy (HABITICA_API_TOKEN (env w)) = Some t ->
  remote w (calls_of w) (lookup_call u t alias) = Responded res ->
  r_text res = Some b ->
  r_status res = 404 ->
  calls_of (snd (Habitica.addTodo alias tx notes prio w))
  = calls_of w
    ++ [ lookup_call u t alias;
         create_call u t
           {| p_alias := alias; p_type := todo; p_text := tx; p_notes := notes;
              p_priority := match prio with Some p => p | None => Easy end |} ].
Proof.
  intros Hu Ht Hres Hb Hs. unfold Habitica.addTodo, bind at 1.
  rewrite (hasTask_run _ _ _ _ _ _ Hu Ht Hres Hb), Hs. cbn [Z.eqb Pos.eqb].
  unfold bind at 1, console_log at 1.
  set (w1 := emit _ (looked_up _ _ _ _ _ _)).
  assert (Hc : calls_of w1 = calls_of w ++ [lookup_call u t alias])
    by (unfold w1; now rewrite calls_of_emit_log, looked_up_calls).
  unfold bind, HabiticaAPI.createTask, ret. cbv beta.
  pose proof (call_calls "POST" "tasks/user"
    (Some {| p_alias := alias; p_type := todo; p_text := tx; p_notes := notes;
             p_priority := match prio with Some p => p | None => Easy end |})
    w1 u t Hu Ht) as Hcalls.
  destruct (HabiticaAPI.call _ _ _ _ w1) as [[ r | e ] w2]; cbn [snd] in *;
    rewrite Hcalls, Hc, <- app_assoc; reflexivity.
Qed.

Lemma completeTodo_absent alias w u t res b :
  truthy (HABITICA_USER_ID (env w)) = Some u ->
  truthy (HABITICA_API_TOKEN (env w)) = Some t ->
  remote w (calls_of w) (lookup_call u t alias) = Responded res ->
  r_text res = Some b ->
  r_status res = 404 ->
  Habitica.completeTodo alias w
  = (Return None,
     emit (ConsoleLog ("Task does not exist: " ++ alias)%string)
          (looked_up u t alias res b w)).
Proof.
  intros Hu Ht Hres Hb Hs. unfold Habitica.completeTodo, bind at 1.
  rewrite (hasTask_run _ _ _ _ _ _ Hu Ht Hres Hb), Hs. reflexivity.
Qed.

Lemma completeTodo_exists_calls alias w u t res b :
  truthy (HABITICA_USER_ID (env w)) = Some u ->
  truthy (HABITICA_API_TOKEN (env w)) = Some t ->
  remote w (calls_of w) (lookup_call u t alias) = Responded res ->
  r_text res = Some b ->
  r_status res = 200 ->
  calls_of (snd (Habitica.completeTodo alias w))
  = calls_of w ++ [ lookup_call u t alias; score_call u t alias up ].
Proof.
  intros Hu Ht Hres Hb Hs. unfold Habitica.completeTodo, bind at 1.
  rewrite (hasTask_run _ _ _ _ _ _ Hu Ht Hres Hb), Hs. cbn [Z.eqb Pos.eqb negb].
  unfold bind at 1, console_log at 1.
  set (w1 := emit _ (looked_up _ _ _ _ _ _)).
  assert (Hc : calls_of w1 = calls_of w ++ [lookup_call u t alias])
    by (unfold w1; now rewrite calls_of_emit_log, looked_up_calls).
  unfold bind, HabiticaAPI.scoreTask, ret. cbv beta.
  pose proof (call_calls "POST" ("tasks/" ++ alias ++ "/score/" ++ direction_str up)
    None w1 u t Hu Ht) as Hcalls.
  destruct (HabiticaAPI.call _ _ _ _ w1) as [[ r | e ] w2]; cbn [snd] in *;
    rewrite Hcalls, Hc, <- app_assoc; reflexivity.
Qed.

Lemma calls_after_respond {A} (m : M A) code b w :
  calls_of (snd ((m ;; status code ;; send b) w)) = calls_of (snd (m w)).
Proof.
  unfold bind. destruct (m w) as [[ a | e ] w1]; reflexivity.
Qed.

Lemma calls_after_ret {A} (m : M A) w :
  calls_of (snd ((m ;; ret tt) w)) = calls_of (snd (m w)).
Proof.
  unfold bind. destruct (m w) as [[ a | e ] w1]; reflexivity.
Qed.

(* ================================================================== *)
(** ** The entry point *)

(** Claim C3. A request whose signature check fails (no secret configured,
    no signature header, or a header whose length or whose bytes differ from
    the expected digest) is answered 403 with an empty body, and nothing else
    happens: no console line of the mapper, no call to the tracker. *)
Theorem C3_rejected_without_downstream (request : VercelRequest) (w : World) :
  (truthy (GITHUB_WEBHOOK_SECRET (env w)) = None
   \/ header request "x-hub-signature-256" = HAbsent
   \/ exists secret,
        truthy (GITHUB_WEBHOOK_SECRET (env w)) = Some secret
        /\ let sig := header_to_str (header request "x-hub-signature-256") in
           let digest := expected_signature secret (rawBody_of request) in
           String.length sig <> String.length digest \/ sig <> digest) ->
  (exists e, fst (verifyRequestSignature request w) = Throw e)
  /\ handler request w = (Return tt, set_sent EmptyString (set_status 403 w))
  /\ http_response (snd (handler request w)) = Some (403, EmptyString)
  /\ trace (snd (handler request w)) = trace w
  /\ calls_of (snd (handler request w)) = calls_of w.
Proof.
  intros H.
  assert (Hv : exists e, fst (verifyRequestSignature request w) = Throw e).
  { rewrite verify_outcome.
    destruct (truthy (GITHUB_WEBHOOK_SECRET (env w))) as [ secret | ] eqn:Hs;
      [ | eauto ].
    destruct (String.eqb_spec
                (header_to_str (header request "x-hub-signature-256"))
                (expected_signature secret (rawBody_of request))) as [ E | NE ];
      [ | eauto ].
    exfalso. destruct H as [ H | [ H | (secret' & Hs' & Hsig) ] ].
    - discriminate H.
    - rewrite H in E. unfold expected_signature in E.
      cbn [header_to_str append] in E. discriminate E.
    - injection Hs' as <-. cbv zeta in Hsig.
      destruct Hsig as [ Hlen | Hne ]; [ | contradiction ].
      apply Hlen. now rewrite E. }
  split; [ exact Hv | ].
  destruct Hv as (e & He).
  rewrite (handler_rejected _ _ _ He). repeat split; reflexivity.
Qed.

Lemma C3_rejected_without_downstream_witness :
  http_response (snd (handler Sample.opened_unsigned Sample.world))
  = Some (403, EmptyString)
  /\ calls_of (snd (handler Sample.opened_unsigned Sample.world)) = [].
Proof.
  set (request := Sample.opened_unsigned). set (w := Sample.world).
  assert (H : truthy (GITHUB_WEBHOOK_SECRET (env w)) = None
   \/ header request "x-hub-signature-256" = HAbsent
   \/ exists secret,
        truthy (GITHUB_WEBHOOK_SECRET (env w)) = Some secret
        /\ let sig := header_to_str (header request "x-hub-signature-256") in
           let digest := expected_signature secret (rawBody_of request) in
           String.length sig <> String.length digest \/ sig <> digest).
  { right. right. exists Sample.secret. split; [ reflexivity | ].
    left. vm_compute. discriminate. }
  destruct (C3_rejected_without_downstream request w H) as (_ & _ & R & _ & C).
  split; [ exact R | exact C ].
Defined.

(** Claim C9. A verified request whose event is not [pull_request] gets one
    console line and the answer 200 with an empty body; no call is made, and
    the payload plays no part: the run is the same whatever the payload is,
    an [undefined] one included. *)
Theorem C9_other_events_ignored (request : VercelRequest) (w : World) :
  fst (verifyRequestSignature request w) = Return tt ->
  header_is (header request "x-github-event") "pull_request" = false ->
  handler request w
  = (Return tt,
     set_sent EmptyString
       (set_status 200 (emit (ConsoleError "Not a pull request event") w)))
  /\ calls_of (snd (handler request w)) = calls_of w
  /\ http_response (snd (handler request w)) = Some (200, EmptyString)
  /\ forall payload, handler (with_body request payload) w = handler request w.
Proof.
  intros Hv Hev.
  assert (E : forall payload,
    handler (with_body request payload) w
    = (Return tt,
       set_sent EmptyString
         (set_status 200 (emit (ConsoleError "Not a pull request event") w)))).
  { intros payload.
    assert (Hv' : fst (verifyRequestSignature (with_body request payload) w)
                  = Return tt) by exact Hv.
    rewrite (handler_verified _ _ Hv').
    unfold bind, updateHabiticaTodoFromGitHub.
    change (header (with_body request payload) "x-github-event")
      with (header request "x-github-event").
    rewrite Hev. reflexivity. }
  assert (E0 : handler request w
    = (Return tt,
       set_sent EmptyString
         (set_status 200 (emit (ConsoleError "Not a pull request event") w)))).
  { rewrite <- (E (body request)). destruct request; reflexivity. }
  split; [ exact E0 | ]. rewrite E0. cbn [snd].
  split; [ | split ].
  - unfold set_sent, set_status, calls_of; cbn [trace].
    apply calls_of_emit_error.
  - reflexivity.
  - intros payload. apply E.
Qed.

Lemma C9_other_events_ignored_witness :
  calls_of (snd (handler Sample.comment Sample.world)) = []
  /\ http_response (snd (handler Sample.comment Sample.world))
     = Some (200, EmptyString).
Proof.
  set (request := Sample.comment). set (w := Sample.world).
  assert (Hv : fst (verifyRequestSignature request w) = Return tt)
    by (vm_compute; reflexivity).
  assert (Hev : header_is (header request "x-github-event") "pull_request" = false)
    by reflexivity.
  destruct (C9_other_events_ignored request w Hv Hev) as (_ & C & R & _).
  split; [ exact C | exact R ].
Defined.

(** The mapper only writes console lines and makes calls. *)
Lemma mapper_keeps_response request w :
  http_response (snd (updateHabiticaTodoFromGitHub request w)) = http_response w.
Proof.
  destruct (quiet_mapper request w) as (_ & _ & Hs & Hb & _).
  unfold http_response. now rewrite Hs, Hb.
Qed.

(** Claim C1, as the code has it. After a successful signature check the
    handler answers 200 with an empty body when the mapper returns; when the
    mapper or the client throws, the handler throws the same error and sends
    nothing. *)
Theorem C1_success_only_when_mapper_returns (request : VercelRequest) (w : World) :
  fst (verifyRequestSignature request w) = Return tt ->
  match updateHabiticaTodoFromGitHub request w with
  | (Return _, w') =>
      handler request w = (Return tt, set_sent EmptyString (set_status 200 w'))
      /\ http_response (snd (handler request w)) = Some (200, EmptyString)
  | (Throw e, w') =>
      handler request w = (Throw e, w')
      /\ http_response (snd (handler request w)) = http_response w
  end.
Proof.
  intros Hv. rewrite (handler_verified _ _ Hv).
  pose proof (mapper_keeps_response request w) as Hk.
  unfold bind.
  destruct (updateHabiticaTodoFromGitHub request w) as [[ [] | e ] w'];
    cbn [snd] in *.
  - split; reflexivity.
  - split; [ reflexivity | exact Hk ].
Qed.

Lemma C1_success_only_when_mapper_returns_witness :
  http_response (snd (handler Sample.opened Sample.world))
  = Some (200, EmptyString).
Proof.
  set (request := Sample.opened). set (w := Sample.world).
  assert (Hv : fst (verifyRequestSignature request w) = Return tt)
    by (vm_compute; reflexivity).
  pose proof (C1_success_only_when_mapper_returns request w Hv) as H.
  assert (Hm : fst (updateHabiticaTodoFromGitHub request w) = Return tt)
    by (vm_compute; reflexivity).
  destruct (updateHabiticaTodoFromGitHub request w) as [[ [] | e ] w'].
  - exact (proj2 H).
  - discriminate Hm.
Defined.

(** Claim C1, as stated, fails: two verified deliveries after which the
    handler throws and no response was sent. In the first the Habitica
    credentials are missing, in the second the tracker answers 500. *)
Lemma C1_counterexample :
  fst (verifyRequestSignature Sample.opened Sample.world_without_credentials)
  = Return tt
  /\ fst (handler Sample.opened Sample.world_without_credentials)
     = Throw (Error "Missing Habitica credentials")
  /\ http_response (snd (handler Sample.opened Sample.world_without_credentials))
     = None
  /\ fst (verifyRequestSignature Sample.opened Sample.world_with_broken_tracker)
     = Return tt
  /\ fst (handler Sample.opened Sample.world_with_broken_tracker)
     = Throw (Error "Unexpected response from: https://habitica.com/api/v3/tasks/github__acme-widgets-42")
  /\ http_response (snd (handler Sample.opened Sample.world_with_broken_tracker))
     = None.
Proof.
  vm_compute. repeat split; reflexivity.
Qed.

(* ================================================================== *)
(** ** The signature check *)

Lemma same_bytes_eq (a b : list Z) : Utf8.same_bytes a b = true -> a = b.
Proof.
  revert b. induction a as [ | x a IH ]; intros [ | y b ] H;
    try discriminate; [ reflexivity | ].
  cbn in H. apply andb_prop in H as [Hxy Hab].
  apply Z.eqb_eq in Hxy. subst y. f_equal. now apply IH.
Qed.

Lemma scalarb_scalar c : Utf8.scalarb c = true -> Utf8.scalar c.
Proof. unfold Utf8.scalarb, Utf8.scalar. lia. Qed.

Lemma well_formed_check raw : Utf8.well_formedb raw = true -> Utf8.well_formed raw.
Proof.
  unfold Utf8.well_formedb. intros H. apply andb_prop in H as [Hs Hb].
  exists (Utf8.decode (Bytes.of_string raw)). split.
  - apply Forall_forall. intros c Hc. apply scalarb_scalar.
    rewrite forallb_forall in Hs. now apply Hs.
  - now apply same_bytes_eq.
Qed.

Lemma append_cancel (p a b : string) : (p ++ a = p ++ b)%string -> a = b.
Proof.
  induction p as [ | x p IH ]; cbn [append]; intros H; [ exact H | ].
  injection H as H. exact (IH H).
Qed.

Lemma rawBody_of_post request :
  method request = Some "POST" ->
  Utf8.well_formed (stream request) ->
  rawBody_of request = stream request.
Proof.
  intros Hm Hw. unfold rawBody_of. rewrite Hm. cbn.
  now apply toString_well_formed.
Qed.

Lemma verify_iff request w secret :
  truthy (GITHUB_WEBHOOK_SECRET (env w)) = Some secret ->
  (fst (verifyRequestSignature request w) = Return tt
   <-> header_to_str (header request "x-hub-signature-256")
       = expected_signature secret (rawBody_of request)).
Proof.
  intros Hs. rewrite verify_outcome, Hs.
  destruct (String.eqb_spec
              (header_to_str (header request "x-hub-signature-256"))
              (expected_signature secret (rawBody_of request))) as [ E | NE ].
  - tauto.
  - split; [ discriminate | contradiction ].
Qed.

(** Claim C2, as the code has it. For a POST request whose body is
    well-formed UTF-8 and a configured (non-empty) secret, the check succeeds
    exactly when the text of the signature header is [sha256=] followed by
    the hex HMAC-SHA256 of the body under the secret; the signature computed
    from the secret and the body is accepted; and a signature that is
    accepted is refused for any other body or secret whose HMAC differs. *)
Theorem C2_signature_of_post_body
    (request : VercelRequest) (w : World) (secret : string) :
  truthy (GITHUB_WEBHOOK_SECRET (env w)) = Some secret ->
  method request = Some "POST" ->
  Utf8.well_formed (stream request) ->
  (fst (verifyRequestSignature request w) = Return tt
   <-> header_to_str (header request "x-hub-signature-256")
       = ("sha256=" ++ hmac_sha256_hex secret (stream request))%string)
  /\ (header request "x-hub-signature-256"
      = HOne ("sha256=" ++ hmac_sha256_hex secret (stream request))%string ->
      fst (verifyRequestSignature request w) = Return tt)
  /\ (forall (request' : VercelRequest) (w' : World) (secret' : string),
        truthy (GITHUB_WEBHOOK_SECRET (env w')) = Some secret' ->
        method request' = Some "POST" ->
        Utf8.well_formed (stream request') ->
        header request' "x-hub-signature-256"
        = header request "x-hub-signature-256" ->
        fst (verifyRequestSignature request w) = Return tt ->
        hmac_sha256_hex secret' (stream request')
        <> hmac_sha256_hex secret (stream request) ->
        fst (verifyRequestSignature request' w')
        = Throw (Error "Invalid webhook signature")).
Proof.
  intros Hs Hm Hw.
  pose proof (verify_iff request w secret Hs) as Hiff.
  rewrite (rawBody_of_post _ Hm Hw) in Hiff. unfold expected_signature in Hiff.
  split; [ exact Hiff | ]. split.
  - intros Hh. apply Hiff. now rewrite Hh.
  - intros request' w' secret' Hs' Hm' Hw' Hh Hok Hne.
    rewrite verify_outcome, Hs', (rawBody_of_post _ Hm' Hw'), Hh.
    apply Hiff in Hok. rewrite Hok. unfold expected_signature.
    destruct (String.eqb_spec
                ("sha256=" ++ hmac_sha256_hex secret (stream request))
                ("sha256=" ++ hmac_sha256_hex secret' (stream request')))
      as [ E | NE ]; [ | reflexivity ].
    exfalso. apply Hne. symmetry. exact (append_cancel _ _ _ E).
Qed.

Lemma C2_signature_of_post_body_witness :
  fst (verifyRequestSignature Sample.opened Sample.world) = Return tt.
Proof.
  assert (Hs : truthy (GITHUB_WEBHOOK_SECRET (env Sample.world))
               = Some Sample.secret) by reflexivity.
  assert (Hm : method Sample.opened = Some "POST") by reflexivity.
  assert (Hw : Utf8.well_formed (stream Sample.opened))
    by (apply well_formed_check; vm_compute; reflexivity).
  apply (proj1 (proj2
    (C2_signature_of_post_body Sample.opened Sample.world Sample.secret Hs Hm Hw))).
  reflexivity.
Defined.

(** Claim C2, as stated, fails. A body that is the one byte 0xFF and the body
    obtained by changing that byte to 0xFE are accepted under the same
    secret with the same signature header, and that header is not the HMAC
    of the bytes of either body; and a request that is not a POST is refused
    although its header is the HMAC of its body under the secret. *)
Lemma C2_counterexample :
  fst (verifyRequestSignature (Sample.one_byte 0xFF) Sample.world) = Return tt
  /\ fst (verifyRequestSignature (Sample.one_byte 0xFE) Sample.world) = Return tt
  /\ stream (Sample.one_byte 0xFF) <> stream (Sample.one_byte 0xFE)
  /\ header (Sample.one_byte 0xFF) "x-hub-signature-256"
     = header (Sample.one_byte 0xFE) "x-hub-signature-256"
  /\ header_to_str (header (Sample.one_byte 0xFF) "x-hub-signature-256")
     <> ("sha256="
         ++ hmac_sha256_hex Sample.secret (stream (Sample.one_byte 0xFF)))%string
  /\ header_to_str (header Sample.not_a_post "x-hub-signature-256")
     = ("sha256="
        ++ hmac_sha256_hex Sample.secret (stream Sample.not_a_post))%string
  /\ fst (verifyRequestSignature Sample.not_a_post Sample.world)
     = Throw (Error "Invalid webhook signature").
Proof.
  vm_compute. repeat split; try reflexivity; discriminate.
Qed.

(* ================================================================== *)
(** ** The existence check *)

(** Claim C6. Once the lookup has been answered, [hasTask] gives [false]
    exactly for status 404 and [true] exactly for status 200; for any other
    status it throws "Unexpected response" and gives no boolean. *)
Theorem C6_hasTask_by_status
    (alias : string) (w w' : World) (response : Response) :
  HabiticaAPI.call "GET" ("tasks/" ++ alias) None [] w = (Return response, w') ->
  (fst (HabiticaAPI.hasTask alias w) = Return false <-> r_status response = 404)
  /\ (fst (HabiticaAPI.hasTask alias w) = Return true <-> r_status response = 200)
  /\ (r_status response <> 404 -> r_status response <> 200 ->
      fst (HabiticaAPI.hasTask alias w)
      = Throw (Error ("Unexpected response from: " ++ r_url response)%string))
  /\ snd (HabiticaAPI.hasTask alias w) = w'.
Proof.
  intros Hcall. unfold HabiticaAPI.hasTask, bind. rewrite Hcall.
  destruct (Z.eqb_spec (r_status response) 404) as [ E4 | N4 ].
  - cbn. repeat split; try tauto; try discriminate; lia.
  - destruct (Z.eqb_spec (r_status response) 200) as [ E2 | N2 ]; cbn.
    + repeat split; try tauto; try discriminate; lia.
    + repeat split; try tauto; try discriminate.
Qed.

Lemma C6_hasTask_by_status_witness :
  fst (HabiticaAPI.hasTask "github__acme-widgets-42" Sample.world) = Return false
  /\ fst (HabiticaAPI.hasTask "github__acme-widgets-42" Sample.world_with_task)
     = Return true.
Proof.
  split.
  - refine (proj2 (proj1 (C6_hasTask_by_status "github__acme-widgets-42"
      Sample.world
      (snd (HabiticaAPI.call "GET" "tasks/github__acme-widgets-42" None []
              Sample.world))
      {| r_status := 404;
         r_url := "https://habitica.com/api/v3/tasks/github__acme-widgets-42";
         r_text := Some "{}" |} _)) _); reflexivity.
  - refine (proj2 (proj1 (proj2 (C6_hasTask_by_status "github__acme-widgets-42"
      Sample.world_with_task
      (snd (HabiticaAPI.call "GET" "tasks/github__acme-widgets-42" None []
              Sample.world_with_task))
      {| r_status := 200;
         r_url := "https://habitica.com/api/v3/tasks/github__acme-widgets-42";
         r_text := Some "{}" |} _))) _); reflexivity.
Defined.

(* ================================================================== *)
(** ** The alias *)

Lemma lower_app (s t : string) :
  toLocaleLowerCase (s ++ t) = (toLocaleLowerCase s ++ toLocaleLowerCase t)%string.
Proof.
  induction s as [ | a s IH ]; cbn; [ reflexivity | now rewrite IH ].
Qed.

Lemma code_inj a b : code a = code b -> a = b.
Proof.
  unfold code. intros H. apply Nat2Z.inj in H.
  rewrite <- (ascii_nat_embedding a), <- (ascii_nat_embedding b). now rewrite H.
Qed.

Lemma lower_ascii_same a : same_letter a (lower_ascii a).
Proof.
  destruct a as [[|] [|] [|] [|] [|] [|] [|] [|]];
    first [ left; reflexivity | right; left; split; reflexivity ].
Qed.

Lemma lower_ascii_small a : capital (lower_ascii a) = false.
Proof.
  destruct a as [[|] [|] [|] [|] [|] [|] [|] [|]]; reflexivity.
Qed.

Lemma lower_ascii_of_capital a b :
  capital a = true -> code b = code a + 32 ->
  lower_ascii a = b /\ lower_ascii b = b.
Proof.
  intros Hc E.
  assert (Hb : b = ascii_of_nat (Z.to_nat (code a + 32))).
  { rewrite <- E. unfold code. now rewrite Nat2Z.id, ascii_nat_embedding. }
  subst b. clear E.
  destruct a as [[|] [|] [|] [|] [|] [|] [|] [|]];
    try discriminate Hc; split; reflexivity.
Qed.

Lemma same_letter_lower a b : same_letter a b -> lower_ascii a = lower_ascii b.
Proof.
  intros [ -> | [ [Hc E] | [Hc E] ] ]; [ reflexivity | | ];
    destruct (lower_ascii_of_capital _ _ Hc E) as [ E1 E2 ]; congruence.
Qed.

Lemma same_modulo_case_lower s t :
  same_modulo_case s t -> toLocaleLowerCase s = toLocaleLowerCase t.
Proof.
  induction 1 as [ | a b s t Hab _ IH ]; cbn; [ reflexivity | ].
  now rewrite (same_letter_lower _ _ Hab), IH.
Qed.

Lemma lower_same s : same_modulo_case s (toLocaleLowerCase s).
Proof.
  induction s as [ | a s IH ]; cbn [toLocaleLowerCase]; constructor;
    [ apply lower_ascii_same | exact IH ].
Qed.

Lemma lower_small s : no_capital (toLocaleLowerCase s) = true.
Proof.
  induction s as [ | a s IH ]; cbn [toLocaleLowerCase no_capital];
    [ reflexivity | ].
  now rewrite lower_ascii_small, IH.
Qed.

Lemma lower_uint d :
  toLocaleLowerCase (NilEmpty.string_of_uint d) = NilEmpty.string_of_uint d.
Proof.
  induction d; cbn [NilEmpty.string_of_uint toLocaleLowerCase];
    try rewrite IHd; reflexivity.
Qed.

Lemma lower_digits n : toLocaleLowerCase (digits n) = digits n.
Proof.
  unfold digits, NilZero.string_of_int, NilZero.string_of_uint.
  destruct (Z.to_int n) as [ d | d ].
  - destruct d; try apply lower_uint; reflexivity.
  - cbn [toLocaleLowerCase].
    destruct d; try (rewrite lower_uint; reflexivity); reflexivity.
Qed.

(** Below 2^53 the text of a number is its decimal digits. *)
Lemma decimal_safe n :
  - 9007199254740992 < n < 9007199254740992 -> decimal n = digits n.
Proof.
  intros Hn. unfold decimal, to_double.
  destruct (Z.ltb_spec (Z.abs n) 9007199254740992) as [ H | H ]; [ | lia ].
  destruct (Z.ltb_spec (Z.abs n) 9007199254740992) as [ H' | H' ]; [ | lia ].
  reflexivity.
Qed.

Lemma digits_value_acc d acc :
  digits_value (Zpos acc) (NilEmpty.string_of_uint d)
  = Some (Zpos (Pos.of_uint_acc d acc)).
Proof.
  revert acc. induction d; intros acc;
    cbn [NilEmpty.string_of_uint Pos.of_uint_acc digits_value];
    [ reflexivity | .. ];
    match goal with
    | |- (if ?c then _ else _) = _ => change c with true; cbv iota
    end;
    rewrite <- IHd; f_equal;
    match goal with
    | |- context [code ?a] =>
        let v := eval vm_compute in (code a) in change (code a) with v
    end; lia.
Qed.

Lemma digits_value_uint d :
  digits_value 0 (NilEmpty.string_of_uint d) = Some (Z.of_N (Pos.of_uint d)).
Proof.
  induction d; cbn [NilEmpty.string_of_uint Pos.of_uint digits_value];
    [ reflexivity | exact IHd | .. ];
    match goal with
    | |- (if ?c then _ else _) = _ => change c with true; cbv iota
    end;
    match goal with
    | |- digits_value ?n _ = _ =>
        let v := eval vm_compute in n in change n with v
    end;
    apply digits_value_acc.
Qed.

Lemma digits_positive p :
  digits (Zpos p) = NilEmpty.string_of_uint (Pos.to_uint p).
Proof.
  unfold digits. cbn [Z.to_int NilZero.string_of_int].
  unfold NilZero.string_of_uint.
  pose proof (DecimalPos.Unsigned.to_uint_nonnil p) as H.
  destruct (Pos.to_uint p); [ now elim H | reflexivity .. ].
Qed.

(** The digits of a positive number do not start with 0. *)
Lemma to_uint_leading p l : Pos.to_uint p <> Decimal.D0 l.
Proof.
  intros E.
  pose proof (DecimalPos.Unsigned.to_of (Pos.to_uint p)) as H.
  rewrite DecimalPos.Unsigned.of_to in H. cbn [N.to_uint] in H.
  assert (Hn : Decimal.nzhead (Pos.to_uint p) <> Decimal.Nil).
  { intros Hn. apply DecimalFacts.unorm_0 in Hn. rewrite <- H in Hn.
    exact (DecimalPos.Unsigned.to_uint_nonzero p Hn). }
  rewrite (DecimalFacts.unorm_nzhead _ Hn) in H.
  rewrite E in H at 1. symmetry in H. exact (DecimalFacts.nzhead_nonzero _ _ H).
Qed.

Lemma digits_numeral n : 0 <= n -> numeral_of n (digits n).
Proof.
  intros Hn. destruct n as [ | p | p ]; [ | | lia ].
  - repeat split; [ discriminate | ].
    intros rest E. now injection E as <-.
  - rewrite digits_positive. repeat split.
    + now rewrite digits_value_uint, DecimalPos.Unsigned.of_to.
    + pose proof (DecimalPos.Unsigned.to_uint_nonnil p) as H.
      destruct (Pos.to_uint p); [ now elim H | discriminate .. ].
    + intros rest E. exfalso.
      destruct (Pos.to_uint p)
        as [ | l | l | l | l | l | l | l | l | l | l ] eqn:Ep;
        try discriminate E.
      exact (to_uint_leading p l Ep).
Qed.

Lemma decimal_numeral n : safe_natural n -> numeral_of n (decimal n).
Proof.
  intros [Hlo Hhi]. rewrite decimal_safe by lia. now apply digits_numeral.
Qed.

Lemma alias_of_strings (owner repo : string) (number : Z) :
  safe_natural number ->
  taskAlias (JStr owner) (JStr repo) (JNum number)
  = ("github__" ++ toLocaleLowerCase owner ++ "-" ++ toLocaleLowerCase repo
     ++ "-" ++ decimal number)%string.
Proof.
  intros [Hlo Hhi]. unfold taskAlias, alias_of_text. cbn [to_str].
  rewrite !lower_app, decimal_safe, lower_digits by lia. reflexivity.
Qed.

(** Claim C7. For an owner login and a repository name in ASCII, as GitHub
    has them, and a pull-request number that is a natural number a double
    holds exactly, on a host whose locale has the default case mapping: the
    alias is a function of owner, repository name and number; it is the text
    [github__{owner}-{repo}-{number}] in which every capital letter of owner
    and repository name is replaced by its small letter and the number is
    written in decimal digits without leading zero; it has no capital
    letter; and changing the case of letters in the owner or in the
    repository name does not change it. *)
Theorem C7_alias_ignores_case (owner owner' repo repo' : string) (number : Z) :
  ascii_text owner = true -> ascii_text owner' = true ->
  ascii_text repo = true -> ascii_text repo' = true ->
  safe_natural number ->
  same_modulo_case owner owner' ->
  same_modulo_case repo repo' ->
  taskAlias (JStr owner) (JStr repo) (JNum number)
  = taskAlias (JStr owner') (JStr repo') (JNum number)
  /\ (exists o r d,
        taskAlias (JStr owner) (JStr repo) (JNum number)
        = ("github__" ++ o ++ "-" ++ r ++ "-" ++ d)%string
        /\ same_modulo_case owner o /\ no_capital o = true
        /\ same_modulo_case repo r /\ no_capital r = true
        /\ numeral_of number d)
  /\ no_capital (taskAlias (JStr owner) (JStr repo) (JNum number)) = true.
Proof.
  intros _ _ _ _ Hn Ho Hr.
  split; [ | split ].
  - rewrite !alias_of_strings by exact Hn.
    rewrite (same_modulo_case_lower _ _ Ho), (same_modulo_case_lower _ _ Hr).
    reflexivity.
  - exists (toLocaleLowerCase owner), (toLocaleLowerCase repo), (decimal number).
    split; [ now apply alias_of_strings | ].
    repeat split;
      try apply lower_same; try apply lower_small;
      now apply decimal_numeral.
  - unfold taskAlias, alias_of_text. apply lower_small.
Qed.

Lemma same_modulo_case_refl s : same_modulo_case s s.
Proof. induction s; constructor; [ now left | assumption ]. Qed.

Lemma C7_alias_ignores_case_witness :
  taskAlias (JStr "Acme") (JStr "Widgets") (JNum 42)
  = taskAlias (JStr "ACME") (JStr "widgets") (JNum 42).
Proof.
  refine (proj1 (C7_alias_ignores_case "Acme" "ACME" "Widgets" "widgets" 42
                   eq_refl eq_refl eq_refl eq_refl _ _ _)).
  - unfold safe_natural. lia.
  - constructor; [ now left | ].
    constructor; [ right; right; split; reflexivity | ].
    constructor; [ right; right; split; reflexivity | ].
    constructor; [ right; right; split; reflexivity | constructor ].
  - constructor; [ right; left; split; reflexivity | ].
    apply same_modulo_case_refl.
Defined.

Example alias_of_acme_widgets_42 :
  taskAlias (JStr "Acme") (JStr "Widgets") (JNum 42) = "github__acme-widgets-42".
Proof. reflexivity. Qed.

(* ================================================================== *)
(** ** The upsert protocol *)

Lemma opened_is_opened f :
  pr_action f = JStr "opened" -> strict_eq (pr_action f) (JStr "opened") = true.
Proof. intros ->. reflexivity. Qed.

Lemma closed_is_closed f :
  pr_action f = JStr "closed" ->
  strict_eq (pr_action f) (JStr "opened") = false
  /\ strict_eq (pr_action f) (JStr "closed") = true.
Proof. intros ->. split; reflexivity. Qed.

Lemma strict_eq_spec a b :
  strict_eq a b = true <-> a = b /\ primitive a = true.
Proof.
  destruct a as [ | | x | x | x | x | x ], b as [ | | y | y | y | y | y ];
    cbn [strict_eq primitive];
    try (split; [ discriminate | intros [E P]; discriminate ]);
    try (split; [ intros _; split; reflexivity | reflexivity ]).
  - rewrite Bool.eqb_true_iff. split; [ intros ->; auto | ].
    now intros [E _]; injection E.
  - rewrite Z.eqb_eq. split; [ intros ->; auto | ].
    now intros [E _]; injection E.
  - rewrite String.eqb_eq. split; [ intros ->; auto | ].
    now intros [E _]; injection E.
Qed.

(** Claim C4. A verified [pull_request] delivery with action "opened" first
    looks the alias up. If the tracker answers 200 that lookup is the only call;
    if it answers 404 one create call follows, and it carries the alias,
    type [todo], and priority [Medium] when the author's login is the
    owner's login, [Easy] otherwise. The two logins are the same when they
    are the same string (or the same number, boolean, [null] or
    [undefined]: the code compares with [===]); so for two logins that are
    strings the priority is [Medium] when the strings are equal and [Easy]
    when they differ. *)
Theorem C4_opened_creates_if_absent
    (request : VercelRequest) (w : World) (f : PullRequestPayload)
    (userId apiToken : string) (res : Response) :
  fst (verifyRequestSignature request w) = Return tt ->
  header_is (header request "x-github-event") "pull_request" = true ->
  read_payload (body request) = Return f ->
  pr_action f = JStr "opened" ->
  truthy (HABITICA_USER_ID (env w)) = Some userId ->
  truthy (HABITICA_API_TOKEN (env w)) = Some apiToken ->
  remote w (calls_of w) (lookup_call userId apiToken (pr_alias f))
  = Responded res ->
  r_text res <> None ->
  (r_status res = 200 ->
   calls_of (snd (handler request w))
   = calls_of w ++ [ lookup_call userId apiToken (pr_alias f) ])
  /\ (r_status res = 404 ->
      calls_of (snd (handler request w))
      = calls_of w
        ++ [ lookup_call userId apiToken (pr_alias f);
             create_call userId apiToken
               {| p_alias := taskAlias (pr_owner f) (pr_name f) (pr_number f);
                  p_type := todo;
                  p_text := p_text (pr_task f);
                  p_notes := p_notes (pr_task f);
                  p_priority :=
                    if strict_eq (pr_author f) (pr_owner f) then Medium
                    else Easy |} ])
  /\ (r_status res = 404 ->
      exists task,
        calls_of (snd (handler request w))
        = calls_of w
          ++ [ lookup_call userId apiToken (pr_alias f);
               create_call userId apiToken task ]
        /\ p_alias task = pr_alias f
        /\ p_type task = todo
        /\ (pr_author f = pr_owner f /\ primitive (pr_author f) = true ->
            p_priority task = Medium)
        /\ (~ (pr_author f = pr_owner f /\ primitive (pr_author f) = true) ->
            p_priority task = Easy)
        /\ (forall author owner,
              pr_author f = JStr author -> pr_owner f = JStr owner ->
              (author = owner -> p_priority task = Medium)
              /\ (author <> owner -> p_priority task = Easy))).
Proof.
  intros Hv Hev Hf Hact Hu Ht Hres Hb.
  destruct (r_text res) as [ b | ] eqn:Hb'; [ clear Hb | contradiction ].
  set (w1 := emit (ConsoleLog ("pull request.opened: " ++ pr_alias f)%string) w).
  assert (Hrun : calls_of (snd (handler request w))
                 = calls_of (snd (Habitica.addTodo (pr_alias f)
                     (p_text (pr_task f)) (p_notes (pr_task f))
                     (Some (pr_priority f)) w1))).
  { rewrite (handler_verified _ _ Hv), calls_after_respond.
    rewrite (mapper_reads _ _ Hev), Hf, (opened_is_opened _ Hact).
    unfold bind at 1, console_log at 1. now rewrite calls_after_ret. }
  assert (Hres1 : remote w1 (calls_of w1)
                    (lookup_call userId apiToken (pr_alias f)) = Responded res)
    by (unfold w1; rewrite calls_of_emit_log; exact Hres).
  assert (Hc1 : calls_of w1 = calls_of w)
    by (unfold w1; apply calls_of_emit_log).
  rewrite Hrun.
  assert (Habsent : r_status res = 404 ->
    calls_of (snd (Habitica.addTodo (pr_alias f) (p_text (pr_task f))
                     (p_notes (pr_task f)) (Some (pr_priority f)) w1))
    = calls_of w
      ++ [ lookup_call userId apiToken (pr_alias f);
           create_call userId apiToken
             {| p_alias := taskAlias (pr_owner f) (pr_name f) (pr_number f);
                p_type := todo;
                p_text := p_text (pr_task f);
                p_notes := p_notes (pr_task f);
                p_priority :=
                  if strict_eq (pr_author f) (pr_owner f) then Medium
                  else Easy |} ]).
  { intros Hst.
    rewrite (addTodo_absent_calls _ _ _ _ w1 _ _ _ _ Hu Ht Hres1 Hb' Hst), Hc1.
    reflexivity. }
  split; [ | split ]; intros Hst.
  - rewrite (addTodo_exists _ _ _ _ w1 _ _ _ _ Hu Ht Hres1 Hb' Hst). cbn [snd].
    now rewrite calls_of_emit_log, looked_up_calls, Hc1.
  - exact (Habsent Hst).
  - eexists. split; [ exact (Habsent Hst) | ].
    cbn [p_alias p_type p_priority].
    split; [ reflexivity | ]. split; [ reflexivity | ].
    pose proof (strict_eq_spec (pr_author f) (pr_owner f)) as Hs.
    destruct (strict_eq (pr_author f) (pr_owner f)).
    + split; [ reflexivity | ].
      split; [ intros Hn; elim Hn; now apply Hs | ].
      intros author owner Ea Eo.
      split; [ reflexivity | ].
      intros Hn. elim Hn.
      destruct (proj1 Hs eq_refl) as [E _]. congruence.
    + split; [ intros Hy; apply Hs in Hy; discriminate Hy | ].
      split; [ reflexivity | ].
      intros author owner Ea Eo.
      split; [ | reflexivity ].
      intros ->. assert (false = true) as Hx; [ | discriminate Hx ].
      apply Hs. rewrite Ea, Eo. split; reflexivity.
Qed.

Lemma C4_opened_creates_if_absent_witness :
  calls_of (snd (handler Sample.opened Sample.world))
  = [ lookup_call "8a2f6c1e" "t0ken" "github__acme-widgets-42";
      create_call "8a2f6c1e" "t0ken"
        {| p_alias := "github__acme-widgets-42";
           p_type := todo;
           p_text := "Acme/Widgets#42";
           p_notes := Some ("Add sprockets" ++ nl
                            ++ "https://github.com/Acme/Widgets/pull/42")%string;
           p_priority := Medium |} ]
  /\ exists task,
       calls_of (snd (handler Cases.opened_by_guest Sample.world))
       = [ lookup_call "8a2f6c1e" "t0ken" "github__acme-widgets-42";
           create_call "8a2f6c1e" "t0ken" task ]
       /\ p_priority task = Easy.
Proof.
  split.
  - assert (Hv : fst (verifyRequestSignature Sample.opened Sample.world)
                 = Return tt)
      by (vm_compute; reflexivity).
    refine (proj1 (proj2 (C4_opened_creates_if_absent Sample.opened Sample.world
      {| pr_author := JStr "Acme"; pr_owner := JStr "Acme";
         pr_name := JStr "Widgets"; pr_number := JNum 42;
         pr_full_name := JStr "Acme/Widgets"; pr_title := JStr "Add sprockets";
         pr_html_url := JStr "https://github.com/Acme/Widgets/pull/42";
         pr_action := JStr "opened" |}
      "8a2f6c1e" "t0ken"
      {| r_status := 404;
         r_url := "https://habitica.com/api/v3/tasks/github__acme-widgets-42";
         r_text := Some "{}" |}
      Hv _ _ _ _ _ _ _)) _); try reflexivity.
    discriminate.
  - assert (Hv : fst (verifyRequestSignature Cases.opened_by_guest Sample.world)
                 = Return tt)
      by (vm_compute; reflexivity).
    destruct (proj2 (proj2 (C4_opened_creates_if_absent Cases.opened_by_guest
      Sample.world
      {| pr_author := JStr "octocat"; pr_owner := JStr "Acme";
         pr_name := JStr "Widgets"; pr_number := JNum 42;
         pr_full_name := JStr "Acme/Widgets"; pr_title := JStr "Add sprockets";
         pr_html_url := JStr "https://github.com/Acme/Widgets/pull/42";
         pr_action := JStr "opened" |}
      "8a2f6c1e" "t0ken"
      {| r_status := 404;
         r_url := "https://habitica.com/api/v3/tasks/github__acme-widgets-42";
         r_text := Some "{}" |}
      Hv eq_refl eq_refl eq_refl eq_refl eq_refl eq_refl
      ltac:(discriminate))) eq_refl)
      as (task & Hcalls & _ & _ & _ & _ & Hlogins).
    exists task. split; [ exact Hcalls | ].
    apply (proj2 (Hlogins "octocat" "Acme" eq_refl eq_refl)).
    discriminate.
Defined.

(** Claim C5. A verified [pull_request] delivery with action "closed" first
    looks the alias up. If the tracker answers 404 that lookup is the only call;
    if it answers 200 one score call follows, for that alias and direction
    "up". With a tracker whose lookups reflect the creations, an alias that
    was never created gets no score call. *)
Theorem C5_closed_scores_if_present
    (request : VercelRequest) (w : World) (f : PullRequestPayload)
    (userId apiToken : string) (res : Response) :
  fst (verifyRequestSignature request w) = Return tt ->
  header_is (header request "x-github-event") "pull_request" = true ->
  read_payload (body request) = Return f ->
  pr_action f = JStr "closed" ->
  truthy (HABITICA_USER_ID (env w)) = Some userId ->
  truthy (HABITICA_API_TOKEN (env w)) = Some apiToken ->
  remote w (calls_of w) (lookup_call userId apiToken (pr_alias f))
  = Responded res ->
  r_text res <> None ->
  (r_status res = 404 ->
   calls_of (snd (handler request w))
   = calls_of w ++ [ lookup_call userId apiToken (pr_alias f) ])
  /\ (r_status res = 200 ->
      calls_of (snd (handler request w))
      = calls_of w
        ++ [ lookup_call userId apiToken (pr_alias f);
             score_call userId apiToken (pr_alias f) up ])
  /\ (reflects_creations (remote w) ->
      created (pr_alias f) (calls_of w) = false ->
      calls_of (snd (handler request w))
      = calls_of w ++ [ lookup_call userId apiToken (pr_alias f) ]).
Proof.
  intros Hv Hev Hf Hact Hu Ht Hres Hb.
  destruct (r_text res) as [ b | ] eqn:Hb'; [ clear Hb | contradiction ].
  destruct (closed_is_closed _ Hact) as [Hno Hcl].
  set (w1 := emit (ConsoleLog ("pull request.closed: " ++ pr_alias f)%string) w).
  assert (Hrun : calls_of (snd (handler request w))
                 = calls_of (snd (Habitica.completeTodo (pr_alias f) w1))).
  { rewrite (handler_verified _ _ Hv), calls_after_respond.
    rewrite (mapper_reads _ _ Hev), Hf, Hno, Hcl.
    unfold bind at 1, console_log at 1. now rewrite calls_after_ret. }
  assert (Hres1 : remote w1 (calls_of w1)
                    (lookup_call userId apiToken (pr_alias f)) = Responded res)
    by (unfold w1; rewrite calls_of_emit_log; exact Hres).
  assert (Hc1 : calls_of w1 = calls_of w)
    by (unfold w1; apply calls_of_emit_log).
  assert (H404 : r_status res = 404 ->
    calls_of (snd (Habitica.completeTodo (pr_alias f) w1))
    = calls_of w ++ [ lookup_call userId apiToken (pr_alias f) ]).
  { intros Hst.
    rewrite (completeTodo_absent _ w1 _ _ _ _ Hu Ht Hres1 Hb' Hst). cbn [snd].
    now rewrite calls_of_emit_log, looked_up_calls, Hc1. }
  rewrite Hrun. split; [ exact H404 | split ].
  - intros Hst.
    rewrite (completeTodo_exists_calls _ w1 _ _ _ _ Hu Ht Hres1 Hb' Hst), Hc1.
    reflexivity.
  - intros Hrefl Hnew. apply H404.
    destruct (Hrefl (calls_of w) (lookup_call userId apiToken (pr_alias f)))
      as (res' & Hres' & _ & Hstatus).
    rewrite Hres in Hres'. injection Hres' as <-.
    rewrite (Hstatus (pr_alias f) eq_refl eq_refl), Hnew. reflexivity.
Qed.

Lemma C5_closed_scores_if_present_witness :
  calls_of (snd (handler Sample.closed Sample.world))
  = [ lookup_call "8a2f6c1e" "t0ken" "github__acme-widgets-42" ]
  /\ calls_of (snd (handler Sample.closed Sample.world_with_task))
     = [ lookup_call "8a2f6c1e" "t0ken" "github__acme-widgets-42";
         score_call "8a2f6c1e" "t0ken" "github__acme-widgets-42" up ].
Proof.
  assert (Hv : forall R,
    fst (verifyRequestSignature Sample.closed
           (Sample.fresh Sample.configured R)) = Return tt)
    by (intros R; vm_compute; reflexivity).
  split.
  - refine (proj1 (C5_closed_scores_if_present Sample.closed Sample.world
      {| pr_author := JStr "Acme"; pr_owner := JStr "Acme";
         pr_name := JStr "Widgets"; pr_number := JNum 42;
         pr_full_name := JStr "Acme/Widgets"; pr_title := JStr "Add sprockets";
         pr_html_url := JStr "https://github.com/Acme/Widgets/pull/42";
         pr_action := JStr "closed" |}
      "8a2f6c1e" "t0ken"
      {| r_status := 404;
         r_url := "https://habitica.com/api/v3/tasks/github__acme-widgets-42";
         r_text := Some "{}" |}
      (Hv ledger) _ _ _ _ _ _ _) _); try reflexivity.
    discriminate.
  - refine (proj1 (proj2 (C5_closed_scores_if_present Sample.closed
      Sample.world_with_task
      {| pr_author := JStr "Acme"; pr_owner := JStr "Acme";
         pr_name := JStr "Widgets"; pr_number := JNum 42;
         pr_full_name := JStr "Acme/Widgets"; pr_title := JStr "Add sprockets";
         pr_html_url := JStr "https://github.com/Acme/Widgets/pull/42";
         pr_action := JStr "closed" |}
      "8a2f6c1e" "t0ken"
      {| r_status := 200;
         r_url := "https://habitica.com/api/v3/tasks/github__acme-widgets-42";
         r_text := Some "{}" |}
      (Hv Sample.knows_all) _ _ _ _ _ _ _)) _); try reflexivity.
    discriminate.
Defined.

Lemma strip_prefix_app (p s : string) : strip_prefix p (p ++ s) = Some s.
Proof.
  induction p as [ | a p IH ]; cbn; [ now destruct s | ].
  now rewrite Ascii.eqb_refl.
Qed.

Lemma ledger_reflects_creations : reflects_creations ledger.
Proof.
  intros history c. unfold ledger.
  destruct (String.eqb_spec (f_method c) "GET") as [ Hget | Hother ].
  - destruct (strip_prefix "https://habitica.com/api/v3/tasks/" (f_url c))
      as [ alias | ] eqn:Hstrip.
    + eexists; split; [ reflexivity | split; [ discriminate | ] ].
      intros alias' _ Hurl. rewrite Hurl, strip_prefix_app in Hstrip.
      injection Hstrip as ->. reflexivity.
    + eexists; split; [ reflexivity | split; [ discriminate | ] ].
      intros alias' _ Hurl. rewrite Hurl, strip_prefix_app in Hstrip.
      discriminate.
  - destruct (is_create c);
      (eexists; split; [ reflexivity | split; [ discriminate | ] ]);
      intros alias' Hm; contradiction.
Qed.

Lemma created_after_create alias history u t p extra :
  p_alias p = alias ->
  created alias (history ++ extra ++ [create_call u t p]) = true.
Proof.
  intros <-. unfold created. rewrite !existsb_app.
  apply orb_true_iff; right. apply orb_true_iff; right.
  cbn [existsb]. apply orb_true_iff; left.
  unfold is_create_of, is_create. cbn [create_call f_method f_url f_body].
  rewrite (String.eqb_refl (p_alias p)). reflexivity.
Qed.

(** Claim C8. Two "opened" runs in a row for an alias not created before,
    against a tracker whose lookups reflect the creations: the first run
    looks up and creates, the second looks up and returns; one create call
    in all. *)
Theorem C8_opened_twice_creates_once
    (w : World) (alias tx : string) (notes : option string)
    (priority : option HabiticaTaskPriority) (userId apiToken : string) :
  truthy (HABITICA_USER_ID (env w)) = Some userId ->
  truthy (HABITICA_API_TOKEN (env w)) = Some apiToken ->
  reflects_creations (remote w) ->
  created alias (calls_of w) = false ->
  let first := Habitica.addTodo alias tx notes priority w in
  let second := Habitica.addTodo alias tx notes priority (snd first) in
  calls_of (snd second)
  = calls_of w
    ++ [ lookup_call userId apiToken alias;
         create_call userId apiToken
           {| p_alias := alias; p_type := todo; p_text := tx; p_notes := notes;
              p_priority := match priority with Some p => p | None => Easy end |};
         lookup_call userId apiToken alias ]
  /\ fst second = Return None
  /\ List.length (filter is_create (calls_of (snd second)))
     = S (List.length (filter is_create (calls_of w))).
Proof.
  intros Hu Ht Hrefl Hnew first second.
  destruct (Hrefl (calls_of w) (lookup_call userId apiToken alias))
    as (res & Hres & Hb & Hstatus).
  destruct (r_text res) as [ b | ] eqn:Hb'; [ clear Hb | contradiction ].
  specialize (Hstatus alias eq_refl eq_refl). rewrite Hnew in Hstatus.
  pose proof (addTodo_absent_calls alias tx notes priority w _ _ _ _
                Hu Ht Hres Hb' Hstatus) as Hfirst.
  fold first in Hfirst.
  destruct (quiet_addTodo alias tx notes priority w) as (He & Hr & _).
  fold first in He, Hr.
  set (w1 := snd first) in *.
  assert (Hu1 : truthy (HABITICA_USER_ID (env w1)) = Some userId)
    by now rewrite He.
  assert (Ht1 : truthy (HABITICA_API_TOKEN (env w1)) = Some apiToken)
    by now rewrite He.
  assert (Hrefl1 : reflects_creations (remote w1)) by now rewrite Hr.
  destruct (Hrefl1 (calls_of w1) (lookup_call userId apiToken alias))
    as (res1 & Hres1 & Hb1 & Hstatus1).
  destruct (r_text res1) as [ b1 | ] eqn:Hb1'; [ clear Hb1 | contradiction ].
  specialize (Hstatus1 alias eq_refl eq_refl).
  rewrite Hfirst in Hstatus1.
  pose proof (created_after_create alias (calls_of w) userId apiToken
    {| p_alias := alias; p_type := todo; p_text := tx; p_notes := notes;
       p_priority := match priority with Some p => p | None => Easy end |}
    [lookup_call userId apiToken alias] eq_refl) as Hcreated.
  cbn [app] in Hcreated. rewrite Hcreated in Hstatus1.
  pose proof (addTodo_exists alias tx notes priority w1 _ _ _ _
                Hu1 Ht1 Hres1 Hb1' Hstatus1) as Hsecond.
  fold second in Hsecond.
  assert (Hcalls : calls_of (snd second)
    = calls_of w
      ++ [ lookup_call userId apiToken alias;
           create_call userId apiToken
             {| p_alias := alias; p_type := todo; p_text := tx;
                p_notes := notes;
                p_priority := match priority with Some p => p | None => Easy end |};
           lookup_call userId apiToken alias ]).
  { rewrite Hsecond. cbn [snd].
    rewrite calls_of_emit_log, looked_up_calls, Hfirst, <- app_assoc.
    reflexivity. }
  split; [ exact Hcalls | split ].
  - now rewrite Hsecond.
  - rewrite Hcalls, filter_app, length_app. cbn. lia.
Qed.

Lemma C8_opened_twice_creates_once_witness :
  List.length (filter is_create (calls_of (snd
    (Habitica.addTodo "github__acme-widgets-42" "Acme/Widgets#42" None None
       (snd (Habitica.addTodo "github__acme-widgets-42" "Acme/Widgets#42"
               None None Sample.world))))))
  = 1%nat.
Proof.
  refine (proj2 (proj2 (C8_opened_twice_creates_once Sample.world
    "github__acme-widgets-42" "Acme/Widgets#42" None None "8a2f6c1e" "t0ken"
    _ _ _ _))); try reflexivity.
  exact ledger_reflects_creations.
Defined.

(* ================================================================== *)
(** ** Reading the payload *)

Lemma get_prop_throws v k e :
  get_prop v k = Throw e -> exists msg, e = TypeError msg.
Proof.
  destruct v; cbn; intros H; try discriminate; injection H as <-; eauto.
Qed.

Lemma ToString_throws v e :
  ToString v = Throw e -> exists msg, e = TypeError msg.
Proof.
  rewrite ToString_plain. destruct (plain v); [ discriminate | ].
  intros H; injection H as <-. eauto.
Qed.

Lemma read_payload_throws payload e :
  read_payload payload = Throw e -> exists msg, e = TypeError msg.
Proof.
  unfold read_payload, and_then.
  repeat match goal with
         | |- context [get_prop ?v ?k] =>
             let H := fresh "H" in
             destruct (get_prop v k) eqn:H;
             [ | intros E; injection E as <-; exact (get_prop_throws _ _ _ H) ]
         | |- context [ToString ?v] =>
             let H := fresh "H" in
             destruct (ToString v) eqn:H;
             [ | intros E; injection E as <-; exact (ToString_throws _ _ H) ]
         end.
  discriminate.
Qed.

Lemma read_payload_needs_objects payload f :
  read_payload payload = Return f ->
  has_object payload "pull_request" = true
  /\ has_object payload "repository" = true.
Proof.
  unfold read_payload, and_then, has_object.
  destruct (get_prop payload "pull_request") as [ pull_request | ];
    [ | discriminate ].
  destruct pull_request; try (cbn; discriminate).
  destruct (get_prop (JObj fields) "user") as [ user | ]; [ | discriminate ].
  destruct (get_prop user "login"); [ | discriminate ].
  destruct (get_prop payload "repository") as [ repository | ];
    [ | discriminate ].
  destruct repository; try (cbn; discriminate).
  intros _. split; reflexivity.
Qed.

(** Claim C10. For a verified [pull_request] delivery the mapper reads the
    fields of the payload before it looks at the action: if the payload has no
    [pull_request] object or no [repository] object, the mapper throws a
    TypeError, whatever the action is, and so does the handler; no console
    line is written, no call is made and no response is sent. *)
Theorem C10_fields_read_before_action (request : VercelRequest) (w : World) :
  fst (verifyRequestSignature request w) = Return tt ->
  header_is (header request "x-github-event") "pull_request" = true ->
  (forall e,
     read_payload (body request) = Throw e ->
     updateHabiticaTodoFromGitHub request w = (Throw e, w))
  /\ (has_object (body request) "pull_request" = false
      \/ has_object (body request) "repository" = false ->
      exists msg,
        updateHabiticaTodoFromGitHub request w = (Throw (TypeError msg), w)
        /\ handler request w = (Throw (TypeError msg), w)).
Proof.
  intros Hv Hev.
  assert (Hthrow : forall e,
    read_payload (body request) = Throw e ->
    updateHabiticaTodoFromGitHub request w = (Throw e, w))
    by (intros e He; rewrite (mapper_reads _ _ Hev), He; reflexivity).
  split; [ exact Hthrow | ]. intros Hobj.
  assert (Hread : exists msg, read_payload (body request) = Throw (TypeError msg)).
  { destruct (read_payload (body request)) as [ f | e ] eqn:Hf.
    - destruct (read_payload_needs_objects _ _ Hf) as [Hp Hr].
      destruct Hobj as [ H | H ]; congruence.
    - destruct (read_payload_throws _ _ Hf) as (msg & ->). eauto. }
  destruct Hread as (msg & Hread). exists msg.
  pose proof (Hthrow _ Hread) as Hm.
  split; [ exact Hm | ].
  rewrite (handler_verified _ _ Hv). unfold bind. rewrite Hm. reflexivity.
Qed.

Lemma C10_fields_read_before_action_witness :
  exists msg,
    updateHabiticaTodoFromGitHub Sample.labeled_bare Sample.world
    = (Throw (TypeError msg), Sample.world)
    /\ handler Sample.labeled_bare Sample.world
       = (Throw (TypeError msg), Sample.world).
Proof.
  apply C10_fields_read_before_action.
  - vm_compute; reflexivity.
  - reflexivity.
  - left; reflexivity.
Defined.

(* ================================================================== *)
(** ** The client without credentials, and one call at a time *)

Lemma call_refuses m path payload hs w :
  truthy (HABITICA_USER_ID (env w)) = None
  \/ truthy (HABITICA_API_TOKEN (env w)) = None ->
  HabiticaAPI.call m path payload hs w
  = (Throw (Error "Missing Habitica credentials"), w).
Proof.
  unfold HabiticaAPI.call, bind, getenv, throw.
  intros [ H | H ]; rewrite H; [ reflexivity | ].
  destruct (truthy (HABITICA_USER_ID (env w))); reflexivity.
Qed.

Lemma hasTask_refuses alias w :
  truthy (HABITICA_USER_ID (env w)) = None
  \/ truthy (HABITICA_API_TOKEN (env w)) = None ->
  HabiticaAPI.hasTask alias w
  = (Throw (Error "Missing Habitica credentials"), w).
Proof.
  intros H. unfold HabiticaAPI.hasTask, bind.
  now rewrite (call_refuses _ _ _ _ _ H).
Qed.

Lemma addTodo_refuses alias tx notes priority w :
  truthy (HABITICA_USER_ID (env w)) = None
  \/ truthy (HABITICA_API_TOKEN (env w)) = None ->
  Habitica.addTodo alias tx notes priority w
  = (Throw (Error "Missing Habitica credentials"), w).
Proof.
  intros H. unfold Habitica.addTodo, bind. now rewrite (hasTask_refuses _ _ H).
Qed.

Lemma completeTodo_refuses alias w :
  truthy (HABITICA_USER_ID (env w)) = None
  \/ truthy (HABITICA_API_TOKEN (env w)) = None ->
  Habitica.completeTodo alias w
  = (Throw (Error "Missing Habitica credentials"), w).
Proof.
  intros H. unfold Habitica.completeTodo, bind.
  now rewrite (hasTask_refuses _ _ H).
Qed.

(** X1. Without a user id or without a token (unset or empty), no operation
    of the client reaches the network: each throws "Missing Habitica
    credentials" and leaves the world as it was, the two upsert operations
    included. *)
Theorem client_needs_both_credentials (w : World) :
  truthy (HABITICA_USER_ID (env w)) = None
  \/ truthy (HABITICA_API_TOKEN (env w)) = None ->
  (forall m path payload hs, refused (HabiticaAPI.call m path payload hs) w)
  /\ (forall alias, refused (HabiticaAPI.hasTask alias) w)
  /\ (forall alias type tx notes priority,
        refused (HabiticaAPI.createTask alias type tx notes priority) w)
  /\ (forall taskId direction,
        refused (HabiticaAPI.scoreTask taskId direction) w)
  /\ (forall alias tx notes priority,
        refused (Habitica.addTodo alias tx notes priority) w)
  /\ (forall alias, refused (Habitica.completeTodo alias) w).
Proof.
  intros H. unfold refused. repeat split; intros.
  - now apply call_refuses.
  - now apply hasTask_refuses.
  - now apply call_refuses.
  - now apply call_refuses.
  - now apply addTodo_refuses.
  - now apply completeTodo_refuses.
Qed.

Lemma client_needs_both_credentials_witness :
  Habitica.addTodo "github__acme-widgets-42" "Acme/Widgets#42" None None
    (Sample.fresh Cases.empty_token ledger)
  = (Throw (Error "Missing Habitica credentials"),
     Sample.fresh Cases.empty_token ledger).
Proof.
  refine (proj1 (proj2 (proj2 (proj2 (proj2
    (client_needs_both_credentials (Sample.fresh Cases.empty_token ledger) _)))))
    _ _ _ _).
  right. reflexivity.
Defined.

(** X2. With both credentials set, a call is one [fetch] and no more,
    whatever comes back: a rejected fetch or an unreadable body makes the
    call throw without a second attempt and without a console line;
    otherwise the response is returned as it is, whatever its status, after
    one console line. *)
Theorem call_fetches_once
    (m path : string) (payload : option TaskPayload) (w : World)
    (userId apiToken : string) :
  truthy (HABITICA_USER_ID (env w)) = Some userId ->
  truthy (HABITICA_API_TOKEN (env w)) = Some apiToken ->
  let c := {| f_url := ("https://habitica.com/api/v3/" ++ path)%string;
              f_method := m;
              f_headers :=
                api_headers userId apiToken
                  (match payload with Some _ => true | None => false end);
              f_body := payload |} in
  let run := HabiticaAPI.call m path payload [] w in
  calls_of (snd run) = calls_of w ++ [c]
  /\ (remote w (calls_of w) c = NetworkError ->
      run = (Throw (TypeError "fetch failed"), emit (Fetch c) w))
  /\ (forall res,
        remote w (calls_of w) c = Responded res -> r_text res = None ->
        run = (Throw (TypeError "terminated"), emit (Fetch c) w))
  /\ (forall res b,
        remote w (calls_of w) c = Responded res -> r_text res = Some b ->
        run = (Return res,
               emit (ConsoleLog
                       (call_line m ("https://habitica.com/api/v3/" ++ path)
                          res b))
                    (emit (Fetch c) w))).
Proof.
  intros Hu Ht c run.
  assert (Hrun : run
    = match remote w (calls_of w) c with
      | NetworkError => (Throw (TypeError "fetch failed"), emit (Fetch c) w)
      | Responded res =>
          match r_text res with
          | None => (Throw (TypeError "terminated"), emit (Fetch c) w)
          | Some b =>
              (Return res,
               emit (ConsoleLog
                       (call_line m ("https://habitica.com/api/v3/" ++ path)
                          res b))
                    (emit (Fetch c) w))
          end
      end)
    by exact (call_run m path payload w userId apiToken Hu Ht).
  split; [ | split; [ | split ] ].
  - unfold run. apply (call_calls m path payload w userId apiToken Hu Ht).
  - intros Hr. rewrite Hrun, Hr. reflexivity.
  - intros res Hr Hb. rewrite Hrun, Hr, Hb. reflexivity.
  - intros res b Hr Hb. rewrite Hrun, Hr, Hb. reflexivity.
Qed.

Lemma call_fetches_once_witness :
  HabiticaAPI.call "GET" "tasks/github__acme-widgets-42" None []
    (Sample.fresh Sample.configured Cases.unreachable)
  = (Throw (TypeError "fetch failed"),
     emit (Fetch (lookup_call "8a2f6c1e" "t0ken" "github__acme-widgets-42"))
       (Sample.fresh Sample.configured Cases.unreachable)).
Proof.
  refine (proj1 (proj2 (call_fetches_once "GET" "tasks/github__acme-widgets-42"
    None (Sample.fresh Sample.configured Cases.unreachable)
    "8a2f6c1e" "t0ken" _ _)) _); reflexivity.
Defined.

(* ================================================================== *)
(** ** More on the signature check *)

Lemma be_bytes_length n x : List.length (Sha256.be_bytes n x) = n.
Proof. induction n as [ | n IH ]; cbn; [ reflexivity | now rewrite IH ]. Qed.

Lemma blocks_length n h bs :
  List.length h = 8%nat -> List.length (Sha256.blocks n h bs) = 8%nat.
Proof.
  revert h bs. induction n as [ | n IH ]; intros h bs Hh; cbn [Sha256.blocks].
  - exact Hh.
  - apply IH. reflexivity.
Qed.

Lemma sha256_length msg : List.length (Sha256.sha256 msg) = 32%nat.
Proof.
  unfold Sha256.sha256. cbv zeta.
  set (p := Sha256.pad msg).
  pose proof (blocks_length (List.length p / 64) Sha256.H0 p eq_refl) as H.
  destruct (Sha256.blocks (List.length p / 64) Sha256.H0 p)
    as [ | a [ | b [ | c [ | d [ | e [ | f [ | g [ | h [ | ] ] ] ] ] ] ] ] ];
    try discriminate H.
  cbn [flat_map]. rewrite !length_app, !be_bytes_length. reflexivity.
Qed.

Lemma hex_length bs :
  String.length (Bytes.hex bs) = (2 * List.length bs)%nat.
Proof.
  induction bs as [ | b bs IH ]; cbn [Bytes.hex String.length List.length];
    [ reflexivity | rewrite IH; lia ].
Qed.

Lemma expected_signature_length secret rawBody :
  String.length (expected_signature secret rawBody) = 71%nat.
Proof.
  unfold expected_signature, hmac_sha256_hex. cbn [append String.length].
  unfold Sha256.hmac. now rewrite hex_length, sha256_length.
Qed.

(** X3. The digest the header is compared with always has 71 characters
    ([sha256=] and 64 hex digits), so with a secret configured a signature
    header of any other length is refused, whatever the body. *)
Theorem signature_of_other_length_refused
    (request : VercelRequest) (w : World) (secret : string) :
  truthy (GITHUB_WEBHOOK_SECRET (env w)) = Some secret ->
  String.length (header_to_str (header request "x-hub-signature-256")) <> 71%nat ->
  fst (verifyRequestSignature request w)
  = Throw (Error "Invalid webhook signature")
  /\ http_response (snd (handler request w)) = Some (403, EmptyString).
Proof.
  intros Hs Hlen.
  assert (Hv : fst (verifyRequestSignature request w)
               = Throw (Error "Invalid webhook signature")).
  { rewrite verify_outcome, Hs.
    destruct (String.eqb_spec
                (header_to_str (header request "x-hub-signature-256"))
                (expected_signature secret (rawBody_of request))) as [ E | NE ];
      [ | reflexivity ].
    exfalso. apply Hlen. rewrite E. apply expected_signature_length. }
  split; [ exact Hv | ].
  now rewrite (handler_rejected _ _ _ Hv).
Qed.

Lemma signature_of_other_length_refused_witness :
  fst (verifyRequestSignature Cases.short_signature Sample.world)
  = Throw (Error "Invalid webhook signature").
Proof.
  refine (proj1 (signature_of_other_length_refused Cases.short_signature
    Sample.world Sample.secret _ _)); [ reflexivity | ].
  cbn. lia.
Defined.

(** X4. For a request whose method is not POST the body is not read: the
    check succeeds exactly when the header is the digest of the empty text
    under the secret, and two such requests that differ only in their body
    and payload fare alike. *)
Theorem body_ignored_unless_post
    (request : VercelRequest) (w : World) (secret : string) :
  truthy (GITHUB_WEBHOOK_SECRET (env w)) = Some secret ->
  method request <> Some "POST" ->
  (fst (verifyRequestSignature request w) = Return tt
   <-> header_to_str (header request "x-hub-signature-256")
       = ("sha256=" ++ hmac_sha256_hex secret EmptyString)%string)
  /\ forall raw payload,
       fst (verifyRequestSignature
              {| method := method request; headers := headers request;
                 stream := raw; body := payload |} w)
       = fst (verifyRequestSignature request w).
Proof.
  intros Hs Hm.
  assert (Hraw : forall raw payload,
    rawBody_of {| method := method request; headers := headers request;
                  stream := raw; body := payload |} = EmptyString).
  { intros raw payload. unfold rawBody_of. cbn [method].
    destruct (method request) as [ m | ]; [ | reflexivity ].
    destruct (String.eqb_spec m "POST") as [ -> | _ ];
      [ contradiction | reflexivity ]. }
  assert (Hraw0 : rawBody_of request = EmptyString).
  { rewrite <- (Hraw (stream request) (body request)).
    destruct request; reflexivity. }
  split.
  - rewrite (verify_iff request w secret Hs), Hraw0. reflexivity.
  - intros raw payload. rewrite !verify_outcome, Hs, Hraw, Hraw0. reflexivity.
Qed.

Lemma body_ignored_unless_post_witness :
  fst (verifyRequestSignature Cases.probe Sample.world) = Return tt.
Proof.
  refine (proj2 (proj1 (body_ignored_unless_post Cases.probe Sample.world
    Sample.secret _ _)) _); [ reflexivity | discriminate | reflexivity ].
Defined.

Lemma verify_reading_received m hs readable payload w :
  failure readable = None \/ m <> Some "POST" ->
  verifyRequestSignature_reading m hs readable w
  = verifyRequestSignature (received m hs (yielded readable) payload) w.
Proof.
  intros Hok.
  unfold verifyRequestSignature_reading, verifyRequestSignature, rawBody_of,
    header, received, buffer_async.
  cbn [method headers stream].
  unfold bind at 1. unfold bind at 4.
  destruct (getenv GITHUB_WEBHOOK_SECRET w) as [[ secret | e ] w1];
    [ | reflexivity ].
  destruct (truthy secret) as [ key | ]; [ | reflexivity ].
  destruct m as [ m' | ]; [ | reflexivity ].
  destruct (String.eqb_spec m' "POST") as [ -> | Hm ]; [ | reflexivity ].
  destruct Hok as [ -> | Hm ]; [ reflexivity | now elim Hm ].
Qed.

(** X5. The check, with the reading of the body in it, has four outcomes
    and no side effect. It throws "Missing GITHUB_WEBHOOK_SECRET" when the
    secret is unset or empty, whatever the request and its stream. With a
    secret, a POST whose stream breaks off throws the error of the stream.
    In every other case the body is read to its end (or left unread, when
    the request is not a POST) and the check returns or throws "Invalid
    webhook signature": never the RangeError of [timingSafeEqual], which
    the length test shields. *)
Theorem verify_outcomes (m : option string) (hs : list (string * Header))
    (readable : Readable) (payload : JValue) (w : World) :
  snd (verifyRequestSignature_reading m hs readable w) = w
  /\ (GITHUB_WEBHOOK_SECRET (env w) = None
      \/ GITHUB_WEBHOOK_SECRET (env w) = Some EmptyString ->
      fst (verifyRequestSignature_reading m hs readable w)
      = Throw (Error "Missing GITHUB_WEBHOOK_SECRET"))
  /\ (forall secret e,
        GITHUB_WEBHOOK_SECRET (env w) = Some secret ->
        secret <> EmptyString ->
        m = Some "POST" ->
        failure readable = Some e ->
        fst (verifyRequestSignature_reading m hs readable w) = Throw e)
  /\ (forall secret,
        GITHUB_WEBHOOK_SECRET (env w) = Some secret ->
        secret <> EmptyString ->
        failure readable = None \/ m <> Some "POST" ->
        verifyRequestSignature_reading m hs readable w
        = verifyRequestSignature (received m hs (yielded readable) payload) w
        /\ (fst (verifyRequestSignature_reading m hs readable w) = Return tt
            \/ fst (verifyRequestSignature_reading m hs readable w)
               = Throw (Error "Invalid webhook signature"))).
Proof.
  split; [ | split; [ | split ] ].
  - destruct (failure readable) as [ e | ] eqn:Hfail.
    + unfold verifyRequestSignature_reading, buffer_async, bind, getenv,
        throw, ret, lift.
      rewrite Hfail.
      destruct (truthy _); cbn [fst snd]; [ | reflexivity ].
      destruct m as [ m' | ]; [ destruct (String.eqb m' "POST") | ];
        cbn [fst snd]; try reflexivity;
        destruct (negb _); cbn [fst snd]; try reflexivity;
        destruct (timingSafeEqual _ _) as [ [ | ] | ]; reflexivity.
    + rewrite (verify_reading_received m hs readable payload w (or_introl Hfail)).
      apply verify_world.
  - intros Hno.
    unfold verifyRequestSignature_reading, bind, getenv, throw.
    destruct Hno as [ -> | -> ]; reflexivity.
  - intros secret e Hs Hne -> Hfail.
    unfold verifyRequestSignature_reading, buffer_async, bind, getenv, throw.
    rewrite Hs, Hfail.
    destruct secret; [ now elim Hne | reflexivity ].
  - intros secret Hs Hne Hok.
    pose proof (verify_reading_received m hs readable payload w Hok) as Hrun.
    split; [ exact Hrun | ].
    rewrite Hrun, verify_outcome, Hs.
    destruct secret; [ now elim Hne | ]. cbn [truthy].
    destruct (String.eqb _ _); auto.
Qed.

Lemma verify_outcomes_witness :
  fst (verifyRequestSignature_reading (Some "POST")
         (headers Sample.opened) Cases.broken_stream Sample.world)
  = Throw (Error "aborted").
Proof.
  refine (proj1 (proj2 (proj2 (verify_outcomes (Some "POST")
    (headers Sample.opened) Cases.broken_stream JUndefined Sample.world)))
    Sample.secret (Error "aborted") eq_refl _ eq_refl eq_refl).
  discriminate.
Defined.

(* ================================================================== *)
(** ** The upsert, whatever the tracker answers *)

Lemma hasTask_keeps alias w :
  env (snd (HabiticaAPI.hasTask alias w)) = env w
  /\ remote (snd (HabiticaAPI.hasTask alias w)) = remote w.
Proof.
  destruct (quiet_hasTask alias w) as (He & Hr & _). auto.
Qed.

Lemma addTodo_cases alias tx notes priority w u t :
  truthy (HABITICA_USER_ID (env w)) = Some u ->
  truthy (HABITICA_API_TOKEN (env w)) = Some t ->
  match fst (HabiticaAPI.hasTask alias w) with
  | Return false =>
      calls_of (snd (Habitica.addTodo alias tx notes priority w))
      = calls_of (snd (HabiticaAPI.hasTask alias w))
        ++ [ create_call u t
               {| p_alias := alias; p_type := todo; p_text := tx;
                  p_notes := notes;
                  p_priority :=
                    match priority with Some p => p | None => Easy end |} ]
  | Return true =>
      Habitica.addTodo alias tx notes priority w
      = (Return None,
         emit (ConsoleLog ("Task already exists: " ++ alias)%string)
              (snd (HabiticaAPI.hasTask alias w)))
  | Throw e =>
      Habitica.addTodo alias tx notes priority w
      = (Throw e, snd (HabiticaAPI.hasTask alias w))
  end.
Proof.
  intros Hu Ht. destruct (hasTask_keeps alias w) as [He _].
  destruct (HabiticaAPI.hasTask alias w) as [[ [ | ] | e ] w1] eqn:Hlook;
    cbn [fst snd] in *; unfold Habitica.addTodo, bind at 1; rewrite Hlook;
    try reflexivity.
  unfold bind at 1, console_log at 1. cbv beta iota.
  set (w2 := emit _ w1).
  assert (Hu2 : truthy (HABITICA_USER_ID (env w2)) = Some u)
    by (unfold w2; cbn [emit env]; now rewrite He).
  assert (Ht2 : truthy (HABITICA_API_TOKEN (env w2)) = Some t)
    by (unfold w2; cbn [emit env]; now rewrite He).
  unfold bind, HabiticaAPI.createTask, ret. cbv beta.
  pose proof (call_calls "POST" "tasks/user"
    (Some {| p_alias := alias; p_type := todo; p_text := tx; p_notes := notes;
             p_priority := match priority with Some p => p | None => Easy end |})
    w2 u t Hu2 Ht2) as Hcalls.
  assert (Hc2 : calls_of w2 = calls_of w1)
    by (unfold w2; apply calls_of_emit_log).
  destruct (HabiticaAPI.call _ _ _ _ w2) as [[ r | e ] w3]; cbn [snd] in *;
    rewrite Hcalls, Hc2; reflexivity.
Qed.

Lemma completeTodo_cases alias w u t :
  truthy (HABITICA_USER_ID (env w)) = Some u ->
  truthy (HABITICA_API_TOKEN (env w)) = Some t ->
  match fst (HabiticaAPI.hasTask alias w) with
  | Return true =>
      calls_of (snd (Habitica.completeTodo alias w))
      = calls_of (snd (HabiticaAPI.hasTask alias w))
        ++ [ score_call u t alias up ]
  | Return false =>
      Habitica.completeTodo alias w
      = (Return None,
         emit (ConsoleLog ("Task does not exist: " ++ alias)%string)
              (snd (HabiticaAPI.hasTask alias w)))
  | Throw e =>
      Habitica.completeTodo alias w
      = (Throw e, snd (HabiticaAPI.hasTask alias w))
  end.
Proof.
  intros Hu Ht. destruct (hasTask_keeps alias w) as [He _].
  destruct (HabiticaAPI.hasTask alias w) as [[ [ | ] | e ] w1] eqn:Hlook;
    cbn [fst snd] in *; unfold Habitica.completeTodo, bind at 1; rewrite Hlook;
    cbn [negb]; try reflexivity.
  unfold bind at 1, console_log at 1. cbv beta iota.
  set (w2 := emit _ w1).
  assert (Hu2 : truthy (HABITICA_USER_ID (env w2)) = Some u)
    by (unfold w2; cbn [emit env]; now rewrite He).
  assert (Ht2 : truthy (HABITICA_API_TOKEN (env w2)) = Some t)
    by (unfold w2; cbn [emit env]; now rewrite He).
  unfold bind, HabiticaAPI.scoreTask, ret. cbv beta.
  pose proof (call_calls "POST"
    ("tasks/" ++ alias ++ "/score/" ++ direction_str up) None
    w2 u t Hu2 Ht2) as Hcalls.
  assert (Hc2 : calls_of w2 = calls_of w1)
    by (unfold w2; apply calls_of_emit_log).
  destruct (HabiticaAPI.call _ _ _ _ w2) as [[ r | e ] w3]; cbn [snd] in *;
    rewrite Hcalls, Hc2; reflexivity.
Qed.

(** X6. What the upsert does after its lookup depends on the lookup alone.
    [addTodo] makes its one create call exactly when [hasTask] returned
    [false]; [completeTodo] makes its one score call (direction "up")
    exactly when [hasTask] returned [true]; when [hasTask] throws (network
    failure, unreadable body, unexpected status), each throws the same error
    and calls nothing further. *)
Theorem upsert_follows_lookup
    (alias tx : string) (notes : option string)
    (priority : option HabiticaTaskPriority) (w : World)
    (userId apiToken : string) :
  truthy (HABITICA_USER_ID (env w)) = Some userId ->
  truthy (HABITICA_API_TOKEN (env w)) = Some apiToken ->
  match fst (HabiticaAPI.hasTask alias w) with
  | Return false =>
      calls_of (snd (Habitica.addTodo alias tx notes priority w))
      = calls_of (snd (HabiticaAPI.hasTask alias w))
        ++ [ create_call userId apiToken
               {| p_alias := alias; p_type := todo; p_text := tx;
                  p_notes := notes;
                  p_priority :=
                    match priority with Some p => p | None => Easy end |} ]
      /\ calls_of (snd (Habitica.completeTodo alias w))
         = calls_of (snd (HabiticaAPI.hasTask alias w))
  | Return true =>
      calls_of (snd (Habitica.addTodo alias tx notes priority w))
      = calls_of (snd (HabiticaAPI.hasTask alias w))
      /\ calls_of (snd (Habitica.completeTodo alias w))
         = calls_of (snd (HabiticaAPI.hasTask alias w))
           ++ [ score_call userId apiToken alias up ]
  | Throw e =>
      Habitica.addTodo alias tx notes priority w
      = (Throw e, snd (HabiticaAPI.hasTask alias w))
      /\ Habitica.completeTodo alias w
         = (Throw e, snd (HabiticaAPI.hasTask alias w))
  end.
Proof.
  intros Hu Ht.
  pose proof (addTodo_cases alias tx notes priority w _ _ Hu Ht) as Ha.
  pose proof (completeTodo_cases alias w _ _ Hu Ht) as Hc.
  destruct (fst (HabiticaAPI.hasTask alias w)) as [ [ | ] | e ].
  - split; [ | exact Hc ]. rewrite Ha. cbn [snd]. apply calls_of_emit_log.
  - split; [ exact Ha | ]. rewrite Hc. cbn [snd]. apply calls_of_emit_log.
  - split; assumption.
Qed.

Lemma upsert_follows_lookup_witness :
  Habitica.addTodo "github__acme-widgets-42" "Acme/Widgets#42" None None
    (Sample.fresh Sample.configured Cases.unreachable)
  = (Throw (TypeError "fetch failed"),
     snd (HabiticaAPI.hasTask "github__acme-widgets-42"
            (Sample.fresh Sample.configured Cases.unreachable))).
Proof.
  exact (proj1 (upsert_follows_lookup "github__acme-widgets-42"
    "Acme/Widgets#42" None None
    (Sample.fresh Sample.configured Cases.unreachable)
    "8a2f6c1e" "t0ken" eq_refl eq_refl)).
Defined.

(* ================================================================== *)
(** ** One delivery, end to end *)

Lemma handler_keeps request w :
  env (snd (handler request w)) = env w
  /\ remote (snd (handler request w)) = remote w.
Proof.
  unfold handler.
  rewrite (surjective_pairing (verifyRequestSignature request w)), verify_world.
  destruct (fst (verifyRequestSignature request w)) as [ [] | e ];
    [ | split; reflexivity ].
  unfold bind. destruct (quiet_mapper request w) as (He & Hr & _).
  destruct (updateHabiticaTodoFromGitHub request w) as [[ [] | e ] w1];
    cbn [snd] in *; auto.
Qed.

Lemma verify_reads_env_only request w w' :
  env w' = env w ->
  fst (verifyRequestSignature request w')
  = fst (verifyRequestSignature request w).
Proof. intros He. now rewrite !verify_outcome, He. Qed.

Lemma handler_opened_run request w f :
  fst (verifyRequestSignature request w) = Return tt ->
  header_is (header request "x-github-event") "pull_request" = true ->
  read_payload (body request) = Return f ->
  pr_action f = JStr "opened" ->
  handler request w
  = match Habitica.addTodo (pr_alias f) (p_text (pr_task f))
            (p_notes (pr_task f)) (Some (pr_priority f))
            (emit (ConsoleLog ("pull request.opened: " ++ pr_alias f)%string) w)
    with
    | (Return _, w') => (Return tt, set_sent EmptyString (set_status 200 w'))
    | (Throw e, w') => (Throw e, w')
    end.
Proof.
  intros Hv Hev Hf Hact.
  rewrite (handler_verified _ _ Hv). unfold bind at 1.
  rewrite (mapper_reads _ _ Hev), Hf, (opened_is_opened _ Hact).
  unfold bind at 1, console_log at 1. unfold bind at 1.
  destruct (Habitica.addTodo _ _ _ _ _) as [[ r | e ] w1]; reflexivity.
Qed.

Lemma handler_closed_run request w f :
  fst (verifyRequestSignature request w) = Return tt ->
  header_is (header request "x-github-event") "pull_request" = true ->
  read_payload (body request) = Return f ->
  pr_action f = JStr "closed" ->
  handler request w
  = match Habitica.completeTodo (pr_alias f)
            (emit (ConsoleLog ("pull request.closed: " ++ pr_alias f)%string) w)
    with
    | (Return _, w') => (Return tt, set_sent EmptyString (set_status 200 w'))
    | (Throw e, w') => (Throw e, w')
    end.
Proof.
  intros Hv Hev Hf Hact. destruct (closed_is_closed _ Hact) as [Hno Hcl].
  rewrite (handler_verified _ _ Hv). unfold bind at 1.
  rewrite (mapper_reads _ _ Hev), Hf, Hno, Hcl.
  unfold bind at 1, console_log at 1. unfold bind at 1.
  destruct (Habitica.completeTodo _ _) as [[ r | e ] w1]; reflexivity.
Qed.

Lemma handler_other_run request w f :
  fst (verifyRequestSignature request w) = Return tt ->
  header_is (header request "x-github-event") "pull_request" = true ->
  read_payload (body request) = Return f ->
  strict_eq (pr_action f) (JStr "opened") = false ->
  strict_eq (pr_action f) (JStr "closed") = false ->
  handler request w = (Return tt, set_sent EmptyString (set_status 200 w)).
Proof.
  intros Hv Hev Hf Ho Hc.
  rewrite (handler_verified _ _ Hv). unfold bind at 1.
  now rewrite (mapper_reads _ _ Hev), Hf, Ho, Hc.
Qed.

(** X7. A verified [pull_request] delivery whose payload can be read and
    whose action is neither "opened" nor "closed" (or is not a string at
    all) is answered 200 with an empty body and leaves no other trace: no
    console line, no call. *)
Theorem other_actions_leave_no_trace
    (request : VercelRequest) (w : World) (f : PullRequestPayload) :
  fst (verifyRequestSignature request w) = Return tt ->
  header_is (header request "x-github-event") "pull_request" = true ->
  read_payload (body request) = Return f ->
  pr_action f <> JStr "opened" ->
  pr_action f <> JStr "closed" ->
  handler request w = (Return tt, set_sent EmptyString (set_status 200 w))
  /\ trace (snd (handler request w)) = trace w.
Proof.
  intros Hv Hev Hf Ho Hc.
  assert (Hne : forall s, pr_action f <> JStr s ->
                          strict_eq (pr_action f) (JStr s) = false).
  { intros s Hs. destruct (pr_action f); try reflexivity. cbn.
    destruct (String.eqb_spec s0 s) as [ -> | _ ];
      [ contradiction | reflexivity ]. }
  rewrite (handler_other_run _ _ _ Hv Hev Hf (Hne _ Ho) (Hne _ Hc)).
  split; reflexivity.
Qed.

Lemma other_actions_leave_no_trace_witness :
  handler Cases.labeled Sample.world
  = (Return tt, set_sent EmptyString (set_status 200 Sample.world)).
Proof.
  assert (Hv : fst (verifyRequestSignature Cases.labeled Sample.world)
               = Return tt) by (vm_compute; reflexivity).
  refine (proj1 (other_actions_leave_no_trace Cases.labeled Sample.world
    {| pr_author := JStr "Acme"; pr_owner := JStr "Acme";
       pr_name := JStr "Widgets"; pr_number := JNum 42;
       pr_full_name := JStr "Acme/Widgets"; pr_title := JStr "Add sprockets";
       pr_html_url := JStr "https://github.com/Acme/Widgets/pull/42";
       pr_action := JStr "labeled" |} Hv _ _ _ _));
    try reflexivity; discriminate.
Defined.

Lemma call_answered m path payload w u t res b :
  truthy (HABITICA_USER_ID (env w)) = Some u ->
  truthy (HABITICA_API_TOKEN (env w)) = Some t ->
  let c := {| f_url := (HabiticaAPI.baseUrl ++ path)%string;
              f_method := m;
              f_headers := api_headers u t
                             (match payload with Some _ => true | None => false end);
              f_body := payload |} in
  remote w (calls_of w) c = Responded res ->
  r_text res = Some b ->
  HabiticaAPI.call m path payload [] w
  = (Return res,
     emit (ConsoleLog (call_line m (HabiticaAPI.baseUrl ++ path) res b))
          (emit (Fetch c) w)).
Proof.
  intros Hu Ht c Hr Hb. rewrite (call_run _ _ _ _ _ _ Hu Ht). cbv zeta.
  fold c. now rewrite Hr, Hb.
Qed.

Lemma addTodo_created alias tx notes priority w u t res b res2 b2 :
  truthy (HABITICA_USER_ID (env w)) = Some u ->
  truthy (HABITICA_API_TOKEN (env w)) = Some t ->
  remote w (calls_of w) (lookup_call u t alias) = Responded res ->
  r_text res = Some b ->
  r_status res = 404 ->
  remote w (calls_of w ++ [lookup_call u t alias])
    (create_call u t
       {| p_alias := alias; p_type := todo; p_text := tx; p_notes := notes;
          p_priority := match priority with Some p => p | None => Easy end |})
  = Responded res2 ->
  r_text res2 = Some b2 ->
  fst (Habitica.addTodo alias tx notes priority w) = Return (Some res2).
Proof.
  intros Hu Ht Hres Hb Hs Hres2 Hb2. unfold Habitica.addTodo, bind at 1.
  rewrite (hasTask_run _ _ _ _ _ _ Hu Ht Hres Hb), Hs. cbn [Z.eqb Pos.eqb].
  unfold bind at 1, console_log at 1.
  set (w1 := emit _ (looked_up _ _ _ _ _ _)).
  assert (Hc : calls_of w1 = calls_of w ++ [lookup_call u t alias])
    by (unfold w1; now rewrite calls_of_emit_log, looked_up_calls).
  unfold bind, HabiticaAPI.createTask, ret. cbv beta.
  erewrite (call_answered "POST" "tasks/user" _ w1 u t res2 b2 Hu Ht);
    [ reflexivity | | exact Hb2 ].
  rewrite Hc. exact Hres2.
Qed.

Lemma completeTodo_scored alias w u t res b res2 b2 :
  truthy (HABITICA_USER_ID (env w)) = Some u ->
  truthy (HABITICA_API_TOKEN (env w)) = Some t ->
  remote w (calls_of w) (lookup_call u t alias) = Responded res ->
  r_text res = Some b ->
  r_status res = 200 ->
  remote w (calls_of w ++ [lookup_call u t alias]) (score_call u t alias up)
  = Responded res2 ->
  r_text res2 = Some b2 ->
  fst (Habitica.completeTodo alias w) = Return (Some res2).
Proof.
  intros Hu Ht Hres Hb Hs Hres2 Hb2. unfold Habitica.completeTodo, bind at 1.
  rewrite (hasTask_run _ _ _ _ _ _ Hu Ht Hres Hb), Hs. cbn [Z.eqb Pos.eqb negb].
  unfold bind at 1, console_log at 1.
  set (w1 := emit _ (looked_up _ _ _ _ _ _)).
  assert (Hc : calls_of w1 = calls_of w ++ [lookup_call u t alias])
    by (unfold w1; now rewrite calls_of_emit_log, looked_up_calls).
  unfold bind, HabiticaAPI.scoreTask, ret. cbv beta.
  erewrite (call_answered "POST"
              ("tasks/" ++ alias ++ "/score/" ++ direction_str up) None
              w1 u t res2 b2 Hu Ht);
    [ reflexivity | | exact Hb2 ].
  rewrite Hc. exact Hres2.
Qed.

(** X8. The status of the answer to a create call is never looked at. For a
    verified "opened" delivery whose lookup is answered 404, the handler
    returns and answers 200 with an empty body as soon as the create call is
    answered and its body read, be the status 201, 400, 401 or 500. *)
Theorem create_status_is_ignored
    (request : VercelRequest) (w : World) (f : PullRequestPayload)
    (userId apiToken : string) (res res2 : Response) :
  fst (verifyRequestSignature request w) = Return tt ->
  header_is (header request "x-github-event") "pull_request" = true ->
  read_payload (body request) = Return f ->
  pr_action f = JStr "opened" ->
  truthy (HABITICA_USER_ID (env w)) = Some userId ->
  truthy (HABITICA_API_TOKEN (env w)) = Some apiToken ->
  remote w (calls_of w) (lookup_of userId apiToken f) = Responded res ->
  r_text res <> None ->
  r_status res = 404 ->
  remote w (calls_of w ++ [lookup_of userId apiToken f])
    (create_of userId apiToken f) = Responded res2 ->
  r_text res2 <> None ->
  fst (handler request w) = Return tt
  /\ http_response (snd (handler request w)) = Some (200, EmptyString).
Proof.
  intros Hv Hev Hf Hact Hu Ht Hres Hb Hs Hres2 Hb2.
  destruct (r_text res) as [ b | ] eqn:Hb'; [ clear Hb | contradiction ].
  destruct (r_text res2) as [ b2 | ] eqn:Hb2'; [ clear Hb2 | contradiction ].
  rewrite (handler_opened_run _ _ _ Hv Hev Hf Hact).
  set (w1 := emit _ w).
  assert (Hc1 : calls_of w1 = calls_of w)
    by (unfold w1; apply calls_of_emit_log).
  pose proof (addTodo_created (pr_alias f) (p_text (pr_task f))
    (p_notes (pr_task f)) (Some (pr_priority f)) w1 userId apiToken
    res b res2 b2 Hu Ht) as Hadd.
  rewrite Hc1 in Hadd. specialize (Hadd Hres Hb' Hs Hres2 Hb2').
  destruct (Habitica.addTodo _ _ _ _ w1) as [[ r | e ] w2]; cbn [fst] in Hadd;
    [ split; reflexivity | discriminate Hadd ].
Qed.

Lemma create_status_is_ignored_witness :
  fst (handler Sample.opened (Sample.fresh Sample.configured Cases.refusing))
  = Return tt
  /\ http_response
       (snd (handler Sample.opened (Sample.fresh Sample.configured Cases.refusing)))
     = Some (200, EmptyString).
Proof.
  assert (Hv : fst (verifyRequestSignature Sample.opened
                      (Sample.fresh Sample.configured Cases.refusing))
               = Return tt) by (vm_compute; reflexivity).
  refine (create_status_is_ignored Sample.opened
    (Sample.fresh Sample.configured Cases.refusing)
    {| pr_author := JStr "Acme"; pr_owner := JStr "Acme";
       pr_name := JStr "Widgets"; pr_number := JNum 42;
       pr_full_name := JStr "Acme/Widgets"; pr_title := JStr "Add sprockets";
       pr_html_url := JStr "https://github.com/Acme/Widgets/pull/42";
       pr_action := JStr "opened" |}
    "8a2f6c1e" "t0ken"
    {| r_status := 404;
       r_url := "https://habitica.com/api/v3/tasks/github__acme-widgets-42";
       r_text := Some "Internal Server Error" |}
    {| r_status := 500;
       r_url := "https://habitica.com/api/v3/tasks/user";
       r_text := Some "Internal Server Error" |}
    Hv _ _ _ _ _ _ _ _ _ _); try reflexivity; discriminate.
Defined.

(** X9. Nor is the status of the answer to a score call. For a verified
    "closed" delivery whose lookup is answered 200, the handler returns and
    answers 200 with an empty body as soon as the score call is answered and
    its body read, whatever its status. *)
Theorem score_status_is_ignored
    (request : VercelRequest) (w : World) (f : PullRequestPayload)
    (userId apiToken : string) (res res2 : Response) :
  fst (verifyRequestSignature request w) = Return tt ->
  header_is (header request "x-github-event") "pull_request" = true ->
  read_payload (body request) = Return f ->
  pr_action f = JStr "closed" ->
  truthy (HABITICA_USER_ID (env w)) = Some userId ->
  truthy (HABITICA_API_TOKEN (env w)) = Some apiToken ->
  remote w (calls_of w) (lookup_of userId apiToken f) = Responded res ->
  r_text res <> None ->
  r_status res = 200 ->
  remote w (calls_of w ++ [lookup_of userId apiToken f])
    (score_of userId apiToken f) = Responded res2 ->
  r_text res2 <> None ->
  fst (handler request w) = Return tt
  /\ http_response (snd (handler request w)) = Some (200, EmptyString).
Proof.
  intros Hv Hev Hf Hact Hu Ht Hres Hb Hs Hres2 Hb2.
  destruct (r_text res) as [ b | ] eqn:Hb'; [ clear Hb | contradiction ].
  destruct (r_text res2) as [ b2 | ] eqn:Hb2'; [ clear Hb2 | contradiction ].
  rewrite (handler_closed_run _ _ _ Hv Hev Hf Hact).
  set (w1 := emit _ w).
  assert (Hc1 : calls_of w1 = calls_of w)
    by (unfold w1; apply calls_of_emit_log).
  pose proof (completeTodo_scored (pr_alias f) w1 userId apiToken
    res b res2 b2 Hu Ht) as Hdone.
  rewrite Hc1 in Hdone. specialize (Hdone Hres Hb' Hs Hres2 Hb2').
  destruct (Habitica.completeTodo _ w1) as [[ r | e ] w2]; cbn [fst] in Hdone;
    [ split; reflexivity | discriminate Hdone ].
Qed.

Lemma score_status_is_ignored_witness :
  fst (handler Sample.closed Sample.world_with_task) = Return tt
  /\ http_response (snd (handler Sample.closed Sample.world_with_task))
     = Some (200, EmptyString).
Proof.
  assert (Hv : fst (verifyRequestSignature Sample.closed Sample.world_with_task)
               = Return tt) by (vm_compute; reflexivity).
  refine (score_status_is_ignored Sample.closed Sample.world_with_task
    {| pr_author := JStr "Acme"; pr_owner := JStr "Acme";
       pr_name := JStr "Widgets"; pr_number := JNum 42;
       pr_full_name := JStr "Acme/Widgets"; pr_title := JStr "Add sprockets";
       pr_html_url := JStr "https://github.com/Acme/Widgets/pull/42";
       pr_action := JStr "closed" |}
    "8a2f6c1e" "t0ken"
    {| r_status := 200;
       r_url := "https://habitica.com/api/v3/tasks/github__acme-widgets-42";
       r_text := Some "{}" |}
    {| r_status := 200;
       r_url := "https://habitica.com/api/v3/tasks/github__acme-widgets-42/score/up";
       r_text := Some "{}" |}
    Hv _ _ _ _ _ _ _ _ _ _); try reflexivity; discriminate.
Defined.

(** X10. The credentials are looked at when a call is about to be made, not
    before. With a credential missing, a verified "opened" or "closed"
    delivery writes its one console line and then throws "Missing Habitica
    credentials": no call is made and no response is sent; a delivery the
    mapper has nothing to do for is answered 200 all the same. *)
Theorem credentials_checked_at_call_time
    (request : VercelRequest) (w : World) (f : PullRequestPayload) :
  fst (verifyRequestSignature request w) = Return tt ->
  header_is (header request "x-github-event") "pull_request" = true ->
  read_payload (body request) = Return f ->
  truthy (HABITICA_USER_ID (env w)) = None
  \/ truthy (HABITICA_API_TOKEN (env w)) = None ->
  (pr_action f = JStr "opened" ->
   handler request w
   = (Throw (Error "Missing Habitica credentials"),
      emit (ConsoleLog ("pull request.opened: " ++ pr_alias f)%string) w))
  /\ (pr_action f = JStr "closed" ->
      handler request w
      = (Throw (Error "Missing Habitica credentials"),
         emit (ConsoleLog ("pull request.closed: " ++ pr_alias f)%string) w))
  /\ (pr_action f <> JStr "opened" -> pr_action f <> JStr "closed" ->
      handler request w = (Return tt, set_sent EmptyString (set_status 200 w))).
Proof.
  intros Hv Hev Hf Hcred. split; [ | split ].
  - intros Hact. rewrite (handler_opened_run _ _ _ Hv Hev Hf Hact).
    now rewrite addTodo_refuses.
  - intros Hact. rewrite (handler_closed_run _ _ _ Hv Hev Hf Hact).
    now rewrite completeTodo_refuses.
  - intros Ho Hc.
    assert (Hne : forall s, pr_action f <> JStr s ->
                            strict_eq (pr_action f) (JStr s) = false).
    { intros s Hs. destruct (pr_action f); try reflexivity. cbn.
      destruct (String.eqb_spec s0 s) as [ -> | _ ];
        [ contradiction | reflexivity ]. }
    exact (handler_other_run _ _ _ Hv Hev Hf (Hne _ Ho) (Hne _ Hc)).
Qed.

Lemma credentials_checked_at_call_time_witness :
  handler Sample.closed Sample.world_without_credentials
  = (Throw (Error "Missing Habitica credentials"),
     emit (ConsoleLog "pull request.closed: github__acme-widgets-42")
       Sample.world_without_credentials).
Proof.
  assert (Hv : fst (verifyRequestSignature Sample.closed
                      Sample.world_without_credentials) = Return tt)
    by (vm_compute; reflexivity).
  refine (proj1 (proj2 (credentials_checked_at_call_time Sample.closed
    Sample.world_without_credentials
    {| pr_author := JStr "Acme"; pr_owner := JStr "Acme";
       pr_name := JStr "Widgets"; pr_number := JNum 42;
       pr_full_name := JStr "Acme/Widgets"; pr_title := JStr "Add sprockets";
       pr_html_url := JStr "https://github.com/Acme/Widgets/pull/42";
       pr_action := JStr "closed" |} Hv _ _ _)) _); try reflexivity.
  left; reflexivity.
Defined.

(* ================================================================== *)
(** ** Which payloads the mapper can read *)

Lemma get_prop_nullish v k :
  nullish v = true -> exists msg, get_prop v k = Throw (TypeError msg).
Proof. destruct v; try discriminate; intros _; cbn; eauto. Qed.

Lemma get_prop_returns v k :
  nullish v = false -> exists x, get_prop v k = Return x.
Proof. destruct v; try discriminate; intros _; cbn; eauto. Qed.

Lemma get_prop_returned v k x : get_prop v k = Return x -> nullish v = false.
Proof. destruct v; cbn; try discriminate; reflexivity. Qed.

Lemma read_payload_readable payload :
  readable_payload payload && renderable payload = true
  <-> exists f, read_payload payload = Return f.
Proof.
  unfold readable_payload, reads_through, renderable, converts, dig,
    read_payload.
  cbn [fold_left and_then].
  destruct (get_prop payload "pull_request") as [ pr | ] eqn:Hpr;
    [ | split; [ discriminate | intros (f & Hf); discriminate Hf ] ].
  pose proof (get_prop_returned _ _ _ Hpr) as Hpayload.
  destruct (get_prop_returns payload "repository" Hpayload) as (repo & ->).
  destruct (get_prop_returns payload "number" Hpayload) as (number & ->).
  destruct (get_prop_returns payload "action" Hpayload) as (action & ->).
  cbn [and_then].
  destruct (get_prop pr "user") as [ user | ] eqn:Huser;
    [ | split; [ discriminate | intros (f & Hf); discriminate Hf ] ].
  pose proof (get_prop_returned _ _ _ Huser) as Hpr'.
  destruct (get_prop_returns pr "title" Hpr') as (title & ->).
  destruct (get_prop_returns pr "html_url" Hpr') as (url & ->).
  cbn [and_then].
  destruct (nullish user) eqn:Hu.
  { destruct (get_prop_nullish user "login" Hu) as (msg & ->).
    split; [ discriminate | intros (f & Hf); discriminate Hf ]. }
  destruct (get_prop_returns user "login" Hu) as (author & ->).
  cbn [and_then negb andb].
  destruct (get_prop repo "owner") as [ owner | ] eqn:Howner;
    [ | split; [ discriminate | intros (f & Hf); discriminate Hf ] ].
  pose proof (get_prop_returned _ _ _ Howner) as Hrepo'.
  destruct (get_prop_returns repo "name" Hrepo') as (name & ->).
  destruct (get_prop_returns repo "full_name" Hrepo') as (full & ->).
  cbn [and_then].
  destruct (nullish owner) eqn:Ho.
  { destruct (get_prop_nullish owner "login" Ho) as (msg & ->).
    split; [ discriminate | intros (f & Hf); discriminate Hf ]. }
  destruct (get_prop_returns owner "login" Ho) as (login & ->).
  cbn [and_then negb andb].
  rewrite !ToString_plain.
  destruct (plain login); cbn [and_then andb];
    [ | split; [ discriminate | intros (f & Hf); discriminate Hf ] ].
  destruct (plain name); cbn [and_then andb];
    [ | split; [ discriminate | intros (f & Hf); discriminate Hf ] ].
  destruct (plain number); cbn [and_then andb];
    [ | split; [ discriminate | intros (f & Hf); discriminate Hf ] ].
  destruct (plain full); cbn [and_then andb];
    [ | split; [ discriminate | intros (f & Hf); discriminate Hf ] ].
  destruct (plain title); cbn [and_then andb];
    [ | split; [ discriminate | intros (f & Hf); discriminate Hf ] ].
  destruct (plain url); cbn [and_then andb];
    [ | split; [ discriminate | intros (f & Hf); discriminate Hf ] ].
  split; [ eauto | reflexivity ].
Qed.

Lemma grown_world_differs e w w' : grows (emit e w) w' -> w' <> w.
Proof.
  intros (_ & _ & _ & _ & t & Ht) ->. cbn [emit trace] in Ht.
  apply (f_equal (@List.length Event)) in Ht.
  rewrite !length_app in Ht. cbn in Ht. lia.
Qed.

(** X11. For a [pull_request] event, the mapper throws a TypeError before
    doing anything exactly when the payload lacks [pull_request.user] or
    [repository.owner] (absent, [null], or unreachable), or when one of the
    six values it puts into a template literal (the login of the owner, the
    name and the full name of the repository, the number, the title and the
    URL of the pull request) cannot be put into text: an object with a field
    named [toString], or an array that holds one. Any of these fields, and
    the login of the author and the action, may be missing without an
    error. *)
Theorem mapper_needs_user_and_owner (request : VercelRequest) (w : World) :
  header_is (header request "x-github-event") "pull_request" = true ->
  (readable_payload (body request) && renderable (body request) = false
   <-> exists msg,
         updateHabiticaTodoFromGitHub request w = (Throw (TypeError msg), w))
  /\ (readable_payload (body request) && renderable (body request) = true
      <-> exists f, read_payload (body request) = Return f).
Proof.
  intros Hev. split; [ | apply read_payload_readable ].
  rewrite (mapper_reads _ _ Hev). split.
  - intros Hno. destruct (read_payload (body request)) as [ f | e ] eqn:Hf.
    + assert (readable_payload (body request) && renderable (body request)
              = true)
        by (apply read_payload_readable; eauto).
      congruence.
    + destruct (read_payload_throws _ _ Hf) as (msg & ->). eauto.
  - intros (msg & Hm).
    destruct (readable_payload (body request) && renderable (body request))
      eqn:Hr; [ | reflexivity ].
    exfalso. apply read_payload_readable in Hr as (f & Hf). rewrite Hf in Hm.
    destruct (strict_eq (pr_action f) (JStr "opened")).
    + unfold bind at 1, console_log at 1 in Hm.
      match type of Hm with
      | ?m ?w1 = _ =>
          assert (Hq : quiet m) by quiet_tac;
          pose proof (Hq w1) as Hg; rewrite Hm in Hg
      end.
      cbn [snd] in Hg. exact (grown_world_differs _ _ _ Hg eq_refl).
    + destruct (strict_eq (pr_action f) (JStr "closed")); [ | discriminate Hm ].
      unfold bind at 1, console_log at 1 in Hm.
      match type of Hm with
      | ?m ?w1 = _ =>
          assert (Hq : quiet m) by quiet_tac;
          pose proof (Hq w1) as Hg; rewrite Hm in Hg
      end.
      cbn [snd] in Hg. exact (grown_world_differs _ _ _ Hg eq_refl).
Qed.

Lemma mapper_needs_user_and_owner_witness :
  (exists msg,
     updateHabiticaTodoFromGitHub Sample.labeled_bare Sample.world
     = (Throw (TypeError msg), Sample.world))
  /\ (exists msg,
        updateHabiticaTodoFromGitHub Cases.unprintable Sample.world
        = (Throw (TypeError msg), Sample.world))
  /\ (exists f, read_payload (body Cases.nameless) = Return f).
Proof.
  split; [ | split ].
  - apply (proj1 (proj1 (mapper_needs_user_and_owner Sample.labeled_bare
      Sample.world eq_refl))).
    reflexivity.
  - apply (proj1 (proj1 (mapper_needs_user_and_owner Cases.unprintable
      Sample.world eq_refl))).
    reflexivity.
  - apply (proj1 (proj2 (mapper_needs_user_and_owner Cases.nameless
      Sample.world eq_refl))).
    reflexivity.
Defined.

(* ================================================================== *)
(** ** Aliases that coincide *)

(** X12. The alias does not tell owner from repository when a hyphen can be
    read either way: owner [a-b] with repository [c] and owner [a] with
    repository [b-c] get the same alias for the same number. *)
Theorem alias_hyphen_ambiguity (a b c : string) (number : JValue) :
  taskAlias (JStr (a ++ "-" ++ b)) (JStr c) number
  = taskAlias (JStr a) (JStr (b ++ "-" ++ c)) number.
Proof.
  unfold taskAlias, alias_of_text. cbn [to_str]. f_equal. f_equal.
  now rewrite !append_assoc.
Qed.

(* ================================================================== *)
(** ** What the caller of the webhook can see *)

(** X13. Starting with no response sent, the handler sends a response
    exactly when it returns; that response has an empty body and status 403
    or 200, and it is 403 exactly when the signature check failed. When the
    handler throws, nothing was sent. *)
Theorem handler_answers_403_or_200_or_nothing
    (request : VercelRequest) (w : World) :
  sent w = None ->
  (fst (handler request w) = Return tt
   <-> http_response (snd (handler request w)) <> None)
  /\ (http_response (snd (handler request w)) = None
      \/ http_response (snd (handler request w)) = Some (403, EmptyString)
      \/ http_response (snd (handler request w)) = Some (200, EmptyString))
  /\ (http_response (snd (handler request w)) = Some (403, EmptyString)
      <-> fst (verifyRequestSignature request w) <> Return tt).
Proof.
  intros Hsent.
  destruct (fst (verifyRequestSignature request w)) as [ [] | e ] eqn:Hv.
  - rewrite (handler_verified _ _ Hv). unfold bind.
    pose proof (mapper_keeps_response request w) as Hk.
    destruct (updateHabiticaTodoFromGitHub request w) as [[ [] | e ] w1];
      cbn [fst snd] in *.
    + cbn. repeat split; auto; try discriminate.
      intros H; exfalso; apply H; reflexivity.
    + rewrite Hk. unfold http_response. rewrite Hsent.
      repeat split; auto; try discriminate.
      * intros H; exfalso; apply H; reflexivity.
      * intros H; exfalso; apply H; reflexivity.
  - rewrite (handler_rejected _ _ _ Hv). cbn.
    repeat split; auto; discriminate.
Qed.

Lemma handler_answers_403_or_200_or_nothing_witness :
  fst (handler Sample.opened Sample.world_without_credentials) = Return tt
  <-> http_response (snd (handler Sample.opened Sample.world_without_credentials))
      <> None.
Proof.
  exact (proj1 (handler_answers_403_or_200_or_nothing Sample.opened
    Sample.world_without_credentials eq_refl)).
Defined.

Lemma hasTask_calls alias w u t :
  truthy (HABITICA_USER_ID (env w)) = Some u ->
  truthy (HABITICA_API_TOKEN (env w)) = Some t ->
  calls_of (snd (HabiticaAPI.hasTask alias w))
  = calls_of w ++ [lookup_call u t alias].
Proof.
  intros Hu Ht.
  pose proof (call_calls "GET" ("tasks/" ++ alias) None w u t Hu Ht) as Hc.
  unfold HabiticaAPI.hasTask, bind.
  destruct (HabiticaAPI.call _ _ _ _ w) as [[ res | e ] w1]; cbn [snd] in *;
    [ | exact Hc ].
  destruct (r_status res =? 404); [ exact Hc | ].
  destruct (r_status res =? 200); exact Hc.
Qed.

Lemma strict_eq_string v s : strict_eq v (JStr s) = true -> v = JStr s.
Proof.
  destruct v; cbn; try discriminate.
  intros H. apply String.eqb_eq in H. now subst.
Qed.

(** X14. Whatever the request, the environment and the tracker, the handler
    makes at most two calls, and they are: none; or the lookup of the alias;
    or that lookup followed by the create call of the payload's task (action
    "opened"); or that lookup followed by the score call of the alias,
    direction "up" (action "closed"). Each carries the credentials of the
    environment. *)
Theorem handler_calls_are_lookup_then_act
    (request : VercelRequest) (w : World) :
  calls_of (snd (handler request w)) = calls_of w
  \/ exists userId apiToken f,
       truthy (HABITICA_USER_ID (env w)) = Some userId
       /\ truthy (HABITICA_API_TOKEN (env w)) = Some apiToken
       /\ read_payload (body request) = Return f
       /\ (calls_of (snd (handler request w))
           = calls_of w ++ [ lookup_of userId apiToken f ]
           \/ (pr_action f = JStr "opened"
               /\ calls_of (snd (handler request w))
                  = calls_of w
                    ++ [ lookup_of userId apiToken f;
                         create_of userId apiToken f ])
           \/ (pr_action f = JStr "closed"
               /\ calls_of (snd (handler request w))
                  = calls_of w
                    ++ [ lookup_of userId apiToken f;
                         score_of userId apiToken f ])).
Proof.
  destruct (fst (verifyRequestSignature request w)) as [ [] | e ] eqn:Hv;
    [ | left; now rewrite (handler_rejected _ _ _ Hv) ].
  rewrite (handler_verified _ _ Hv), calls_after_respond.
  destruct (header_is (header request "x-github-event") "pull_request") eqn:Hev.
  2:{ left. unfold updateHabiticaTodoFromGitHub. rewrite Hev. cbn [negb snd].
      apply calls_of_emit_error. }
  rewrite (mapper_reads _ _ Hev).
  destruct (read_payload (body request)) as [ f | e ] eqn:Hf;
    [ | left; reflexivity ].
  destruct (truthy (HABITICA_USER_ID (env w))) as [ u | ] eqn:Hu.
  2:{ left. destruct (strict_eq (pr_action f) (JStr "opened")).
      - unfold bind at 1, console_log at 1. rewrite calls_after_ret.
        unfold Habitica.addTodo, HabiticaAPI.hasTask, bind.
        rewrite call_refuses by (left; exact Hu). cbn [snd].
        apply calls_of_emit_log.
      - destruct (strict_eq (pr_action f) (JStr "closed")); [ | reflexivity ].
        unfold bind at 1, console_log at 1. rewrite calls_after_ret.
        unfold Habitica.completeTodo, HabiticaAPI.hasTask, bind.
        rewrite call_refuses by (left; exact Hu). cbn [snd].
        apply calls_of_emit_log. }
  destruct (truthy (HABITICA_API_TOKEN (env w))) as [ t | ] eqn:Ht.
  2:{ left. destruct (strict_eq (pr_action f) (JStr "opened")).
      - unfold bind at 1, console_log at 1. rewrite calls_after_ret.
        unfold Habitica.addTodo, HabiticaAPI.hasTask, bind.
        rewrite call_refuses by (right; exact Ht). cbn [snd].
        apply calls_of_emit_log.
      - destruct (strict_eq (pr_action f) (JStr "closed")); [ | reflexivity ].
        unfold bind at 1, console_log at 1. rewrite calls_after_ret.
        unfold Habitica.completeTodo, HabiticaAPI.hasTask, bind.
        rewrite call_refuses by (right; exact Ht). cbn [snd].
        apply calls_of_emit_log. }
  destruct (strict_eq (pr_action f) (JStr "opened")) eqn:Hopen.
  - right. exists u, t, f. repeat (split; [ reflexivity | ]).
    apply strict_eq_string in Hopen.
    set (w1 := emit (ConsoleLog ("pull request.opened: " ++ pr_alias f)%string) w).
    match goal with
    | |- context [calls_of (snd (?m w))] =>
        assert (Hrun : calls_of (snd (m w))
                       = calls_of (snd (Habitica.addTodo (pr_alias f)
                           (p_text (pr_task f)) (p_notes (pr_task f))
                           (Some (pr_priority f)) w1)))
          by (unfold bind at 1, console_log at 1; now rewrite calls_after_ret);
        rewrite Hrun; clear Hrun
    end.
    assert (Hc1 : calls_of w1 = calls_of w)
      by (unfold w1; apply calls_of_emit_log).
    pose proof (addTodo_cases (pr_alias f) (p_text (pr_task f))
      (p_notes (pr_task f)) (Some (pr_priority f)) w1 u t Hu Ht) as Ha.
    pose proof (hasTask_calls (pr_alias f) w1 u t Hu Ht) as Hl.
    rewrite Hc1 in Hl.
    destruct (fst (HabiticaAPI.hasTask (pr_alias f) w1)) as [ [ | ] | e ].
    + left. rewrite Ha. cbn [snd]. now rewrite calls_of_emit_log.
    + right; left. split; [ exact Hopen | ].
      rewrite Ha, Hl, <- app_assoc. reflexivity.
    + left. rewrite Ha. exact Hl.
  - destruct (strict_eq (pr_action f) (JStr "closed")) eqn:Hclose;
      [ | left; reflexivity ].
    right. exists u, t, f. repeat (split; [ reflexivity | ]).
    apply strict_eq_string in Hclose.
    set (w1 := emit (ConsoleLog ("pull request.closed: " ++ pr_alias f)%string) w).
    match goal with
    | |- context [calls_of (snd (?m w))] =>
        assert (Hrun : calls_of (snd (m w))
                       = calls_of (snd (Habitica.completeTodo (pr_alias f) w1)))
          by (unfold bind at 1, console_log at 1; now rewrite calls_after_ret);
        rewrite Hrun; clear Hrun
    end.
    assert (Hc1 : calls_of w1 = calls_of w)
      by (unfold w1; apply calls_of_emit_log).
    pose proof (completeTodo_cases (pr_alias f) w1 u t Hu Ht) as Ha.
    pose proof (hasTask_calls (pr_alias f) w1 u t Hu Ht) as Hl.
    rewrite Hc1 in Hl.
    destruct (fst (HabiticaAPI.hasTask (pr_alias f) w1)) as [ [ | ] | e ].
    + right; right. split; [ exact Hclose | ].
      rewrite Ha, Hl, <- app_assoc. reflexivity.
    + left. rewrite Ha. cbn [snd]. now rewrite calls_of_emit_log.
    + left. rewrite Ha. exact Hl.
Qed.

(* ================================================================== *)
(** ** Deliveries in a row, against a tracker that reflects creations *)

Lemma reflecting_hasTask alias w u t :
  truthy (HABITICA_USER_ID (env w)) = Some u ->
  truthy (HABITICA_API_TOKEN (env w)) = Some t ->
  reflects_creations (remote w) ->
  exists res b,
    HabiticaAPI.hasTask alias w
    = (Return (created alias (calls_of w)), looked_up u t alias res b w).
Proof.
  intros Hu Ht Hrefl.
  destruct (Hrefl (calls_of w) (lookup_call u t alias))
    as (res & Hres & Hb & Hst).
  destruct (r_text res) as [ b | ] eqn:Hb'; [ clear Hb | contradiction ].
  specialize (Hst alias eq_refl eq_refl). exists res, b.
  rewrite (hasTask_run _ _ _ _ _ _ Hu Ht Hres Hb'), Hst.
  destruct (created alias (calls_of w)); reflexivity.
Qed.

Lemma reflecting_call m path payload w u t :
  truthy (HABITICA_USER_ID (env w)) = Some u ->
  truthy (HABITICA_API_TOKEN (env w)) = Some t ->
  reflects_creations (remote w) ->
  exists res,
    fst (HabiticaAPI.call m path payload [] w) = Return res
    /\ calls_of (snd (HabiticaAPI.call m path payload [] w))
       = calls_of w
         ++ [ {| f_url := (HabiticaAPI.baseUrl ++ path)%string;
                 f_method := m;
                 f_headers := api_headers u t
                   (match payload with Some _ => true | None => false end);
                 f_body := payload |} ].
Proof.
  intros Hu Ht Hrefl.
  destruct (Hrefl (calls_of w)
              {| f_url := (HabiticaAPI.baseUrl ++ path)%string;
                 f_method := m;
                 f_headers := api_headers u t
                   (match payload with Some _ => true | None => false end);
                 f_body := payload |}) as (res & Hres & Hb & _).
  destruct (r_text res) as [ b | ] eqn:Hb'; [ clear Hb | contradiction ].
  exists res. split; [ | now apply call_calls ].
  now rewrite (call_answered m path payload w u t res b Hu Ht Hres Hb').
Qed.

Lemma looked_up_keeps u t alias res b w :
  env (looked_up u t alias res b w) = env w
  /\ remote (looked_up u t alias res b w) = remote w.
Proof. split; reflexivity. Qed.

Lemma reflecting_addTodo alias tx notes priority w u t :
  truthy (HABITICA_USER_ID (env w)) = Some u ->
  truthy (HABITICA_API_TOKEN (env w)) = Some t ->
  reflects_creations (remote w) ->
  (exists x, fst (Habitica.addTodo alias tx notes priority w) = Return x)
  /\ calls_of (snd (Habitica.addTodo alias tx notes priority w))
     = calls_of w
       ++ lookup_call u t alias
          :: (if created alias (calls_of w) then []
              else [ create_call u t
                       {| p_alias := alias; p_type := todo; p_text := tx;
                          p_notes := notes;
                          p_priority :=
                            match priority with Some p => p | None => Easy end |} ]).
Proof.
  intros Hu Ht Hrefl.
  destruct (reflecting_hasTask alias w u t Hu Ht Hrefl) as (res & b & Hlook).
  assert (Hrun : Habitica.addTodo alias tx notes priority w
    = (if created alias (calls_of w) then
         console_log ("Task already exists: " ++ alias)%string ;;
         ret None
       else
         console_log ("Creating task: " ++ alias)%string ;;
         res <- HabiticaAPI.createTask alias (Some todo) tx notes priority ;;
         ret (Some res)) (looked_up u t alias res b w))
    by (unfold Habitica.addTodo, bind at 1; now rewrite Hlook).
  rewrite Hrun. clear Hrun.
  destruct (created alias (calls_of w)).
  - unfold bind, console_log, ret. cbn [fst snd]. split; [ eauto | ].
    now rewrite calls_of_emit_log, looked_up_calls.
  - unfold bind, console_log, HabiticaAPI.createTask, ret. cbv beta.
    set (w1 := emit (ConsoleLog ("Creating task: " ++ alias)%string)
                 (looked_up u t alias res b w)).
    assert (Hc : calls_of w1 = calls_of w ++ [lookup_call u t alias])
      by (unfold w1; now rewrite calls_of_emit_log, looked_up_calls).
    destruct (reflecting_call "POST" "tasks/user"
      (Some {| p_alias := alias; p_type := todo; p_text := tx; p_notes := notes;
               p_priority := match priority with Some p => p | None => Easy end |})
      w1 u t Hu Ht Hrefl) as (res2 & Hret & Hcalls).
    destruct (HabiticaAPI.call _ _ _ _ w1) as [[ r | e ] w2]; cbn [fst snd] in *;
      [ | discriminate Hret ].
    split; [ eauto | ]. rewrite Hcalls, Hc, <- app_assoc. reflexivity.
Qed.

Lemma reflecting_completeTodo alias w u t :
  truthy (HABITICA_USER_ID (env w)) = Some u ->
  truthy (HABITICA_API_TOKEN (env w)) = Some t ->
  reflects_creations (remote w) ->
  (exists x, fst (Habitica.completeTodo alias w) = Return x)
  /\ calls_of (snd (Habitica.completeTodo alias w))
     = calls_of w
       ++ lookup_call u t alias
          :: (if created alias (calls_of w) then [ score_call u t alias up ]
              else []).
Proof.
  intros Hu Ht Hrefl.
  destruct (reflecting_hasTask alias w u t Hu Ht Hrefl) as (res & b & Hlook).
  assert (Hrun : Habitica.completeTodo alias w
    = (if negb (created alias (calls_of w)) then
         console_log ("Task does not exist: " ++ alias)%string ;;
         ret None
       else
         console_log ("Completing task: " ++ alias)%string ;;
         res <- HabiticaAPI.scoreTask alias up ;;
         ret (Some res)) (looked_up u t alias res b w))
    by (unfold Habitica.completeTodo, bind at 1; now rewrite Hlook).
  rewrite Hrun. clear Hrun.
  destruct (created alias (calls_of w)); cbn [negb].
  - unfold bind, console_log, HabiticaAPI.scoreTask, ret. cbv beta.
    set (w1 := emit (ConsoleLog ("Completing task: " ++ alias)%string)
                 (looked_up u t alias res b w)).
    assert (Hc : calls_of w1 = calls_of w ++ [lookup_call u t alias])
      by (unfold w1; now rewrite calls_of_emit_log, looked_up_calls).
    destruct (reflecting_call "POST"
      ("tasks/" ++ alias ++ "/score/" ++ direction_str up) None
      w1 u t Hu Ht Hrefl) as (res2 & Hret & Hcalls).
    destruct (HabiticaAPI.call _ _ _ _ w1) as [[ r | e ] w2]; cbn [fst snd] in *;
      [ | discriminate Hret ].
    split; [ eauto | ]. rewrite Hcalls, Hc, <- app_assoc. reflexivity.
  - unfold bind, console_log, ret. cbn [fst snd]. split; [ eauto | ].
    now rewrite calls_of_emit_log, looked_up_calls.
Qed.

Lemma reflecting_opened request w f u t :
  fst (verifyRequestSignature request w) = Return tt ->
  header_is (header request "x-github-event") "pull_request" = true ->
  read_payload (body request) = Return f ->
  pr_action f = JStr "opened" ->
  truthy (HABITICA_USER_ID (env w)) = Some u ->
  truthy (HABITICA_API_TOKEN (env w)) = Some t ->
  reflects_creations (remote w) ->
  http_response (snd (handler request w)) = Some (200, EmptyString)
  /\ calls_of (snd (handler request w))
     = calls_of w
       ++ lookup_of u t f
          :: (if created (pr_alias f) (calls_of w) then []
              else [ create_of u t f ]).
Proof.
  intros Hv Hev Hf Hact Hu Ht Hrefl.
  rewrite (handler_opened_run _ _ _ Hv Hev Hf Hact).
  set (w1 := emit _ w).
  destruct (reflecting_addTodo (pr_alias f) (p_text (pr_task f))
    (p_notes (pr_task f)) (Some (pr_priority f)) w1 u t Hu Ht Hrefl)
    as ((x & Hret) & Hcalls).
  assert (Hc1 : calls_of w1 = calls_of w)
    by (unfold w1; apply calls_of_emit_log).
  rewrite Hc1 in Hcalls.
  destruct (Habitica.addTodo _ _ _ _ w1) as [[ r | e ] w2]; cbn [fst snd] in *;
    [ | discriminate Hret ].
  split; [ reflexivity | exact Hcalls ].
Qed.

Lemma reflecting_closed request w f u t :
  fst (verifyRequestSignature request w) = Return tt ->
  header_is (header request "x-github-event") "pull_request" = true ->
  read_payload (body request) = Return f ->
  pr_action f = JStr "closed" ->
  truthy (HABITICA_USER_ID (env w)) = Some u ->
  truthy (HABITICA_API_TOKEN (env w)) = Some t ->
  reflects_creations (remote w) ->
  http_response (snd (handler request w)) = Some (200, EmptyString)
  /\ calls_of (snd (handler request w))
     = calls_of w
       ++ lookup_of u t f
          :: (if created (pr_alias f) (calls_of w) then [ score_of u t f ]
              else []).
Proof.
  intros Hv Hev Hf Hact Hu Ht Hrefl.
  rewrite (handler_closed_run _ _ _ Hv Hev Hf Hact).
  set (w1 := emit _ w).
  destruct (reflecting_completeTodo (pr_alias f) w1 u t Hu Ht Hrefl)
    as ((x & Hret) & Hcalls).
  assert (Hc1 : calls_of w1 = calls_of w)
    by (unfold w1; apply calls_of_emit_log).
  rewrite Hc1 in Hcalls.
  destruct (Habitica.completeTodo _ w1) as [[ r | e ] w2]; cbn [fst snd] in *;
    [ | discriminate Hret ].
  split; [ reflexivity | exact Hcalls ].
Qed.

Lemma created_stays alias history more :
  created alias history = true -> created alias (history ++ more) = true.
Proof.
  unfold created. intros H. rewrite existsb_app, H. reflexivity.
Qed.

Lemma reflecting_opened_returns request w f u t :
  fst (verifyRequestSignature request w) = Return tt ->
  header_is (header request "x-github-event") "pull_request" = true ->
  read_payload (body request) = Return f ->
  pr_action f = JStr "opened" ->
  truthy (HABITICA_USER_ID (env w)) = Some u ->
  truthy (HABITICA_API_TOKEN (env w)) = Some t ->
  reflects_creations (remote w) ->
  fst (handler request w) = Return tt.
Proof.
  intros Hv Hev Hf Hact Hu Ht Hrefl.
  rewrite (handler_opened_run _ _ _ Hv Hev Hf Hact).
  set (w1 := emit _ w).
  destruct (reflecting_addTodo (pr_alias f) (p_text (pr_task f))
    (p_notes (pr_task f)) (Some (pr_priority f)) w1 u t Hu Ht Hrefl)
    as ((x & Hret) & _).
  destruct (Habitica.addTodo _ _ _ _ w1) as [[ r | e ] w2]; cbn [fst snd] in *;
    [ reflexivity | discriminate Hret ].
Qed.

Lemma reflecting_closed_returns request w f u t :
  fst (verifyRequestSignature request w) = Return tt ->
  header_is (header request "x-github-event") "pull_request" = true ->
  read_payload (body request) = Return f ->
  pr_action f = JStr "closed" ->
  truthy (HABITICA_USER_ID (env w)) = Some u ->
  truthy (HABITICA_API_TOKEN (env w)) = Some t ->
  reflects_creations (remote w) ->
  fst (handler request w) = Return tt.
Proof.
  intros Hv Hev Hf Hact Hu Ht Hrefl.
  rewrite (handler_closed_run _ _ _ Hv Hev Hf Hact).
  set (w1 := emit _ w).
  destruct (reflecting_completeTodo (pr_alias f) w1 u t Hu Ht Hrefl)
    as ((x & Hret) & _).
  destruct (Habitica.completeTodo _ w1) as [[ r | e ] w2]; cbn [fst snd] in *;
    [ reflexivity | discriminate Hret ].
Qed.

(** X15. The life of a pull request. An "opened" delivery followed by a
    "closed" delivery for the same alias, not created before, against a
    tracker whose lookups reflect the creations, each delivery with a
    response of its own that nothing was sent on yet: both invocations of
    the handler return and both deliveries are answered 200 with an empty
    body, and the calls are lookup, create, lookup, score up, in that
    order. *)
Theorem opened_then_closed_creates_then_scores
    (opened closed : VercelRequest) (w : World)
    (f f' : PullRequestPayload) (userId apiToken : string) :
  fst (verifyRequestSignature opened w) = Return tt ->
  fst (verifyRequestSignature closed w) = Return tt ->
  header_is (header opened "x-github-event") "pull_request" = true ->
  header_is (header closed "x-github-event") "pull_request" = true ->
  read_payload (body opened) = Return f ->
  read_payload (body closed) = Return f' ->
  pr_action f = JStr "opened" ->
  pr_action f' = JStr "closed" ->
  pr_alias f' = pr_alias f ->
  truthy (HABITICA_USER_ID (env w)) = Some userId ->
  truthy (HABITICA_API_TOKEN (env w)) = Some apiToken ->
  reflects_creations (remote w) ->
  created (pr_alias f) (calls_of w) = false ->
  let first := handler opened (next_invocation w) in
  let second := handler closed (next_invocation (snd first)) in
  http_response (next_invocation w) = None
  /\ fst first = Return tt
  /\ http_response (snd first) = Some (200, EmptyString)
  /\ http_response (next_invocation (snd first)) = None
  /\ fst second = Return tt
  /\ http_response (snd second) = Some (200, EmptyString)
  /\ calls_of (snd second)
     = calls_of w
       ++ [ lookup_of userId apiToken f; create_of userId apiToken f;
            lookup_of userId apiToken f; score_of userId apiToken f ].
Proof.
  intros Hvo Hvc Heo Hec Hf Hf' Hao Hac Halias Hu Ht Hrefl Hnew first second.
  subst first second.
  set (w0 := next_invocation w).
  assert (Hvo0 : fst (verifyRequestSignature opened w0) = Return tt)
    by (rewrite (verify_reads_env_only opened w w0 eq_refl); exact Hvo).
  assert (Hnew0 : created (pr_alias f) (calls_of w0) = false) by exact Hnew.
  pose proof (reflecting_opened_returns opened w0 f userId apiToken
                Hvo0 Heo Hf Hao Hu Ht Hrefl) as Hret1.
  destruct (reflecting_opened opened w0 f userId apiToken
              Hvo0 Heo Hf Hao Hu Ht Hrefl) as [Hr1 Hc1].
  rewrite Hnew0 in Hc1.
  change (calls_of w0) with (calls_of w) in Hc1.
  destruct (handler_keeps opened w0) as [He Hr].
  set (w1 := next_invocation (snd (handler opened w0))).
  assert (He1 : env w1 = env w) by exact He.
  assert (Hvc1 : fst (verifyRequestSignature closed w1) = Return tt)
    by (rewrite (verify_reads_env_only closed w w1 He1); exact Hvc).
  assert (Hu1 : truthy (HABITICA_USER_ID (env w1)) = Some userId)
    by now rewrite He1.
  assert (Ht1 : truthy (HABITICA_API_TOKEN (env w1)) = Some apiToken)
    by now rewrite He1.
  assert (Hrefl1 : reflects_creations (remote w1))
    by (change (remote w1) with (remote (snd (handler opened w0)));
        rewrite Hr; exact Hrefl).
  pose proof (reflecting_closed_returns closed w1 f' userId apiToken
                Hvc1 Hec Hf' Hac Hu1 Ht1 Hrefl1) as Hret2.
  destruct (reflecting_closed closed w1 f' userId apiToken
              Hvc1 Hec Hf' Hac Hu1 Ht1 Hrefl1) as [Hr2 Hc2].
  change (calls_of w1) with (calls_of (snd (handler opened w0))) in Hc2.
  assert (Hcreated : created (pr_alias f')
                       (calls_of (snd (handler opened w0))) = true).
  { rewrite Halias, Hc1.
    exact (created_after_create (pr_alias f) (calls_of w) userId apiToken
             (pr_task f) [lookup_of userId apiToken f] eq_refl). }
  rewrite Hcreated, Hc1 in Hc2.
  repeat (split; [ first [ reflexivity | assumption ] | ]).
  rewrite Hc2, <- app_assoc. unfold lookup_of, score_of. rewrite Halias.
  reflexivity.
Qed.

Lemma opened_then_closed_creates_then_scores_witness :
  fst (handler Sample.opened (next_invocation Sample.world)) = Return tt
  /\ fst (handler Sample.closed
            (next_invocation
               (snd (handler Sample.opened (next_invocation Sample.world)))))
     = Return tt
  /\ calls_of
       (snd (handler Sample.closed
               (next_invocation
                  (snd (handler Sample.opened (next_invocation Sample.world))))))
     = [ lookup_call "8a2f6c1e" "t0ken" "github__acme-widgets-42";
         create_call "8a2f6c1e" "t0ken"
           {| p_alias := "github__acme-widgets-42";
              p_type := todo;
              p_text := "Acme/Widgets#42";
              p_notes := Some ("Add sprockets" ++ nl
                               ++ "https://github.com/Acme/Widgets/pull/42")%string;
              p_priority := Medium |};
         lookup_call "8a2f6c1e" "t0ken" "github__acme-widgets-42";
         score_call "8a2f6c1e" "t0ken" "github__acme-widgets-42" up ].
Proof.
  assert (Hvo : fst (verifyRequestSignature Sample.opened Sample.world) = Return tt)
    by (vm_compute; reflexivity).
  assert (Hvc : fst (verifyRequestSignature Sample.closed Sample.world) = Return tt)
    by (vm_compute; reflexivity).
  assert (Hlife := opened_then_closed_creates_then_scores Sample.opened
    Sample.closed Sample.world
    {| pr_author := JStr "Acme"; pr_owner := JStr "Acme";
       pr_name := JStr "Widgets"; pr_number := JNum 42;
       pr_full_name := JStr "Acme/Widgets"; pr_title := JStr "Add sprockets";
       pr_html_url := JStr "https://github.com/Acme/Widgets/pull/42";
       pr_action := JStr "opened" |}
    {| pr_author := JStr "Acme"; pr_owner := JStr "Acme";
       pr_name := JStr "Widgets"; pr_number := JNum 42;
       pr_full_name := JStr "Acme/Widgets"; pr_title := JStr "Add sprockets";
       pr_html_url := JStr "https://github.com/Acme/Widgets/pull/42";
       pr_action := JStr "closed" |}
    "8a2f6c1e" "t0ken" Hvo Hvc eq_refl eq_refl eq_refl eq_refl eq_refl eq_refl
    eq_refl eq_refl eq_refl ledger_reflects_creations eq_refl).
  cbv zeta in Hlife.
  destruct Hlife as (_ & H1 & _ & _ & H2 & _ & H3).
  split; [ exact H1 | split; [ exact H2 | exact H3 ] ].
Defined.

(** X16. Completion is not idempotent. Two "closed" deliveries in a row for
    an alias that was created, against a tracker whose lookups reflect the
    creations, score the task twice: lookup, score up, lookup, score up. *)
Theorem closed_twice_scores_twice
    (request : VercelRequest) (w : World) (f : PullRequestPayload)
    (userId apiToken : string) :
  fst (verifyRequestSignature request w) = Return tt ->
  header_is (header request "x-github-event") "pull_request" = true ->
  read_payload (body request) = Return f ->
  pr_action f = JStr "closed" ->
  truthy (HABITICA_USER_ID (env w)) = Some userId ->
  truthy (HABITICA_API_TOKEN (env w)) = Some apiToken ->
  reflects_creations (remote w) ->
  created (pr_alias f) (calls_of w) = true ->
  calls_of (snd (handler request (snd (handler request w))))
  = calls_of w
    ++ [ lookup_of userId apiToken f; score_of userId apiToken f;
         lookup_of userId apiToken f; score_of userId apiToken f ].
Proof.
  intros Hv Hev Hf Hact Hu Ht Hrefl Hcreated.
  destruct (reflecting_closed _ _ _ _ _ Hv Hev Hf Hact Hu Ht Hrefl)
    as [_ Hc1].
  rewrite Hcreated in Hc1.
  destruct (handler_keeps request w) as [He Hr].
  set (w1 := snd (handler request w)) in *.
  assert (Hv1 : fst (verifyRequestSignature request w1) = Return tt)
    by (rewrite (verify_reads_env_only request w w1 He); exact Hv).
  assert (Hu1 : truthy (HABITICA_USER_ID (env w1)) = Some userId)
    by now rewrite He.
  assert (Ht1 : truthy (HABITICA_API_TOKEN (env w1)) = Some apiToken)
    by now rewrite He.
  assert (Hrefl1 : reflects_creations (remote w1)) by now rewrite Hr.
  destruct (reflecting_closed _ _ _ _ _ Hv1 Hev Hf Hact Hu1 Ht1 Hrefl1)
    as [_ Hc2].
  rewrite Hc1, (created_stays _ _ _ Hcreated) in Hc2.
  rewrite Hc2, <- app_assoc. reflexivity.
Qed.

Lemma closed_twice_scores_twice_witness :
  List.length
    (calls_of (snd (handler Sample.closed
       (snd (handler Sample.closed Cases.world_after_create)))))
  = 5%nat.
Proof.
  assert (Hv : fst (verifyRequestSignature Sample.closed Cases.world_after_create)
               = Return tt)
    by (vm_compute; reflexivity).
  rewrite (closed_twice_scores_twice Sample.closed Cases.world_after_create
    {| pr_author := JStr "Acme"; pr_owner := JStr "Acme";
       pr_name := JStr "Widgets"; pr_number := JNum 42;
       pr_full_name := JStr "Acme/Widgets"; pr_title := JStr "Add sprockets";
       pr_html_url := JStr "https://github.com/Acme/Widgets/pull/42";
       pr_action := JStr "closed" |}
    "8a2f6c1e" "t0ken" Hv eq_refl eq_refl eq_refl eq_refl eq_refl
    ledger_reflects_creations eq_refl).
  reflexivity.
Defined.

(* ================================================================== *)
(** ** The body, however it arrives *)

Lemma push_all (readable : list Chunk) (chunks : list string) :
  fold_left (fun chunks chunk => chunks ++ [chunk_bytes chunk]) readable chunks
  = chunks ++ map chunk_bytes readable.
Proof.
  revert chunks. induction readable as [ | c readable IH ]; intros chunks;
    cbn [fold_left map]; [ now rewrite app_nil_r | ].
  rewrite IH, <- app_assoc. reflexivity.
Qed.

Lemma Buffer_concat_app (xs ys : list string) :
  Buffer_concat (xs ++ ys) = (Buffer_concat xs ++ Buffer_concat ys)%string.
Proof.
  induction xs as [ | x xs IH ]; cbn [Buffer_concat app append];
    [ reflexivity | ].
  rewrite IH. symmetry. apply append_assoc.
Qed.

(** X17. The body is put together before it is decoded, so where the stream
    cuts it does not matter, not even inside a character: the chunks of one
    list followed by those of another give the bytes of the first followed
    by the bytes of the second, and when the whole is well-formed UTF-8 the
    check of a POST request succeeds exactly when the header is the digest
    of the whole. *)
Theorem body_is_joined_before_decoding
    (xs ys : list Chunk) (hs : list (string * Header)) (payload : JValue)
    (w : World) (secret : string) :
  truthy (GITHUB_WEBHOOK_SECRET (env w)) = Some secret ->
  Utf8.well_formed (buffer xs ++ buffer ys) ->
  buffer (xs ++ ys) = (buffer xs ++ buffer ys)%string
  /\ (fst (verifyRequestSignature
             (received (Some "POST") hs (xs ++ ys) payload) w) = Return tt
      <-> header_to_str (header_lookup "x-hub-signature-256" hs)
          = ("sha256=" ++ hmac_sha256_hex secret (buffer xs ++ buffer ys))%string).
Proof.
  intros Hs Hw.
  assert (Hb : buffer (xs ++ ys) = (buffer xs ++ buffer ys)%string).
  { unfold buffer. rewrite !push_all. cbn [app].
    now rewrite map_app, Buffer_concat_app. }
  split; [ exact Hb | ].
  rewrite (verify_iff _ w secret Hs).
  assert (Hraw : rawBody_of (received (Some "POST") hs (xs ++ ys) payload)
                 = (buffer xs ++ buffer ys)%string).
  { rewrite rawBody_of_post; [ exact Hb | reflexivity | ].
    cbn [received stream]. now rewrite Hb. }
  rewrite Hraw. reflexivity.
Qed.

Lemma body_is_joined_before_decoding_witness :
  fst (verifyRequestSignature
         (received (Some "POST")
            [ ("x-hub-signature-256",
               HOne (expected_signature Sample.secret
                       (Bytes.to_string [0xC3; 0xA9]))) ]
            ([ BufferChunk (Bytes.to_string [0xC3]) ]
             ++ [ BufferChunk (Bytes.to_string [0xA9]) ])
            JUndefined)
         Sample.world)
  = Return tt.
Proof.
  refine (proj2 (proj2 (body_is_joined_before_decoding
    [ BufferChunk (Bytes.to_string [0xC3]) ]
    [ BufferChunk (Bytes.to_string [0xA9]) ]
    [ ("x-hub-signature-256",
       HOne (expected_signature Sample.secret (Bytes.to_string [0xC3; 0xA9]))) ]
    JUndefined Sample.world Sample.secret eq_refl _)) _).
  - apply well_formed_check. vm_compute. reflexivity.
  - reflexivity.
Defined.
